(** * Policy-App-Backend: draft/approve workflow, version snapshots,
      suggestions, reviews and login, verified over a shallow embedding.

    The handlers of [app/routers/*.py] and the guards of [app/core/auth.py]
    are written in a small state-and-exception monad over an in-memory
    relational store.  The storage provider is modelled by what the code
    relies on: [select ... eq], [update ... eq], [insert], [delete ... eq],
    [order] and [limit] over tables that are lists of typed rows (in storage
    order).  Storage calls are total in the model, so the handlers'
    catch-all [except Exception] branches (HTTP 500) are not reachable here
    and are left out.  Every column is taken to be non-null unless its type
    below is an [option]. *)

From Stdlib Require Import List String Ascii ZArith Bool Lia PeanoNat.
From Stdlib Require Import DecimalString Sorted Permutation.
Import ListNotations.
Local Open Scope string_scope.

(** ** Python values *)

(** Truthiness of an [Optional[str]]: [None] and the empty string are falsy. *)
Definition truthy (o : option string) : bool :=
  match o with
  | Some s => negb (s =? "")
  | None => false
  end.

(** The string inside an [Optional[str]] already known to be truthy. *)
Definition the (o : option string) : string :=
  match o with
  | Some s => s
  | None => ""
  end.

(** [if xs:] on a list. *)
Definition nonempty {A : Type} (l : list A) : bool :=
  match l with
  | [] => false
  | _ :: _ => true
  end.

(** Values held by the dicts the handlers return. *)
#[warnings="-register-all"]
Inductive pyval : Type :=
| PyNone
| PyStr (s : string)
| PyInt (z : Z)
| PyDict (d : list (string * pyval)).

Definition dict : Type := list (string * pyval).

(** [d.get(key, default)]. *)
Fixpoint dict_get (d : dict) (key : string) (default : pyval) : pyval :=
  match d with
  | [] => default
  | (k, v) :: d' => if k =? key then v else dict_get d' key default
  end.

(** The text of a value on which the code calls a [str] method. *)
Definition as_str (v : pyval) : string :=
  match v with
  | PyStr s => s
  | _ => ""
  end.

Definition of_opt_str (o : option string) : pyval :=
  match o with
  | Some s => PyStr s
  | None => PyNone
  end.

(** [str.lower()], on the ASCII letters. *)
Definition lower_ascii (c : ascii) : ascii :=
  let n := nat_of_ascii c in
  if ((65 <=? n) && (n <=? 90))%nat then ascii_of_nat (n + 32) else c.

Fixpoint lower (s : string) : string :=
  match s with
  | EmptyString => EmptyString
  | String c s' => String (lower_ascii c) (lower s')
  end.

(** [needle in hay] on strings. *)
Fixpoint py_in (needle hay : string) : bool :=
  if prefix needle hay then true
  else match hay with
       | EmptyString => false
       | String _ hay' => py_in needle hay'
       end.

(** ** Schemas ([app/models/schemas.py]) *)

Inductive PolicyStatus : Type := DRAFT | APPROVED.

Definition PolicyStatus_value (s : PolicyStatus) : string :=
  match s with
  | DRAFT => "draft"
  | APPROVED => "approved"
  end.

Inductive SuggestionStatus : Type := PENDING | REVIEWED | IMPLEMENTED | REJECTED.

Definition SuggestionStatus_value (s : SuggestionStatus) : string :=
  match s with
  | PENDING => "pending"
  | REVIEWED => "reviewed"
  | IMPLEMENTED => "implemented"
  | REJECTED => "rejected"
  end.

Inductive UserRole : Type := PUBLIC | ADMIN | POLICY_WORKING_GROUP.

Definition UserRole_value (r : UserRole) : string :=
  match r with
  | PUBLIC => "public"
  | ADMIN => "admin"
  | POLICY_WORKING_GROUP => "policy_working_group"
  end.

Inductive ReviewStatus : Type := CONFIRM | NEEDS_WORK.

Definition ReviewStatus_value (r : ReviewStatus) : string :=
  match r with
  | CONFIRM => "confirm"
  | NEEDS_WORK => "needs_work"
  end.

Module PolicyCreate.
Record t : Type := {
  policy_id : string;
  policy_name : string;
  section : string;
  policy_content : string;
  status : PolicyStatus
}.
End PolicyCreate.

Module PolicyUpdate.
Record t : Type := {
  policy_name : option string;
  section : option string;
  policy_content : option string;
  status : option PolicyStatus
}.
End PolicyUpdate.

Module BylawCreate.
Record t : Type := {
  bylaw_number : Z;
  bylaw_title : string;
  bylaw_content : string;
  status : PolicyStatus
}.
End BylawCreate.

Module BylawUpdate.
Record t : Type := {
  bylaw_number : option Z;
  bylaw_title : option string;
  bylaw_content : option string;
  status : option PolicyStatus
}.
End BylawUpdate.

Module SuggestionCreate.
Record t : Type := {
  policy_id : option string;
  bylaw_id : option string;
  suggestion : string;
  status : SuggestionStatus
}.
End SuggestionCreate.

(** ** Rows of the six tables *)

Definition uuid : Type := string.

(** A timestamp is the text [datetime.utcnow().isoformat()] returned. *)
Definition timestamp : Type := string.

Module UserRow.
Record t : Type := {
  id : uuid;
  email : option string;
  role : string;
  name : option string
}.
End UserRow.

Module PolicyRow.
Record t : Type := {
  id : uuid;
  policy_id : string;
  name : string;
  section : string;
  content : string;
  status : string;
  created_at : timestamp;
  updated_at : timestamp;
  created_by : string;
  updated_by : string
}.
End PolicyRow.

Module VersionRow.
Record t : Type := {
  id : uuid;
  policy_id : uuid;
  version_number : Z;
  name : string;
  section : string;
  content : string;
  status : string;
  created_at : timestamp;
  created_by : string
}.
End VersionRow.

Module BylawRow.
Record t : Type := {
  id : uuid;
  number : Z;
  title : string;
  content : string;
  status : string;
  created_at : timestamp;
  updated_at : timestamp;
  created_by : string;
  updated_by : string
}.
End BylawRow.

Module SuggestionRow.
Record t : Type := {
  id : uuid;
  policy_id : option uuid;
  bylaw_id : option uuid;
  suggestion : string;
  status : string;
  created_at : timestamp;
  updated_at : timestamp
}.
End SuggestionRow.

Module ReviewRow.
Record t : Type := {
  id : uuid;
  policy_id : string;
  user_email : string;
  review_status : string;
  created_at : timestamp;
  updated_at : timestamp
}.
End ReviewRow.

(** ** The store and the world around a request *)

Record Store : Type := {
  users : list UserRow.t;
  policies : list PolicyRow.t;
  bylaws : list BylawRow.t;
  suggestions : list SuggestionRow.t;
  policy_versions : list VersionRow.t;
  policy_reviews : list ReviewRow.t
}.

(** Besides the store a request sees the clock and the store's key
    generator.  [clock k] is what the [k]-th call of [datetime.utcnow()]
    returns and [ticks] counts the calls made so far; [uuids] and [issued]
    do the same for the surrogate keys the store gives to inserted rows. *)
Record World : Type := {
  db : Store;
  clock : nat -> timestamp;
  ticks : nat;
  uuids : nat -> uuid;
  issued : nat
}.

Definition set_db (s : Store) (w : World) : World :=
  {| db := s; clock := clock w; ticks := ticks w;
     uuids := uuids w; issued := issued w |}.

Definition empty_store : Store :=
  {| users := []; policies := []; bylaws := []; suggestions := [];
     policy_versions := []; policy_reviews := [] |}.

(** A table is a way to read and to replace one list of rows of the store. *)
Record table (R : Type) : Type := {
  rows_of : Store -> list R;
  with_rows : list R -> Store -> Store
}.

Arguments rows_of {R} t s.
Arguments with_rows {R} t rows s.

Definition USERS_TABLE : table UserRow.t :=
  {| rows_of := users;
     with_rows := fun v s =>
       {| users := v; policies := policies s; bylaws := bylaws s;
          suggestions := suggestions s; policy_versions := policy_versions s;
          policy_reviews := policy_reviews s |} |}.

Definition POLICIES_TABLE : table PolicyRow.t :=
  {| rows_of := policies;
     with_rows := fun v s =>
       {| users := users s; policies := v; bylaws := bylaws s;
          suggestions := suggestions s; policy_versions := policy_versions s;
          policy_reviews := policy_reviews s |} |}.

Definition BYLAWS_TABLE : table BylawRow.t :=
  {| rows_of := bylaws;
     with_rows := fun v s =>
       {| users := users s; policies := policies s; bylaws := v;
          suggestions := suggestions s; policy_versions := policy_versions s;
          policy_reviews := policy_reviews s |} |}.

Definition SUGGESTIONS_TABLE : table SuggestionRow.t :=
  {| rows_of := suggestions;
     with_rows := fun v s =>
       {| users := users s; policies := policies s; bylaws := bylaws s;
          suggestions := v; policy_versions := policy_versions s;
          policy_reviews := policy_reviews s |} |}.

Definition POLICY_VERSIONS_TABLE : table VersionRow.t :=
  {| rows_of := policy_versions;
     with_rows := fun v s =>
       {| users := users s; policies := policies s; bylaws := bylaws s;
          suggestions := suggestions s; policy_versions := v;
          policy_reviews := policy_reviews s |} |}.

Definition POLICY_REVIEWS_TABLE : table ReviewRow.t :=
  {| rows_of := policy_reviews;
     with_rows := fun v s =>
       {| users := users s; policies := policies s; bylaws := bylaws s;
          suggestions := suggestions s; policy_versions := policy_versions s;
          policy_reviews := v |} |}.

(** ** The handler monad: state that survives a raised [HTTPException] *)

Record HTTPException : Type := {
  status_code : nat;
  detail : string
}.

Inductive Result (A : Type) : Type :=
| Ok (a : A)
| Raise (e : HTTPException).

Arguments Ok {A} a.
Arguments Raise {A} e.

Definition M (A : Type) : Type := World -> Result A * World.

Definition ret {A : Type} (a : A) : M A := fun w => (Ok a, w).

Definition bind {A B : Type} (m : M A) (k : A -> M B) : M B :=
  fun w =>
    match m w with
    | (Ok a, w') => k a w'
    | (Raise e, w') => (Raise e, w')
    end.

Definition raise {A : Type} (code : nat) (msg : string) : M A :=
  fun w => (Raise {| status_code := code; detail := msg |}, w).

Declare Scope handler_scope.
Delimit Scope handler_scope with handler.
Notation "x <- m ;; k" := (bind m (fun x => k))
  (at level 61, m at next level, right associativity) : handler_scope.
Notation "m ;; k" := (bind m (fun _ => k))
  (at level 61, right associativity) : handler_scope.
Local Open Scope handler_scope.

(** [datetime.utcnow().isoformat()]: one more reading of the clock. *)
Definition utcnow : M timestamp :=
  fun w => (Ok (clock w (ticks w)),
            {| db := db w; clock := clock w; ticks := S (ticks w);
               uuids := uuids w; issued := issued w |}).

(** The surrogate key the store gives to a row inserted without one. *)
Definition gen_uuid : M uuid :=
  fun w => (Ok (uuids w (issued w)),
            {| db := db w; clock := clock w; ticks := ticks w;
               uuids := uuids w; issued := S (issued w) |}).

(** [db.table(t).select(...).eq(...)...execute().data]; [post] is what
    [order], [limit] and [range] do to the rows the filters keep. *)
Definition query {R : Type} (t : table R) (p : R -> bool)
  (post : list R -> list R) : M (list R) :=
  fun w => (Ok (post (filter p (rows_of t (db w)))), w).

Definition select {R : Type} (t : table R) (p : R -> bool) : M (list R) :=
  query t p (fun rows => rows).

(** [order(col)] and [order(col, desc=True)]: a stable insertion sort by the
    comparison [le]. *)
Fixpoint order_insert {R : Type} (le : R -> R -> bool) (x : R) (l : list R)
  : list R :=
  match l with
  | [] => [x]
  | y :: l' => if le x y then x :: y :: l' else y :: order_insert le x l'
  end.

Fixpoint order {R : Type} (le : R -> R -> bool) (l : list R) : list R :=
  match l with
  | [] => []
  | x :: l' => order_insert le x (order le l')
  end.

(** [limit(n)] *)
Definition limit {R : Type} (n : nat) (l : list R) : list R := firstn n l.

(** [range(first, last)] with [last = first + count - 1]. *)
Definition range {R : Type} (first count : nat) (l : list R) : list R :=
  firstn count (skipn first l).

(** [db.table(t).update(data).eq(...)...execute().data]: every matching row
    is rewritten in place, and the rewritten rows are returned. *)
Definition update {R : Type} (t : table R) (data : R -> R) (p : R -> bool)
  : M (list R) :=
  fun w =>
    let rows := rows_of t (db w) in
    (Ok (map data (filter p rows)),
     set_db (with_rows t (map (fun r => if p r then data r else r) rows) (db w)) w).

(** [db.table(t).insert(row).execute().data] *)
Definition insert {R : Type} (t : table R) (row : R) : M (list R) :=
  fun w =>
    (Ok [row], set_db (with_rows t (rows_of t (db w) ++ [row]) (db w)) w).

(** [db.table(t).delete().eq(...).execute()] *)
Definition delete {R : Type} (t : table R) (p : R -> bool) : M unit :=
  fun w =>
    (Ok tt,
     set_db (with_rows t (filter (fun r => negb (p r)) (rows_of t (db w))) (db w)) w).

(** ** Guards ([app/core/auth.py]) *)

(** The dict [get_current_user] returns, once the identity provider has
    verified the bearer token. *)
Module CurrentUser.
Record t : Type := {
  id : string;
  email : option string;
  role : string
}.
End CurrentUser.

(** [str(xs)] of a list of strings. *)
Definition repr_list (xs : list string) : string :=
  "[" ++ String.concat ", " (map (fun x => "'" ++ x ++ "'") xs) ++ "]".

Definition require_role (allowed_roles : list UserRole)
  (current_user : CurrentUser.t) : M CurrentUser.t :=
  let user_role := CurrentUser.role current_user in
  if negb (existsb (String.eqb user_role) (map UserRole_value allowed_roles))
  then raise 403 ("Access denied. Required roles: "
                  ++ repr_list (map UserRole_value allowed_roles))
  else ret current_user.

Definition require_admin : CurrentUser.t -> M CurrentUser.t :=
  require_role [ADMIN].

Definition require_suggestion_manager : CurrentUser.t -> M CurrentUser.t :=
  require_role [ADMIN; POLICY_WORKING_GROUP].

(** ** Policies ([app/routers/policies.py]) *)

Definition convert_policy_from_db (row : PolicyRow.t) : dict :=
  [ ("id", PyStr (PolicyRow.id row));
    ("policy_id", PyStr (PolicyRow.policy_id row));
    ("policy_name", PyStr (PolicyRow.name row));
    ("section", PyStr (PolicyRow.section row));
    ("policy_content", PyStr (PolicyRow.content row));
    ("status", PyStr (PolicyRow.status row));
    ("created_at", PyStr (PolicyRow.created_at row));
    ("updated_at", PyStr (PolicyRow.updated_at row));
    ("created_by", PyStr (PolicyRow.created_by row));
    ("updated_by", PyStr (PolicyRow.updated_by row)) ].

(** [.order("section").order("policy_id")] *)
Definition by_section_then_policy_id (a b : PolicyRow.t) : bool :=
  match String.compare (PolicyRow.section a) (PolicyRow.section b) with
  | Lt => true
  | Gt => false
  | Eq => String.leb (PolicyRow.policy_id a) (PolicyRow.policy_id b)
  end.

(** An optional filter [if v: query = query.eq(col, v)]. *)
Definition eq_if_given (v : option string) (col : string) : bool :=
  if truthy v then col =? the v else true.

(** [limit] and [offset] arrive validated (1..100 and >= 0). *)
Definition get_policies (status : option PolicyStatus) (section : option string)
  (search : option string) (policy_id : option string) (limit offset : nat)
  : M (list dict) :=
  response <- query POLICIES_TABLE
    (fun r =>
       match status with
       | Some st => PolicyRow.status r =? PolicyStatus_value st
       | None => true
       end
       && eq_if_given section (PolicyRow.section r)
       && eq_if_given policy_id (PolicyRow.policy_id r))
    (fun rows => range offset limit (order by_section_then_policy_id rows)) ;;
  let policies := map convert_policy_from_db response in
  if truthy search then
    let search_lower := lower (the search) in
    ret (filter
           (fun p =>
              py_in search_lower (lower (as_str (dict_get p "policy_name" (PyStr ""))))
              || py_in search_lower (lower (as_str (dict_get p "policy_id" (PyStr ""))))
              || py_in search_lower (lower (as_str (dict_get p "policy_content" (PyStr "")))))
           policies)
  else ret policies.

Definition get_approved_policies (section : option string)
  (search : option string) : M (list dict) :=
  response <- query POLICIES_TABLE
    (fun r =>
       (PolicyRow.status r =? "approved")
       && eq_if_given section (PolicyRow.section r))
    (order by_section_then_policy_id) ;;
  let policies := map convert_policy_from_db response in
  if truthy search then
    let search_lower := lower (the search) in
    ret (filter
           (fun p =>
              py_in search_lower (lower (as_str (dict_get p "name" (PyStr ""))))
              || py_in search_lower (lower (as_str (dict_get p "policy_id" (PyStr ""))))
              || py_in search_lower (lower (as_str (dict_get p "content" (PyStr "")))))
           policies)
  else ret policies.

Definition get_approved_policy_by_id (policy_id : string) : M dict :=
  response <- select POLICIES_TABLE
    (fun r => (PolicyRow.policy_id r =? policy_id)
              && (PolicyRow.status r =? "approved")) ;;
  match response with
  | [] => raise 404 "Policy not found"
  | row :: _ => ret (convert_policy_from_db row)
  end.

Definition create_policy (policy : PolicyCreate.t) (current_user : CurrentUser.t)
  : M dict :=
  existing <- select POLICIES_TABLE
    (fun r => PolicyRow.policy_id r =? PolicyCreate.policy_id policy) ;;
  if nonempty existing then raise 400 "Policy ID already exists"
  else
    created_at <- utcnow ;;
    updated_at <- utcnow ;;
    id <- gen_uuid ;;
    response <- insert POLICIES_TABLE
      {| PolicyRow.id := id;
         PolicyRow.policy_id := PolicyCreate.policy_id policy;
         PolicyRow.name := PolicyCreate.policy_name policy;
         PolicyRow.section := PolicyCreate.section policy;
         PolicyRow.content := PolicyCreate.policy_content policy;
         PolicyRow.status := PolicyStatus_value DRAFT;
         PolicyRow.created_at := created_at;
         PolicyRow.updated_at := updated_at;
         PolicyRow.created_by := CurrentUser.id current_user;
         PolicyRow.updated_by := CurrentUser.id current_user |} ;;
    match response with
    | [] => raise 500 "Failed to create policy"
    | row :: _ => ret (convert_policy_from_db row)
    end.

(** The [update_data] dict of [update_policy] and [approve_policy]: a key
    that is absent is [None]. *)
Module PolicyData.
Record t : Type := {
  name : option string;
  section : option string;
  content : option string;
  status : option string;
  updated_at : option timestamp;
  updated_by : option string
}.
End PolicyData.

Definition or_keep {A : Type} (o : option A) (current : A) : A :=
  match o with
  | Some v => v
  | None => current
  end.

(** What [update(update_data)] does to one row. *)
Definition policy_set (d : PolicyData.t) (r : PolicyRow.t) : PolicyRow.t :=
  {| PolicyRow.id := PolicyRow.id r;
     PolicyRow.policy_id := PolicyRow.policy_id r;
     PolicyRow.name := or_keep (PolicyData.name d) (PolicyRow.name r);
     PolicyRow.section := or_keep (PolicyData.section d) (PolicyRow.section r);
     PolicyRow.content := or_keep (PolicyData.content d) (PolicyRow.content r);
     PolicyRow.status := or_keep (PolicyData.status d) (PolicyRow.status r);
     PolicyRow.created_at := PolicyRow.created_at r;
     PolicyRow.updated_at := or_keep (PolicyData.updated_at d) (PolicyRow.updated_at r);
     PolicyRow.created_by := PolicyRow.created_by r;
     PolicyRow.updated_by := or_keep (PolicyData.updated_by d) (PolicyRow.updated_by r) |}.

(** [x is not None and x != current] *)
Definition given_and_differs (x : option string) (current : string) : bool :=
  match x with
  | Some v => negb (v =? current)
  | None => false
  end.

Definition has_changes (policy_update : PolicyUpdate.t)
  (update_data : PolicyData.t) (existing_policy : PolicyRow.t) : bool :=
  given_and_differs (PolicyUpdate.policy_name policy_update) (PolicyRow.name existing_policy)
  || given_and_differs (PolicyUpdate.section policy_update) (PolicyRow.section existing_policy)
  || given_and_differs (PolicyUpdate.policy_content policy_update) (PolicyRow.content existing_policy)
  || given_and_differs (PolicyData.status update_data) (PolicyRow.status existing_policy).

Definition version_number_desc (a b : VersionRow.t) : bool :=
  (VersionRow.version_number b <=? VersionRow.version_number a)%Z.

Definition update_policy (policy_id : string) (policy_update : PolicyUpdate.t)
  (current_user : CurrentUser.t) : M dict :=
  existing <- select POLICIES_TABLE (fun r => PolicyRow.policy_id r =? policy_id) ;;
  match existing with
  | [] => raise 404 "Policy not found"
  | existing_policy :: _ =>
    let policy_uuid := PolicyRow.id existing_policy in
    let update_data :=
      {| PolicyData.name := PolicyUpdate.policy_name policy_update;
         PolicyData.section := PolicyUpdate.section policy_update;
         PolicyData.content := PolicyUpdate.policy_content policy_update;
         PolicyData.status := Some (PolicyStatus_value DRAFT);
         PolicyData.updated_at := None;
         PolicyData.updated_by := None |} in
    (if has_changes policy_update update_data existing_policy then
       versions_response <- query POLICY_VERSIONS_TABLE
         (fun v => VersionRow.policy_id v =? policy_uuid)
         (fun rows => limit 1 (order version_number_desc rows)) ;;
       let next_version :=
         match versions_response with
         | v :: _ => (VersionRow.version_number v + 1)%Z
         | [] => 1%Z
         end in
       created_at <- utcnow ;;
       id <- gen_uuid ;;
       insert POLICY_VERSIONS_TABLE
         {| VersionRow.id := id;
            VersionRow.policy_id := policy_uuid;
            VersionRow.version_number := next_version;
            VersionRow.name := PolicyRow.name existing_policy;
            VersionRow.section := PolicyRow.section existing_policy;
            VersionRow.content := PolicyRow.content existing_policy;
            VersionRow.status := PolicyRow.status existing_policy;
            VersionRow.created_at := created_at;
            VersionRow.created_by := CurrentUser.id current_user |} ;;
       ret tt
     else ret tt) ;;
    updated_at <- utcnow ;;
    let update_data :=
      {| PolicyData.name := PolicyData.name update_data;
         PolicyData.section := PolicyData.section update_data;
         PolicyData.content := PolicyData.content update_data;
         PolicyData.status := PolicyData.status update_data;
         PolicyData.updated_at := Some updated_at;
         PolicyData.updated_by := Some (CurrentUser.id current_user) |} in
    response <- update POLICIES_TABLE (policy_set update_data)
      (fun r => PolicyRow.policy_id r =? policy_id) ;;
    match response with
    | [] => raise 500 "Failed to update policy"
    | row :: _ => ret (convert_policy_from_db row)
    end
  end.

Definition delete_policy (policy_id : string) : M unit :=
  existing <- select POLICIES_TABLE (fun r => PolicyRow.policy_id r =? policy_id) ;;
  if negb (nonempty existing) then raise 404 "Policy not found"
  else delete POLICIES_TABLE (fun r => PolicyRow.policy_id r =? policy_id).

Definition approve_policy (policy_id : string) (current_user : CurrentUser.t)
  : M dict :=
  existing <- select POLICIES_TABLE (fun r => PolicyRow.policy_id r =? policy_id) ;;
  match existing with
  | [] => raise 404 "Policy not found"
  | existing_policy :: _ =>
    let current_status := PolicyRow.status existing_policy in
    if current_status =? PolicyStatus_value APPROVED
    then raise 400 "Policy is already approved"
    else
      updated_at <- utcnow ;;
      let update_data :=
        {| PolicyData.name := None;
           PolicyData.section := None;
           PolicyData.content := None;
           PolicyData.status := Some (PolicyStatus_value APPROVED);
           PolicyData.updated_at := Some updated_at;
           PolicyData.updated_by := Some (CurrentUser.id current_user) |} in
      response <- update POLICIES_TABLE (policy_set update_data)
        (fun r => PolicyRow.policy_id r =? policy_id) ;;
      match response with
      | [] => raise 500 "Failed to approve policy"
      | row :: _ => ret (convert_policy_from_db row)
      end
  end.

(** The [review_data] dict of [submit_policy_review], as the update writes
    it: [created_at] is not among its keys. *)
Definition review_set (policy_id user_email review_status : string)
  (updated_at : timestamp) (r : ReviewRow.t) : ReviewRow.t :=
  {| ReviewRow.id := ReviewRow.id r;
     ReviewRow.policy_id := policy_id;
     ReviewRow.user_email := user_email;
     ReviewRow.review_status := review_status;
     ReviewRow.created_at := ReviewRow.created_at r;
     ReviewRow.updated_at := updated_at |}.

Definition review_submitted : pyval :=
  PyDict [("message", PyStr "Review submitted successfully")].

Definition submit_policy_review (policy_id : string) (review : ReviewStatus)
  (current_user : option CurrentUser.t) : M pyval :=
  match current_user with
  | None => raise 401 "Authentication required"
  | Some current_user =>
    let user_email := CurrentUser.email current_user in
    user_email <-
      (if negb (truthy user_email) then
         let user_id := CurrentUser.id current_user in
         if negb (user_id =? "") then
           user_response <- select USERS_TABLE (fun u => UserRow.id u =? user_id) ;;
           match user_response with
           | u :: _ => ret (UserRow.email u)
           | [] => ret user_email
           end
         else ret user_email
       else ret user_email) ;;
    match user_email with
    | None => raise 400 "User email not found"
    | Some user_email =>
      if user_email =? "" then raise 400 "User email not found"
      else
        policy_check <- select POLICIES_TABLE
          (fun r => PolicyRow.policy_id r =? policy_id) ;;
        if negb (nonempty policy_check) then raise 404 "Policy not found"
        else
          existing_review <- select POLICY_REVIEWS_TABLE
            (fun r => (ReviewRow.policy_id r =? policy_id)
                      && (ReviewRow.user_email r =? user_email)) ;;
          updated_at <- utcnow ;;
          if nonempty existing_review then
            update POLICY_REVIEWS_TABLE
              (review_set policy_id user_email (ReviewStatus_value review) updated_at)
              (fun r => (ReviewRow.policy_id r =? policy_id)
                        && (ReviewRow.user_email r =? user_email)) ;;
            ret review_submitted
          else
            created_at <- utcnow ;;
            id <- gen_uuid ;;
            insert POLICY_REVIEWS_TABLE
              {| ReviewRow.id := id;
                 ReviewRow.policy_id := policy_id;
                 ReviewRow.user_email := user_email;
                 ReviewRow.review_status := ReviewStatus_value review;
                 ReviewRow.created_at := created_at;
                 ReviewRow.updated_at := updated_at |} ;;
            ret review_submitted
    end
  end.

Definition reset_all_policy_reviews : M pyval :=
  reviews_response <- select POLICY_REVIEWS_TABLE (fun _ => true) ;;
  let review_count := List.length reviews_response in
  (if (0 <? review_count)%nat then
     let all_review_ids := map ReviewRow.id reviews_response in
     delete POLICY_REVIEWS_TABLE
       (fun r => existsb (String.eqb (ReviewRow.id r)) all_review_ids)
   else ret tt) ;;
  ret (PyDict [("message", PyStr "All reviews for all policies have been reset");
               ("deleted_count", PyInt (Z.of_nat review_count))]).

(** ** Bylaws ([app/routers/bylaws.py]) *)

Definition convert_bylaw_from_db (row : BylawRow.t) : dict :=
  [ ("id", PyStr (BylawRow.id row));
    ("bylaw_number", PyInt (BylawRow.number row));
    ("bylaw_title", PyStr (BylawRow.title row));
    ("bylaw_content", PyStr (BylawRow.content row));
    ("status", PyStr (BylawRow.status row));
    ("created_at", PyStr (BylawRow.created_at row));
    ("updated_at", PyStr (BylawRow.updated_at row));
    ("created_by", PyStr (BylawRow.created_by row));
    ("updated_by", PyStr (BylawRow.updated_by row)) ].

Module BylawData.
Record t : Type := {
  number : option Z;
  title : option string;
  content : option string;
  status : option string;
  updated_at : option timestamp;
  updated_by : option string
}.
End BylawData.

Definition bylaw_set (d : BylawData.t) (r : BylawRow.t) : BylawRow.t :=
  {| BylawRow.id := BylawRow.id r;
     BylawRow.number := or_keep (BylawData.number d) (BylawRow.number r);
     BylawRow.title := or_keep (BylawData.title d) (BylawRow.title r);
     BylawRow.content := or_keep (BylawData.content d) (BylawRow.content r);
     BylawRow.status := or_keep (BylawData.status d) (BylawRow.status r);
     BylawRow.created_at := BylawRow.created_at r;
     BylawRow.updated_at := or_keep (BylawData.updated_at d) (BylawRow.updated_at r);
     BylawRow.created_by := BylawRow.created_by r;
     BylawRow.updated_by := or_keep (BylawData.updated_by d) (BylawRow.updated_by r) |}.

Definition create_bylaw (bylaw : BylawCreate.t) (current_user : CurrentUser.t)
  : M dict :=
  let bylaw_number := BylawCreate.bylaw_number bylaw in
  existing <- select BYLAWS_TABLE (fun r => (BylawRow.number r =? bylaw_number)%Z) ;;
  if nonempty existing then raise 400 "Bylaw number already exists"
  else
    created_at <- utcnow ;;
    updated_at <- utcnow ;;
    id <- gen_uuid ;;
    response <- insert BYLAWS_TABLE
      {| BylawRow.id := id;
         BylawRow.number := bylaw_number;
         BylawRow.title := BylawCreate.bylaw_title bylaw;
         BylawRow.content := BylawCreate.bylaw_content bylaw;
         BylawRow.status := "draft";
         BylawRow.created_at := created_at;
         BylawRow.updated_at := updated_at;
         BylawRow.created_by := CurrentUser.id current_user;
         BylawRow.updated_by := CurrentUser.id current_user |} ;;
    match response with
    | [] => raise 500 "Failed to create bylaw"
    | row :: _ => ret (convert_bylaw_from_db row)
    end.

Definition update_bylaw (bylaw_id : string) (bylaw_update : BylawUpdate.t)
  (current_user : CurrentUser.t) : M dict :=
  existing <- select BYLAWS_TABLE (fun r => BylawRow.id r =? bylaw_id) ;;
  if negb (nonempty existing) then raise 404 "Bylaw not found"
  else
    updated_at <- utcnow ;;
    let update_data :=
      {| BylawData.number := BylawUpdate.bylaw_number bylaw_update;
         BylawData.title := BylawUpdate.bylaw_title bylaw_update;
         BylawData.content := BylawUpdate.bylaw_content bylaw_update;
         BylawData.status := Some "draft";
         BylawData.updated_at := Some updated_at;
         BylawData.updated_by := Some (CurrentUser.id current_user) |} in
    response <- update BYLAWS_TABLE (bylaw_set update_data)
      (fun r => BylawRow.id r =? bylaw_id) ;;
    match response with
    | [] => raise 500 "Failed to update bylaw"
    | row :: _ => ret (convert_bylaw_from_db row)
    end.

Definition approve_bylaw (bylaw_id : string) (current_user : CurrentUser.t)
  : M dict :=
  existing <- select BYLAWS_TABLE (fun r => BylawRow.id r =? bylaw_id) ;;
  match existing with
  | [] => raise 404 "Bylaw not found"
  | existing_bylaw :: _ =>
    let current_status := BylawRow.status existing_bylaw in
    if current_status =? PolicyStatus_value APPROVED
    then raise 400 "Bylaw is already approved"
    else
      updated_at <- utcnow ;;
      let update_data :=
        {| BylawData.number := None;
           BylawData.title := None;
           BylawData.content := None;
           BylawData.status := Some (PolicyStatus_value APPROVED);
           BylawData.updated_at := Some updated_at;
           BylawData.updated_by := Some (CurrentUser.id current_user) |} in
      response <- update BYLAWS_TABLE (bylaw_set update_data)
        (fun r => BylawRow.id r =? bylaw_id) ;;
      match response with
      | [] => raise 500 "Failed to approve bylaw"
      | row :: _ => ret (convert_bylaw_from_db row)
      end
  end.

Definition delete_bylaw (bylaw_id : string) : M unit :=
  existing <- select BYLAWS_TABLE (fun r => BylawRow.id r =? bylaw_id) ;;
  if negb (nonempty existing) then raise 404 "Bylaw not found"
  else delete BYLAWS_TABLE (fun r => BylawRow.id r =? bylaw_id).

(** ** Suggestions ([app/routers/suggestions.py]) *)

Definition convert_suggestion_from_db (row : SuggestionRow.t) : dict :=
  [ ("id", PyStr (SuggestionRow.id row));
    ("policy_id", of_opt_str (SuggestionRow.policy_id row));
    ("bylaw_id", of_opt_str (SuggestionRow.bylaw_id row));
    ("suggestion", PyStr (SuggestionRow.suggestion row));
    ("status", PyStr (SuggestionRow.status row));
    ("created_at", PyStr (SuggestionRow.created_at row));
    ("updated_at", PyStr (SuggestionRow.updated_at row));
    ("policy_id_text", PyNone);
    ("policy_name", PyNone);
    ("bylaw_number", PyNone);
    ("bylaw_title", PyNone) ].

Definition create_suggestion (suggestion : SuggestionCreate.t) : M dict :=
  if negb (truthy (SuggestionCreate.policy_id suggestion))
     && negb (truthy (SuggestionCreate.bylaw_id suggestion))
  then raise 400 "Either policy_id or bylaw_id must be provided"
  else
    policy_uuid <-
      (if truthy (SuggestionCreate.policy_id suggestion) then
         policy_check <- select POLICIES_TABLE
           (fun r => PolicyRow.policy_id r =? the (SuggestionCreate.policy_id suggestion)) ;;
         match policy_check with
         | [] => raise 404 "Policy not found"
         | row :: _ => ret (Some (PolicyRow.id row))
         end
       else ret None) ;;
    bylaw_uuid <-
      (if truthy (SuggestionCreate.bylaw_id suggestion) then
         bylaw_check <- select BYLAWS_TABLE
           (fun r => BylawRow.id r =? the (SuggestionCreate.bylaw_id suggestion)) ;;
         match bylaw_check with
         | [] => raise 404 "Bylaw not found"
         | row :: _ => ret (Some (BylawRow.id row))
         end
       else ret None) ;;
    created_at <- utcnow ;;
    updated_at <- utcnow ;;
    id <- gen_uuid ;;
    response <- insert SUGGESTIONS_TABLE
      {| SuggestionRow.id := id;
         SuggestionRow.policy_id := policy_uuid;
         SuggestionRow.bylaw_id := bylaw_uuid;
         SuggestionRow.suggestion := SuggestionCreate.suggestion suggestion;
         SuggestionRow.status := SuggestionStatus_value (SuggestionCreate.status suggestion);
         SuggestionRow.created_at := created_at;
         SuggestionRow.updated_at := updated_at |} ;;
    match response with
    | [] => raise 500 "Failed to create suggestion"
    | row :: _ => ret (convert_suggestion_from_db row)
    end.

Definition delete_suggestion (suggestion_id : string) : M unit :=
  existing <- select SUGGESTIONS_TABLE (fun r => SuggestionRow.id r =? suggestion_id) ;;
  if negb (nonempty existing) then raise 404 "Suggestion not found"
  else delete SUGGESTIONS_TABLE (fun r => SuggestionRow.id r =? suggestion_id).

(** ** Login ([app/routers/auth.py]) *)

(** What the identity provider's [sign_in_with_password] hands back. *)
Module AuthUser.
Record t : Type := {
  id : string;
  email : string
}.
End AuthUser.

Module Session.
Record t : Type := {
  access_token : string
}.
End Session.

Module AuthResponse.
Record t : Type := {
  user : option AuthUser.t;
  session : option Session.t
}.
End AuthResponse.

(** The provider either raises (rejected credentials) or returns a
    response, which may itself be empty. *)
Inductive sign_in_outcome : Type :=
| SignInRaises (message : string)
| SignInReturns (auth_response : option AuthResponse.t).

Definition user_set_id (id : string) (r : UserRow.t) : UserRow.t :=
  {| UserRow.id := id;
     UserRow.email := UserRow.email r;
     UserRow.role := UserRow.role r;
     UserRow.name := UserRow.name r |}.

Definition email_is (email : string) (r : UserRow.t) : bool :=
  match UserRow.email r with
  | Some e => e =? email
  | None => false
  end.

(** [insert_raises] says whether the store rejects the insert of the lazily
    created users row, the one storage failure [login] handles itself. *)
Definition login (sign_in : sign_in_outcome) (insert_raises : bool) : M pyval :=
  match sign_in with
  | SignInRaises message => raise 401 ("Login failed: " ++ message)
  | SignInReturns None => raise 401 "Invalid email or password"
  | SignInReturns (Some auth_response) =>
    match AuthResponse.user auth_response with
    | None => raise 401 "Invalid email or password"
    | Some user =>
      match AuthResponse.session auth_response with
      | None =>
        raise 401 "Email not confirmed. Please check your email and verify your account."
      | Some session =>
        let access_token := Session.access_token session in
        user_data <- select USERS_TABLE (fun r => UserRow.id r =? AuthUser.id user) ;;
        user_data <-
          (if negb (nonempty user_data) then
             user_data <- select USERS_TABLE (email_is (AuthUser.email user)) ;;
             if nonempty user_data then
               update USERS_TABLE (user_set_id (AuthUser.id user))
                 (email_is (AuthUser.email user)) ;;
               select USERS_TABLE (fun r => UserRow.id r =? AuthUser.id user)
             else ret user_data
           else ret user_data) ;;
        match user_data with
        | row :: _ =>
          let role := UserRow.role row in
          let name := UserRow.name row in
          if negb (existsb (String.eqb role) ["admin"; "policy_working_group"])
          then raise 403
                 ("Access denied. Your current role is '" ++ role
                  ++ "'. Only admin and policy working group members can access the admin dashboard. Please contact an administrator to upgrade your account.")
          else ret (PyDict
                 [ ("access_token", PyStr access_token);
                   ("token_type", PyStr "bearer");
                   ("user", PyDict
                      [ ("id", PyStr (AuthUser.id user));
                        ("email", PyStr (AuthUser.email user));
                        ("name", of_opt_str name);
                        ("role", PyStr role) ]) ])
        | [] =>
          (if insert_raises then
             user_data <- select USERS_TABLE (email_is (AuthUser.email user)) ;;
             if nonempty user_data then
               update USERS_TABLE (user_set_id (AuthUser.id user))
                 (email_is (AuthUser.email user)) ;;
               select USERS_TABLE (fun r => UserRow.id r =? AuthUser.id user) ;;
               ret tt
             else ret tt
           else
             insert USERS_TABLE
               {| UserRow.id := AuthUser.id user;
                  UserRow.email := Some (AuthUser.email user);
                  UserRow.role := "public";
                  UserRow.name := None |} ;;
             select USERS_TABLE (fun r => UserRow.id r =? AuthUser.id user) ;;
             ret tt) ;;
          raise 403 "Access denied. Only admin and policy working group members can access the admin dashboard. Please contact an administrator to upgrade your account."
        end
      end
    end
  end.

(** ** The mutating endpoints as one transition system *)

(** A request that reaches a handler.  Guarded endpoints carry the identity
    their [Depends(...)] resolved from the bearer token; the guard itself is
    run by [handle].  The user-management endpoints of [auth.py] (register,
    role change, delete user) write the users table and the identity
    provider only and are not listed. *)
Inductive request : Type :=
| POST_policies (current_user : CurrentUser.t) (policy : PolicyCreate.t)
| PUT_policy (current_user : CurrentUser.t) (policy_id : string)
    (policy_update : PolicyUpdate.t)
| DELETE_policy (current_user : CurrentUser.t) (policy_id : string)
| PUT_policy_approve (current_user : CurrentUser.t) (policy_id : string)
| POST_policy_reviews (current_user : option CurrentUser.t) (policy_id : string)
    (review : ReviewStatus)
| DELETE_policy_reviews_reset_all (current_user : CurrentUser.t)
| POST_bylaws (current_user : CurrentUser.t) (bylaw : BylawCreate.t)
| PUT_bylaw (current_user : CurrentUser.t) (bylaw_id : string)
    (bylaw_update : BylawUpdate.t)
| PUT_bylaw_approve (current_user : CurrentUser.t) (bylaw_id : string)
| DELETE_bylaw (current_user : CurrentUser.t) (bylaw_id : string)
| POST_suggestions (suggestion : SuggestionCreate.t)
| DELETE_suggestion (current_user : CurrentUser.t) (suggestion_id : string)
| POST_auth_login (sign_in : sign_in_outcome) (insert_raises : bool).

Definition handle (req : request) : M pyval :=
  match req with
  | POST_policies current_user policy =>
    current_user <- require_suggestion_manager current_user ;;
    d <- create_policy policy current_user ;; ret (PyDict d)
  | PUT_policy current_user policy_id policy_update =>
    current_user <- require_suggestion_manager current_user ;;
    d <- update_policy policy_id policy_update current_user ;; ret (PyDict d)
  | DELETE_policy current_user policy_id =>
    require_admin current_user ;;
    delete_policy policy_id ;; ret PyNone
  | PUT_policy_approve current_user policy_id =>
    current_user <- require_admin current_user ;;
    d <- approve_policy policy_id current_user ;; ret (PyDict d)
  | POST_policy_reviews current_user policy_id review =>
    submit_policy_review policy_id review current_user
  | DELETE_policy_reviews_reset_all current_user =>
    require_admin current_user ;;
    reset_all_policy_reviews
  | POST_bylaws current_user bylaw =>
    current_user <- require_suggestion_manager current_user ;;
    d <- create_bylaw bylaw current_user ;; ret (PyDict d)
  | PUT_bylaw current_user bylaw_id bylaw_update =>
    current_user <- require_suggestion_manager current_user ;;
    d <- update_bylaw bylaw_id bylaw_update current_user ;; ret (PyDict d)
  | PUT_bylaw_approve current_user bylaw_id =>
    current_user <- require_admin current_user ;;
    d <- approve_bylaw bylaw_id current_user ;; ret (PyDict d)
  | DELETE_bylaw current_user bylaw_id =>
    require_admin current_user ;;
    delete_bylaw bylaw_id ;; ret PyNone
  | POST_suggestions suggestion =>
    d <- create_suggestion suggestion ;; ret (PyDict d)
  | DELETE_suggestion current_user suggestion_id =>
    require_suggestion_manager current_user ;;
    delete_suggestion suggestion_id ;; ret PyNone
  | POST_auth_login sign_in insert_raises =>
    login sign_in insert_raises
  end.

Definition is_approve (req : request) : bool :=
  match req with
  | PUT_policy_approve _ _ | PUT_bylaw_approve _ _ => true
  | _ => false
  end.

(** The world after a sequence of requests, served one after the other. *)
Fixpoint run (reqs : list request) (w : World) : World :=
  match reqs with
  | [] => w
  | req :: reqs' => run reqs' (snd (handle req w))
  end.

(** A world with an empty store. *)
Definition fresh_world (clock : nat -> timestamp) (uuids : nat -> uuid) : World :=
  {| db := empty_store; clock := clock; ticks := 0;
     uuids := uuids; issued := 0 |}.

(** ** Vocabulary of the specification *)

(** The change-set of a policy update is non-empty: a supplied field differs
    from the current row, or the forced status [draft] differs from the
    current status. *)
Definition change_set_nonempty (policy_update : PolicyUpdate.t)
  (current : PolicyRow.t) : Prop :=
  (exists v, PolicyUpdate.policy_name policy_update = Some v
             /\ v <> PolicyRow.name current)
  \/ (exists v, PolicyUpdate.section policy_update = Some v
                /\ v <> PolicyRow.section current)
  \/ (exists v, PolicyUpdate.policy_content policy_update = Some v
                /\ v <> PolicyRow.content current)
  \/ PolicyStatus_value DRAFT <> PolicyRow.status current.

(** The version numbers stored for one policy surrogate key. *)
Definition version_numbers (policy_uuid : uuid) (vs : list VersionRow.t)
  : list Z :=
  map VersionRow.version_number
      (filter (fun v => VersionRow.policy_id v =? policy_uuid) vs).

Definition is_maximum (m : Z) (l : list Z) : Prop :=
  In m l /\ Forall (fun x => (x <= m)%Z) l.

(** The number [update_policy] gives to a new snapshot. *)
Definition next_version (policy_uuid : uuid) (vs : list VersionRow.t) : Z :=
  match limit 1 (order version_number_desc
                   (filter (fun v => VersionRow.policy_id v =? policy_uuid) vs)) with
  | v :: _ => (VersionRow.version_number v + 1)%Z
  | [] => 1%Z
  end.

(** What a successful approval writes into one row: the status and the
    two stamps, nothing else. *)
Definition approved_policy (updated_at : timestamp) (updated_by : string)
  (r : PolicyRow.t) : PolicyRow.t :=
  {| PolicyRow.id := PolicyRow.id r;
     PolicyRow.policy_id := PolicyRow.policy_id r;
     PolicyRow.name := PolicyRow.name r;
     PolicyRow.section := PolicyRow.section r;
     PolicyRow.content := PolicyRow.content r;
     PolicyRow.status := "approved";
     PolicyRow.created_at := PolicyRow.created_at r;
     PolicyRow.updated_at := updated_at;
     PolicyRow.created_by := PolicyRow.created_by r;
     PolicyRow.updated_by := updated_by |}.

Definition approved_bylaw (updated_at : timestamp) (updated_by : string)
  (r : BylawRow.t) : BylawRow.t :=
  {| BylawRow.id := BylawRow.id r;
     BylawRow.number := BylawRow.number r;
     BylawRow.title := BylawRow.title r;
     BylawRow.content := BylawRow.content r;
     BylawRow.status := "approved";
     BylawRow.created_at := BylawRow.created_at r;
     BylawRow.updated_at := updated_at;
     BylawRow.created_by := BylawRow.created_by r;
     BylawRow.updated_by := updated_by |}.

Definition http (code : nat) (msg : string) : HTTPException :=
  {| status_code := code; detail := msg |}.

(** The [update_data] an update writes: the supplied fields, the forced
    status and the two stamps. *)
Definition policy_update_data (policy_update : PolicyUpdate.t)
  (updated_at : timestamp) (updated_by : string) : PolicyData.t :=
  {| PolicyData.name := PolicyUpdate.policy_name policy_update;
     PolicyData.section := PolicyUpdate.section policy_update;
     PolicyData.content := PolicyUpdate.policy_content policy_update;
     PolicyData.status := Some "draft";
     PolicyData.updated_at := Some updated_at;
     PolicyData.updated_by := Some updated_by |}.

Definition bylaw_update_data (bylaw_update : BylawUpdate.t)
  (updated_at : timestamp) (updated_by : string) : BylawData.t :=
  {| BylawData.number := BylawUpdate.bylaw_number bylaw_update;
     BylawData.title := BylawUpdate.bylaw_title bylaw_update;
     BylawData.content := BylawUpdate.bylaw_content bylaw_update;
     BylawData.status := Some "draft";
     BylawData.updated_at := Some updated_at;
     BylawData.updated_by := Some updated_by |}.

(** The rows of the review table for one (policy, user email) pair. *)
Definition same_review (policy_id user_email : string) (r : ReviewRow.t) : bool :=
  (ReviewRow.policy_id r =? policy_id) && (ReviewRow.user_email r =? user_email).

(** The identity has a resolvable email [e]: its own, or else the email of
    the users row found by its id. *)
Definition resolvable_email (users : list UserRow.t) (current_user : CurrentUser.t)
  (e : string) : Prop :=
  e <> ""
  /\ (CurrentUser.email current_user = Some e
      \/ (truthy (CurrentUser.email current_user) = false
          /\ CurrentUser.id current_user <> ""
          /\ exists u rest,
               filter (fun r => UserRow.id r =? CurrentUser.id current_user) users
               = u :: rest
               /\ UserRow.email u = Some e)).

(** At most one review row per (policy, user email) pair. *)
Definition at_most_one_review (reviews : list ReviewRow.t) : Prop :=
  forall policy_id user_email,
    (List.length (filter (same_review policy_id user_email) reviews) <= 1)%nat.

(** Every suggestion row references a policy or a bylaw. *)
Definition has_target (r : SuggestionRow.t) : Prop :=
  SuggestionRow.policy_id r <> None \/ SuggestionRow.bylaw_id r <> None.

(** The users row of a signed-in account: the one with its id, or else the
    one with its email. *)
Definition account_row (users : list UserRow.t) (user : AuthUser.t)
  : option UserRow.t :=
  match filter (fun r => UserRow.id r =? AuthUser.id user) users with
  | row :: _ => Some row
  | [] =>
    match filter (email_is (AuthUser.email user)) users with
    | row :: _ => Some row
    | [] => None
    end
  end.

(** A row's name, policy code or content contains the search string,
    case-insensitively. *)
Definition search_matches (search : string) (row : PolicyRow.t) : bool :=
  py_in (lower search) (lower (PolicyRow.name row))
  || py_in (lower search) (lower (PolicyRow.policy_id row))
  || py_in (lower search) (lower (PolicyRow.content row)).

(** The email [submit_policy_review] ends up with, or [None] when it has
    none to use. *)
Definition resolved_email (users : list UserRow.t) (current_user : CurrentUser.t)
  : option string :=
  if truthy (CurrentUser.email current_user) then CurrentUser.email current_user
  else if CurrentUser.id current_user =? "" then None
  else match filter (fun r => UserRow.id r =? CurrentUser.id current_user) users with
       | u :: _ => if truthy (UserRow.email u) then UserRow.email u else None
       | [] => None
       end.

(** The world after a first review by [user_email] on [policy_id] ... *)
Definition review_inserted (policy_id user_email : string) (review : ReviewStatus)
  (w : World) : World :=
  {| db := with_rows POLICY_REVIEWS_TABLE
             (policy_reviews (db w)
              ++ [ {| ReviewRow.id := uuids w (issued w);
                      ReviewRow.policy_id := policy_id;
                      ReviewRow.user_email := user_email;
                      ReviewRow.review_status := ReviewStatus_value review;
                      ReviewRow.created_at := clock w (S (ticks w));
                      ReviewRow.updated_at := clock w (ticks w) |} ])%list
             (db w);
     clock := clock w; ticks := S (S (ticks w));
     uuids := uuids w; issued := S (issued w) |}.

(** ... and after a repeated one. *)
Definition review_overwritten (policy_id user_email : string)
  (review : ReviewStatus) (w : World) : World :=
  {| db := with_rows POLICY_REVIEWS_TABLE
             (map (fun r => if same_review policy_id user_email r
                            then review_set policy_id user_email
                                   (ReviewStatus_value review) (clock w (ticks w)) r
                            else r)
                  (policy_reviews (db w)))
             (db w);
     clock := clock w; ticks := S (ticks w);
     uuids := uuids w; issued := issued w |}.

(** What [login] answers for a users row: the token for the two dashboard
    roles, HTTP 403 for any other. *)
Definition login_answer (access_token : string) (user : AuthUser.t)
  (row : UserRow.t) : Result pyval :=
  if existsb (String.eqb (UserRow.role row)) ["admin"; "policy_working_group"]
  then Ok (PyDict
             [ ("access_token", PyStr access_token);
               ("token_type", PyStr "bearer");
               ("user", PyDict
                  [ ("id", PyStr (AuthUser.id user));
                    ("email", PyStr (AuthUser.email user));
                    ("name", of_opt_str (UserRow.name row));
                    ("role", PyStr (UserRow.role row)) ]) ])
  else Raise (http 403
                ("Access denied. Your current role is '" ++ UserRow.role row
                 ++ "'. Only admin and policy working group members can access the admin dashboard. Please contact an administrator to upgrade your account.")).

Definition no_dashboard_access : HTTPException :=
  http 403 "Access denied. Only admin and policy working group members can access the admin dashboard. Please contact an administrator to upgrade your account.".

(** ** Sample data: the scenario of the specification *)

Module Sample.

Definition digit (k : nat) : string := String (ascii_of_nat (48 + k)) "".

(** A clock that advances by a microsecond between two readings. *)
Definition clock (k : nat) : timestamp :=
  "2026-01-15T09:30:00.00000" ++ digit k.

Definition uuids (k : nat) : uuid :=
  "6f1c2a9e-0000-4000-8000-00000000000" ++ digit k.

Definition admin : CurrentUser.t :=
  {| CurrentUser.id := "auth-admin";
     CurrentUser.email := Some "a@x.com";
     CurrentUser.role := "admin" |}.

Definition travel : PolicyCreate.t :=
  {| PolicyCreate.policy_id := "2.3.1";
     PolicyCreate.policy_name := "Travel";
     PolicyCreate.section := "2";
     PolicyCreate.policy_content := "Members book travel through the office.";
     PolicyCreate.status := APPROVED |}.

Definition quorum : BylawCreate.t :=
  {| BylawCreate.bylaw_number := 7;
     BylawCreate.bylaw_title := "Quorum";
     BylawCreate.bylaw_content := "Quorum is ten members.";
     BylawCreate.status := APPROVED |}.

Definition new_content : PolicyUpdate.t :=
  {| PolicyUpdate.policy_name := None;
     PolicyUpdate.section := None;
     PolicyUpdate.policy_content := Some "Members book their own travel.";
     PolicyUpdate.status := None |}.

Definition new_title : BylawUpdate.t :=
  {| BylawUpdate.bylaw_number := None;
     BylawUpdate.bylaw_title := Some "Quorum of the assembly";
     BylawUpdate.bylaw_content := None;
     BylawUpdate.status := None |}.

Definition start : World := fresh_world clock uuids.

(** One draft policy and one draft bylaw. *)
Definition drafted : World :=
  run [POST_policies admin travel; POST_bylaws admin quorum] start.

Definition bylaw_key : uuid := uuids 1.

(** The same two entities, approved. *)
Definition approved : World :=
  run [PUT_policy_approve admin "2.3.1"; PUT_bylaw_approve admin bylaw_key]
      drafted.

(** The stored policy once approved. *)
Definition approved_travel : PolicyRow.t :=
  {| PolicyRow.id := uuids 0;
     PolicyRow.policy_id := "2.3.1";
     PolicyRow.name := "Travel";
     PolicyRow.section := "2";
     PolicyRow.content := "Members book travel through the office.";
     PolicyRow.status := "approved";
     PolicyRow.created_at := clock 0;
     PolicyRow.updated_at := clock 4;
     PolicyRow.created_by := "auth-admin";
     PolicyRow.updated_by := "auth-admin" |}.

(** A suggestion that names a policy and a bylaw at once. *)
Definition both_targets : SuggestionCreate.t :=
  {| SuggestionCreate.policy_id := Some "2.3.1";
     SuggestionCreate.bylaw_id := Some bylaw_key;
     SuggestionCreate.suggestion := "Align the travel policy with the quorum bylaw.";
     SuggestionCreate.status := PENDING |}.

Definition no_target : SuggestionCreate.t :=
  {| SuggestionCreate.policy_id := None;
     SuggestionCreate.bylaw_id := Some "";
     SuggestionCreate.suggestion := "More meetings.";
     SuggestionCreate.status := PENDING |}.

(** An identity without an email and without a users row. *)
Definition phone_user : CurrentUser.t :=
  {| CurrentUser.id := "auth-phone";
     CurrentUser.email := None;
     CurrentUser.role := "public" |}.

Definition member : AuthUser.t :=
  {| AuthUser.id := "auth-member"; AuthUser.email := "m@x.com" |}.

Definition signed_in (user : AuthUser.t) : sign_in_outcome :=
  SignInReturns
    (Some {| AuthResponse.user := Some user;
             AuthResponse.session :=
               Some {| Session.access_token := "jwt-1" |} |}).

Definition users_row (user : AuthUser.t) (role : string) : UserRow.t :=
  {| UserRow.id := AuthUser.id user;
     UserRow.email := Some (AuthUser.email user);
     UserRow.role := role;
     UserRow.name := None |}.

(** The approved world with one users row of the given role. *)
Definition with_member (role : string) : World :=
  set_db (with_rows USERS_TABLE [users_row member role] (db approved)) approved.

(** The approved world after a first review by the admin. *)
Definition reviewed : World :=
  run [POST_policy_reviews (Some admin) "2.3.1" CONFIRM] approved.

End Sample.

(** * The rest of the routers and of the guards *)

(** [d[key] = v]: an existing key keeps its place. *)
Fixpoint dict_set (d : dict) (key : string) (v : pyval) : dict :=
  match d with
  | [] => [(key, v)]
  | (k, x) :: d' =>
    if k =? key then (k, v) :: d' else (k, x) :: dict_set d' key v
  end.

(** [str(n)] of an int. *)
Definition str_int (n : Z) : string := NilZero.string_of_int (Z.to_int n).

(** [str(v)] of the values the handlers apply it to: ints and strings. *)
Definition py_str (v : pyval) : string :=
  match v with
  | PyInt n => str_int n
  | other => as_str other
  end.

(** ** Policies: version history and review tally *)

Definition convert_version_from_db (row : VersionRow.t) (policy_uuid : string)
  : dict :=
  [ ("id", PyStr policy_uuid);
    ("policy_id", PyStr "");
    ("policy_name", PyStr (VersionRow.name row));
    ("section", PyStr (VersionRow.section row));
    ("policy_content", PyStr (VersionRow.content row));
    ("status", PyStr (VersionRow.status row));
    ("created_at", PyStr (VersionRow.created_at row));
    ("updated_at", PyStr (VersionRow.created_at row));
    ("created_by", PyStr (VersionRow.created_by row));
    ("updated_by", PyStr (VersionRow.created_by row)) ].

Definition get_policy_versions (policy_id : string) : M (list dict) :=
  policy_response <- select POLICIES_TABLE
    (fun r => PolicyRow.policy_id r =? policy_id) ;;
  match policy_response with
  | [] => raise 404 "Policy not found"
  | policy_data :: _ =>
    let policy_uuid := PolicyRow.id policy_data in
    let policy_identifier := PolicyRow.policy_id policy_data in
    versions_response <- query POLICY_VERSIONS_TABLE
      (fun v => VersionRow.policy_id v =? policy_uuid)
      (order version_number_desc) ;;
    ret (map (fun version_row =>
                let version_dict := convert_version_from_db version_row policy_uuid in
                dict_set version_dict "policy_id" (PyStr policy_identifier))
             versions_response)
  end.

Module PolicyReviewResponse.
Record t : Type := {
  numberOfPeople : Z;
  people : list string
}.
End PolicyReviewResponse.

Module PolicyReviewsResponse.
Record t : Type := {
  confirmed : PolicyReviewResponse.t;
  needs_work : PolicyReviewResponse.t
}.
End PolicyReviewsResponse.

(** One turn of the loop of [get_policy_reviews] over the review rows. *)
Definition tally (buckets : list string * list string) (review : ReviewRow.t)
  : list string * list string :=
  let (confirmed_emails, needs_work_emails) := buckets in
  let review_status := ReviewRow.review_status review in
  let user_email := ReviewRow.user_email review in
  if review_status =? ReviewStatus_value CONFIRM
  then ((confirmed_emails ++ [user_email])%list, needs_work_emails)
  else if review_status =? ReviewStatus_value NEEDS_WORK
       then (confirmed_emails, (needs_work_emails ++ [user_email])%list)
       else (confirmed_emails, needs_work_emails).

Definition get_policy_reviews (policy_id : string) : M PolicyReviewsResponse.t :=
  policy_check <- select POLICIES_TABLE
    (fun r => PolicyRow.policy_id r =? policy_id) ;;
  if negb (nonempty policy_check) then raise 404 "Policy not found"
  else
    reviews_response <- select POLICY_REVIEWS_TABLE
      (fun r => ReviewRow.policy_id r =? policy_id) ;;
    let (confirmed_emails, needs_work_emails) :=
      fold_left tally reviews_response ([], []) in
    ret {| PolicyReviewsResponse.confirmed :=
             {| PolicyReviewResponse.numberOfPeople :=
                  Z.of_nat (List.length confirmed_emails);
                PolicyReviewResponse.people := confirmed_emails |};
           PolicyReviewsResponse.needs_work :=
             {| PolicyReviewResponse.numberOfPeople :=
                  Z.of_nat (List.length needs_work_emails);
                PolicyReviewResponse.people := needs_work_emails |} |}.

(** ** Bylaws: the three reads *)

(** [.order("number")] *)
Definition number_asc (a b : BylawRow.t) : bool :=
  (BylawRow.number a <=? BylawRow.number b)%Z.

Definition get_bylaws (status : option PolicyStatus) (search : option string)
  (limit offset : nat) : M (list dict) :=
  response <- query BYLAWS_TABLE
    (fun r =>
       match status with
       | Some st => BylawRow.status r =? PolicyStatus_value st
       | None => true
       end)
    (fun rows => range offset limit (order number_asc rows)) ;;
  let bylaws := map convert_bylaw_from_db response in
  if truthy search then
    let search_lower := lower (the search) in
    ret (filter
           (fun b =>
              py_in search_lower (lower (as_str (dict_get b "bylaw_title" (PyStr ""))))
              || py_in search_lower (lower (py_str (dict_get b "bylaw_number" (PyStr ""))))
              || py_in search_lower (lower (as_str (dict_get b "bylaw_content" (PyStr "")))))
           bylaws)
  else ret bylaws.

Definition get_approved_bylaws (search : option string) : M (list dict) :=
  response <- query BYLAWS_TABLE
    (fun r => BylawRow.status r =? "approved")
    (order number_asc) ;;
  let bylaws := map convert_bylaw_from_db response in
  if truthy search then
    let search_lower := lower (the search) in
    ret (filter
           (fun b =>
              py_in search_lower (lower (as_str (dict_get b "bylaw_title" (PyStr ""))))
              || py_in search_lower (lower (py_str (dict_get b "bylaw_number" (PyStr ""))))
              || py_in search_lower (lower (as_str (dict_get b "bylaw_content" (PyStr "")))))
           bylaws)
  else ret bylaws.

Definition get_approved_bylaw_by_id (bylaw_id : string) : M dict :=
  response <- select BYLAWS_TABLE
    (fun r => (BylawRow.id r =? bylaw_id) && (BylawRow.status r =? "approved")) ;;
  match response with
  | [] => raise 404 "Bylaw not found"
  | row :: _ => ret (convert_bylaw_from_db row)
  end.

(** ** Suggestions: the listing *)

(** [convert_suggestion_from_db(row, policy_info, bylaw_info)]; an info, when
    given, is a dict with its two keys and so is truthy. *)
Definition convert_suggestion_with (row : SuggestionRow.t)
  (policy_info bylaw_info : option dict) : dict :=
  let result := convert_suggestion_from_db row in
  let result :=
    match policy_info with
    | Some info =>
      dict_set (dict_set result "policy_id_text" (dict_get info "policy_id" PyNone))
               "policy_name" (dict_get info "policy_name" PyNone)
    | None => result
    end in
  match bylaw_info with
  | Some info =>
    dict_set (dict_set result "bylaw_number" (dict_get info "bylaw_number" PyNone))
             "bylaw_title" (dict_get info "bylaw_title" PyNone)
  | None => result
  end.

(** A Python dict from keys to infos: [m[key] = info] and [m.get(key)]. *)
Fixpoint info_set (m : list (string * dict)) (key : string) (info : dict)
  : list (string * dict) :=
  match m with
  | [] => [(key, info)]
  | (k, x) :: m' =>
    if k =? key then (k, info) :: m' else (k, x) :: info_set m' key info
  end.

Fixpoint info_get (m : list (string * dict)) (key : string) : option dict :=
  match m with
  | [] => None
  | (k, x) :: m' => if k =? key then Some x else info_get m' key
  end.

(** [s.add(x)] on a set kept as a list without repetition. *)
Definition set_add (s : list string) (x : string) : list string :=
  if existsb (String.eqb x) s then s else (s ++ [x])%list.

(** [.order("created_at", desc=True)] *)
Definition created_at_desc (a b : SuggestionRow.t) : bool :=
  String.leb (SuggestionRow.created_at b) (SuggestionRow.created_at a).

(** What the [if policy_id:] block of [get_suggestions] leaves: no filter,
    a filter on the resolved key, or the early [return []]. *)
Inductive policy_filter : Type :=
| NoPolicyFilter
| PolicyKey (policy_uuid : uuid)
| PolicyUnknown.

Definition get_suggestions (status : option SuggestionStatus)
  (policy_id bylaw_id : option string) (limit offset : nat) : M (list dict) :=
  resolved <-
    (if truthy policy_id then
       policy_check <- select POLICIES_TABLE
         (fun r => PolicyRow.policy_id r =? the policy_id) ;;
       match policy_check with
       | row :: _ => ret (PolicyKey (PolicyRow.id row))
       | [] => ret PolicyUnknown
       end
     else ret NoPolicyFilter) ;;
  match resolved with
  | PolicyUnknown => ret []
  | _ =>
    response <- query SUGGESTIONS_TABLE
      (fun r =>
         match status with
         | Some st => SuggestionRow.status r =? SuggestionStatus_value st
         | None => true
         end
         && match resolved with
            | PolicyKey policy_uuid =>
              match SuggestionRow.policy_id r with
              | Some u => u =? policy_uuid
              | None => false
              end
            | _ => true
            end
         && (if truthy bylaw_id
             then match SuggestionRow.bylaw_id r with
                  | Some u => u =? the bylaw_id
                  | None => false
                  end
             else true))
      (fun rows => range offset limit (order created_at_desc rows)) ;;
    let policy_uuids :=
      fold_left (fun s row =>
                   if truthy (SuggestionRow.policy_id row)
                   then set_add s (the (SuggestionRow.policy_id row)) else s)
                response [] in
    let bylaw_uuids :=
      fold_left (fun s row =>
                   if truthy (SuggestionRow.bylaw_id row)
                   then set_add s (the (SuggestionRow.bylaw_id row)) else s)
                response [] in
    policy_map <-
      (if nonempty policy_uuids then
         policies_response <- select POLICIES_TABLE
           (fun r => existsb (String.eqb (PolicyRow.id r)) policy_uuids) ;;
         ret (fold_left
                (fun m policy =>
                   info_set m (PolicyRow.id policy)
                     [ ("policy_id", PyStr (PolicyRow.policy_id policy));
                       ("policy_name", PyStr (PolicyRow.name policy)) ])
                policies_response [])
       else ret []) ;;
    bylaw_map <-
      (if nonempty bylaw_uuids then
         bylaws_response <- select BYLAWS_TABLE
           (fun r => existsb (String.eqb (BylawRow.id r)) bylaw_uuids) ;;
         ret (fold_left
                (fun m bylaw =>
                   info_set m (BylawRow.id bylaw)
                     [ ("bylaw_number", PyInt (BylawRow.number bylaw));
                       ("bylaw_title", PyStr (BylawRow.title bylaw)) ])
                bylaws_response [])
       else ret []) ;;
    ret (map (fun row =>
                let policy_info :=
                  if truthy (SuggestionRow.policy_id row)
                  then info_get policy_map (the (SuggestionRow.policy_id row))
                  else None in
                let bylaw_info :=
                  if truthy (SuggestionRow.bylaw_id row)
                  then info_get bylaw_map (the (SuggestionRow.bylaw_id row))
                  else None in
                convert_suggestion_with row policy_info bylaw_info)
             response)
  end.

(** ** The identity gateway and the remaining guards ([app/core/auth.py]) *)

(** The user the identity provider's [get_user(token)] hands back. *)
Module VerifiedUser.
Record t : Type := {
  id : string;
  email : option string;
  user_metadata : pyval
}.
End VerifiedUser.

(** The provider either raises or returns a response, which may be empty
    or hold no user. *)
Inductive get_user_outcome : Type :=
| GetUserRaises (message : string)
| GetUserReturns (user_response : option (option VerifiedUser.t)).

(** The dict [get_current_user] returns: the part the handlers read, and
    the provider's metadata. *)
Module Identity.
Record t : Type := {
  current_user : CurrentUser.t;
  user_metadata : pyval
}.
End Identity.

Section IdentityGateway.

(** [str(e)] of an [HTTPException], which the web framework defines. *)
Variable HTTPException_str : HTTPException -> string.

(** Every failure inside the [try], the handler's own 401 included, leaves
    through [except Exception] as a 401. *)
Definition get_current_user (verified : get_user_outcome) : M Identity.t :=
  match verified with
  | GetUserRaises message =>
    raise 401 ("Could not validate credentials: " ++ message)
  | GetUserReturns None
  | GetUserReturns (Some None) =>
    raise 401 ("Could not validate credentials: "
               ++ HTTPException_str (http 401 "Invalid authentication credentials"))
  | GetUserReturns (Some (Some user)) =>
    user_data <- select USERS_TABLE (fun r => UserRow.id r =? VerifiedUser.id user) ;;
    role <-
      match user_data with
      | row :: _ => ret (UserRow.role row)
      | [] =>
        let role := "public" in
        insert USERS_TABLE
          {| UserRow.id := VerifiedUser.id user;
             UserRow.email := VerifiedUser.email user;
             UserRow.role := role;
             UserRow.name := None |} ;;
        ret role
      end ;;
    ret {| Identity.current_user :=
             {| CurrentUser.id := VerifiedUser.id user;
                CurrentUser.email := VerifiedUser.email user;
                CurrentUser.role := role |};
           Identity.user_metadata := VerifiedUser.user_metadata user |}
  end.

(** [credentials] is [None] when the request carries no bearer token. *)
Definition get_optional_user (credentials : option get_user_outcome)
  : M (option Identity.t) :=
  match credentials with
  | None => ret None
  | Some verified =>
    fun w =>
      match get_current_user verified w with
      | (Ok user, w') => (Ok (Some user), w')
      | (Raise _, w') => (Ok None, w')
      end
  end.

End IdentityGateway.

Definition ADMIN_DASHBOARD_ROLES : list string := ["admin"; "policy_working_group"].

Definition require_admin_dashboard_access (current_user : CurrentUser.t)
  : M CurrentUser.t :=
  let user_role := CurrentUser.role current_user in
  if negb (existsb (String.eqb user_role) ADMIN_DASHBOARD_ROLES)
  then raise 403 "Access denied. Only admin and policy working group members can access the admin dashboard."
  else ret current_user.

(** ** User management ([app/routers/auth.py]) *)

Module RegisterRequest.
Record t : Type := {
  email : string;
  password : string;
  name : option string
}.
End RegisterRequest.

(** [sign_up] answers in the shape [sign_in_with_password] does. *)
Definition register (register_data : RegisterRequest.t)
  (sign_up : sign_in_outcome) : M pyval :=
  match sign_up with
  | SignInRaises message => raise 400 ("Registration failed: " ++ message)
  | SignInReturns None => raise 400 "Registration failed"
  | SignInReturns (Some auth_response) =>
    match AuthResponse.user auth_response with
    | None => raise 400 "Registration failed"
    | Some user =>
      insert USERS_TABLE
        {| UserRow.id := AuthUser.id user;
           UserRow.email := Some (AuthUser.email user);
           UserRow.role := "policy_working_group";
           UserRow.name := RegisterRequest.name register_data |} ;;
      match AuthResponse.session auth_response with
      | Some session =>
        ret (PyDict
               [ ("access_token", PyStr (Session.access_token session));
                 ("token_type", PyStr "bearer");
                 ("user", PyDict
                    [ ("id", PyStr (AuthUser.id user));
                      ("email", PyStr (AuthUser.email user));
                      ("name", of_opt_str (RegisterRequest.name register_data));
                      ("role", PyStr "policy_working_group") ]) ])
      | None =>
        raise 200 "Registration successful. Please check your email to verify your account."
      end
    end
  end.

Definition user_set_role (role : string) (r : UserRow.t) : UserRow.t :=
  {| UserRow.id := UserRow.id r;
     UserRow.email := UserRow.email r;
     UserRow.role := role;
     UserRow.name := UserRow.name r |}.

(** [created_at] is what the store holds in the [created_at] column of the
    updated row, a column the code never writes. *)
Definition update_user_role (user_id : string) (role : UserRole)
  (current_user : CurrentUser.t) (created_at : pyval) : M pyval :=
  let user_role := CurrentUser.role current_user in
  if negb (user_role =? "admin")
  then raise 403 "Access denied. Admin role required."
  else
    response <- update USERS_TABLE (user_set_role (UserRole_value role))
      (fun r => UserRow.id r =? user_id) ;;
    match response with
    | [] => raise 404 "User not found"
    | user :: _ =>
      ret (PyDict
             [ ("id", PyStr (UserRow.id user));
               ("email", of_opt_str (UserRow.email user));
               ("name", of_opt_str (UserRow.name user));
               ("role", PyStr (UserRow.role user));
               ("created_at", created_at) ])
    end.

(** [f"{user_email}"] *)
Definition format_opt (o : option string) : string :=
  match o with
  | Some s => s
  | None => "None"
  end.

(** The account's removal at the identity provider is attempted last and
    its failure is ignored; it does not touch the store. *)
Definition delete_user (user_id : string) (current_user : CurrentUser.t)
  : M pyval :=
  let user_role := CurrentUser.role current_user in
  if negb (user_role =? "admin")
  then raise 403 "Access denied. Admin role required."
  else if user_id =? CurrentUser.id current_user
  then raise 400 "You cannot delete your own account"
  else
    user_check <- select USERS_TABLE (fun r => UserRow.id r =? user_id) ;;
    match user_check with
    | [] => raise 404 "User not found"
    | user_to_delete :: _ =>
      let user_email := UserRow.email user_to_delete in
      delete USERS_TABLE (fun r => UserRow.id r =? user_id) ;;
      ret (PyDict
             [ ("message",
                PyStr ("User " ++ format_opt user_email
                       ++ " has been deleted successfully"));
               ("deleted_user_id", PyStr user_id) ])
    end.

(** One entry of the version history of [policy], as it is returned. *)
Definition version_response (policy : PolicyRow.t) (v : VersionRow.t) : dict :=
  [ ("id", PyStr (PolicyRow.id policy));
    ("policy_id", PyStr (PolicyRow.policy_id policy));
    ("policy_name", PyStr (VersionRow.name v));
    ("section", PyStr (VersionRow.section v));
    ("policy_content", PyStr (VersionRow.content v));
    ("status", PyStr (VersionRow.status v));
    ("created_at", PyStr (VersionRow.created_at v));
    ("updated_at", PyStr (VersionRow.created_at v));
    ("created_by", PyStr (VersionRow.created_by v));
    ("updated_by", PyStr (VersionRow.created_by v)) ].

(** The versions of every policy key are numbered 1, 2, ..., in the order
    they were stored. *)
Definition numbered_from_one (vs : list VersionRow.t) : Prop :=
  forall policy_uuid,
    version_numbers policy_uuid vs
    = map Z.of_nat (seq 1 (List.length (version_numbers policy_uuid vs))).

(** The emails of the reviews of one policy that carry one status, in
    storage order. *)
Definition people_with (review_status policy_id : string)
  (reviews : list ReviewRow.t) : list string :=
  map ReviewRow.user_email
      (filter (fun r => (ReviewRow.policy_id r =? policy_id)
                        && (ReviewRow.review_status r =? review_status))
              reviews).

(** The bucket of a tally that a review status is counted in, and the
    other one. *)
Definition bucket_of (review : ReviewStatus) (tallied : PolicyReviewsResponse.t)
  : PolicyReviewResponse.t :=
  match review with
  | CONFIRM => PolicyReviewsResponse.confirmed tallied
  | NEEDS_WORK => PolicyReviewsResponse.needs_work tallied
  end.

Definition other_bucket (review : ReviewStatus)
  (tallied : PolicyReviewsResponse.t) : PolicyReviewResponse.t :=
  match review with
  | CONFIRM => PolicyReviewsResponse.needs_work tallied
  | NEEDS_WORK => PolicyReviewsResponse.confirmed tallied
  end.

(** Text on which [lower] is Python's [str.lower()]: every character is
    ASCII. *)
Definition is_ascii (s : string) : bool :=
  forallb (fun c => (nat_of_ascii c <? 128)%nat) (list_ascii_of_string s).

Definition is_upper (c : ascii) : bool :=
  ((65 <=? nat_of_ascii c) && (nat_of_ascii c <=? 90))%nat.

(** The same character, or the same letter in its two cases. *)
Definition same_ignoring_case (a b : ascii) : bool :=
  (a =? b)%char
  || (is_upper a && (nat_of_ascii b =? nat_of_ascii a + 32)%nat)
  || (is_upper b && (nat_of_ascii a =? nat_of_ascii b + 32)%nat).

Fixpoint starts_ignoring_case (needle hay : string) : bool :=
  match needle, hay with
  | EmptyString, _ => true
  | String a needle', String b hay' =>
    same_ignoring_case a b && starts_ignoring_case needle' hay'
  | String _ _, EmptyString => false
  end.

(** [needle] occurs in [hay] when the case of letters is ignored. *)
Fixpoint contains_ignoring_case (needle hay : string) : bool :=
  starts_ignoring_case needle hay
  || match hay with
     | EmptyString => false
     | String _ hay' => contains_ignoring_case needle hay'
     end.

(** A bylaw's title, number (in decimal) or content contains the search
    string, whatever the case of its letters. *)
Definition bylaw_matches (search : string) (row : BylawRow.t) : bool :=
  contains_ignoring_case search (BylawRow.title row)
  || contains_ignoring_case search (str_int (BylawRow.number row))
  || contains_ignoring_case search (BylawRow.content row).

(** The same for a policy's name, code or content. *)
Definition policy_matches (search : string) (row : PolicyRow.t) : bool :=
  contains_ignoring_case search (PolicyRow.name row)
  || contains_ignoring_case search (PolicyRow.policy_id row)
  || contains_ignoring_case search (PolicyRow.content row).

Definition bylaw_is_ascii (r : BylawRow.t) : bool :=
  is_ascii (BylawRow.title r) && is_ascii (BylawRow.content r).

Definition policy_is_ascii (r : PolicyRow.t) : bool :=
  is_ascii (PolicyRow.name r) && is_ascii (PolicyRow.policy_id r)
  && is_ascii (PolicyRow.content r).

(** The filters of the policy listing that the store applies, on one row. *)
Definition policy_listed (status : option PolicyStatus)
  (section policy_id : option string) (r : PolicyRow.t) : Prop :=
  (forall st, status = Some st -> PolicyRow.status r = PolicyStatus_value st)
  /\ (truthy section = true -> PolicyRow.section r = the section)
  /\ (truthy policy_id = true -> PolicyRow.policy_id r = the policy_id).





(** The identity a guarded request carries and the roles its guard
    admits; [None] for the three requests that have no guard. *)
Definition guard_of (req : request) : option (CurrentUser.t * list UserRole) :=
  match req with
  | POST_policies current_user _
  | PUT_policy current_user _ _
  | POST_bylaws current_user _
  | PUT_bylaw current_user _ _
  | DELETE_suggestion current_user _ =>
    Some (current_user, [ADMIN; POLICY_WORKING_GROUP])
  | DELETE_policy current_user _
  | PUT_policy_approve current_user _
  | DELETE_policy_reviews_reset_all current_user
  | PUT_bylaw_approve current_user _
  | DELETE_bylaw current_user _ =>
    Some (current_user, [ADMIN])
  | POST_policy_reviews _ _ _
  | POST_suggestions _
  | POST_auth_login _ _ => None
  end.

(** ** Requests as the server receives them *)

(** The request with the identity its dependency resolved in place of the
    one it carries. *)
Definition with_identity (current_user : CurrentUser.t) (req : request)
  : request :=
  match req with
  | POST_policies _ policy => POST_policies current_user policy
  | PUT_policy _ policy_id policy_update =>
    PUT_policy current_user policy_id policy_update
  | DELETE_policy _ policy_id => DELETE_policy current_user policy_id
  | PUT_policy_approve _ policy_id => PUT_policy_approve current_user policy_id
  | POST_policy_reviews _ policy_id review =>
    POST_policy_reviews (Some current_user) policy_id review
  | DELETE_policy_reviews_reset_all _ =>
    DELETE_policy_reviews_reset_all current_user
  | POST_bylaws _ bylaw => POST_bylaws current_user bylaw
  | PUT_bylaw _ bylaw_id bylaw_update =>
    PUT_bylaw current_user bylaw_id bylaw_update
  | PUT_bylaw_approve _ bylaw_id => PUT_bylaw_approve current_user bylaw_id
  | DELETE_bylaw _ bylaw_id => DELETE_bylaw current_user bylaw_id
  | POST_suggestions suggestion => POST_suggestions suggestion
  | DELETE_suggestion _ suggestion_id =>
    DELETE_suggestion current_user suggestion_id
  | POST_auth_login sign_in insert_raises =>
    POST_auth_login sign_in insert_raises
  end.

(** The routes whose handlers write the store: those of [request] and the
    three user-management routes of [app/routers/auth.py].  The other
    routes read only; what they can change is what their identity
    dependency changes, and the routes listed here run the same
    dependencies. *)
Inductive endpoint : Type :=
| Route (req : request)
| POST_auth_register (register_data : RegisterRequest.t)
    (sign_up : sign_in_outcome)
| PUT_auth_users_role (user_id : string) (role : UserRole) (created_at : pyval)
| DELETE_auth_users (user_id : string).

Section Server.

Variable HTTPException_str : HTTPException -> string.

(** What [HTTPBearer()] answers to a request that has no bearer token; the
    web framework defines it. *)
Variable not_authenticated : HTTPException.

(** [Depends(get_current_user)]; [credentials] is the identity provider's
    verdict on the bearer token, [None] when the request has none. *)
Definition current_user_of (credentials : option get_user_outcome)
  : M CurrentUser.t :=
  match credentials with
  | None => fun w => (Raise not_authenticated, w)
  | Some verified =>
    user <- get_current_user HTTPException_str verified ;;
    ret (Identity.current_user user)
  end.

(** [Depends(get_optional_user)] *)
Definition optional_user_of (credentials : option get_user_outcome)
  : M (option CurrentUser.t) :=
  user <- get_optional_user HTTPException_str credentials ;;
  ret (option_map Identity.current_user user).

(** One request, from its bearer token on: the identity is resolved first,
    then the guard and the handler run on it. *)
Definition serve (credentials : option get_user_outcome) (e : endpoint)
  : M pyval :=
  match e with
  | Route (POST_policy_reviews _ policy_id review) =>
    current_user <- optional_user_of credentials ;;
    handle (POST_policy_reviews current_user policy_id review)
  | Route (POST_suggestions suggestion) => handle (POST_suggestions suggestion)
  | Route (POST_auth_login sign_in insert_raises) =>
    handle (POST_auth_login sign_in insert_raises)
  | Route req =>
    current_user <- current_user_of credentials ;;
    handle (with_identity current_user req)
  | POST_auth_register register_data sign_up =>
    current_user <- current_user_of credentials ;;
    require_admin current_user ;;
    register register_data sign_up
  | PUT_auth_users_role user_id role created_at =>
    current_user <- current_user_of credentials ;;
    update_user_role user_id role current_user created_at
  | DELETE_auth_users user_id =>
    current_user <- current_user_of credentials ;;
    delete_user user_id current_user
  end.


End Server.

(** The role the users table gives to a user id: that of its first row,
    [public] when it has none. *)
Definition stored_role (user_id : string) (rows : list UserRow.t) : string :=
  match filter (fun r => UserRow.id r =? user_id) rows with
  | row :: _ => UserRow.role row
  | [] => "public"
  end.

(** The world once a verified user has a users row: unchanged when there
    is one, and with one more row, of role [public], otherwise. *)
Definition provisioned (user : VerifiedUser.t) (w : World) : World :=
  match filter (fun r => UserRow.id r =? VerifiedUser.id user) (users (db w)) with
  | _ :: _ => w
  | [] =>
    set_db (with_rows USERS_TABLE
              (users (db w)
               ++ [ {| UserRow.id := VerifiedUser.id user;
                       UserRow.email := VerifiedUser.email user;
                       UserRow.role := "public";
                       UserRow.name := None |} ])%list
              (db w)) w
  end.

Definition resolved (user : VerifiedUser.t) (w : World) : CurrentUser.t :=
  {| CurrentUser.id := VerifiedUser.id user;
     CurrentUser.email := VerifiedUser.email user;
     CurrentUser.role := stored_role (VerifiedUser.id user) (users (db w)) |}.



(** ** More sample data *)

Module More.

(** The approved world with one suggestion that names both entities. *)
Definition suggested : World :=
  run [POST_suggestions Sample.both_targets] Sample.approved.

Definition suggestion_key : uuid := Sample.uuids 2.

Definition working_group : CurrentUser.t :=
  {| CurrentUser.id := "auth-wg";
     CurrentUser.email := Some "wg@x.com";
     CurrentUser.role := "policy_working_group" |}.

Definition public_user : CurrentUser.t :=
  {| CurrentUser.id := "auth-public";
     CurrentUser.email := Some "p@x.com";
     CurrentUser.role := "public" |}.

(** The framework's [str] of an [HTTPException]. *)
Definition status_and_detail (e : HTTPException) : string :=
  str_int (Z.of_nat (status_code e)) ++ ": " ++ detail e.

Definition visitor : VerifiedUser.t :=
  {| VerifiedUser.id := "auth-visitor";
     VerifiedUser.email := Some "v@x.com";
     VerifiedUser.user_metadata := PyDict [] |}.

(** The stored member of [Sample.with_member], as the identity provider
    reports them. *)
Definition member_token : VerifiedUser.t :=
  {| VerifiedUser.id := "auth-member";
     VerifiedUser.email := Some "m@x.com";
     VerifiedUser.user_metadata := PyDict [] |}.


Definition no_bearer : HTTPException := http 403 "Not authenticated".

End More.

(** * Proofs *)

(** ** The monad and the store *)

Ltac unfold_store :=
  unfold select, query, update, insert, delete, utcnow, gen_uuid, set_db,
    raise, ret, bind in *.

Ltac store_simpl :=
  cbn [rows_of with_rows USERS_TABLE POLICIES_TABLE BYLAWS_TABLE
       SUGGESTIONS_TABLE POLICY_VERSIONS_TABLE POLICY_REVIEWS_TABLE
       users policies bylaws suggestions policy_versions policy_reviews
       db clock ticks uuids issued fst snd] in *.

Ltac break_if :=
  match goal with
  | |- context [if ?b then _ else _] => destruct b eqn:?
  end.

Ltac break_match :=
  match goal with
  | |- context [match ?x with _ => _ end] => destruct x eqn:?
  end.

Lemma given_and_differs_spec (x : option string) (current : string) :
  given_and_differs x current = true <-> exists v, x = Some v /\ v <> current.
Proof.
  unfold given_and_differs. destruct x as [v|].
  - rewrite negb_true_iff. split.
    + intros H. exists v. split; [reflexivity|]. now apply String.eqb_neq.
    + intros [v' [Hv Hne]]. injection Hv as ->. now apply String.eqb_neq.
  - split; [discriminate|]. intros [v [Hv _]]. discriminate.
Qed.

(** The test [has_changes] of [update_policy] decides the change-set. *)
Lemma has_changes_spec (policy_update : PolicyUpdate.t) (current : PolicyRow.t) :
  has_changes policy_update
    {| PolicyData.name := PolicyUpdate.policy_name policy_update;
       PolicyData.section := PolicyUpdate.section policy_update;
       PolicyData.content := PolicyUpdate.policy_content policy_update;
       PolicyData.status := Some (PolicyStatus_value DRAFT);
       PolicyData.updated_at := None;
       PolicyData.updated_by := None |} current = true
  <-> change_set_nonempty policy_update current.
Proof.
  unfold has_changes, change_set_nonempty.
  rewrite !orb_true_iff, !given_and_differs_spec.
  cbn [PolicyData.status].
  split.
  - intros [[[H|H]|H]|[v [Hv Hne]]]; auto.
    injection Hv as <-. auto.
  - intros [H|[H|[H|H]]]; auto.
    right. exists (PolicyStatus_value DRAFT). auto.
Qed.

(** ** [order(..., desc=True).limit(1)] returns a row of maximal key *)

Lemma order_desc_head (l : list VersionRow.t) :
  match order version_number_desc l with
  | [] => l = []
  | h :: _ =>
    In h l
    /\ Forall (fun v => (VersionRow.version_number v
                         <= VersionRow.version_number h)%Z) l
  end.
Proof.
  induction l as [|x l IH]; cbn [order]; [reflexivity|].
  destruct (order version_number_desc l) as [|h t].
  - subst l. cbn. split; [now left|]. constructor; [lia|constructor].
  - destruct IH as [Hin Hall]. cbn [order_insert].
    unfold version_number_desc at 1.
    destruct (Z.leb_spec (VersionRow.version_number h) (VersionRow.version_number x)).
    + split; [now left|]. constructor; [lia|].
      eapply Forall_impl; [|exact Hall]. cbn. intros; lia.
    + split; [now right|]. constructor; [lia|exact Hall].
Qed.

Lemma next_version_first (policy_uuid : uuid) (vs : list VersionRow.t) :
  version_numbers policy_uuid vs = [] -> next_version policy_uuid vs = 1%Z.
Proof.
  unfold version_numbers, next_version. intros H.
  apply map_eq_nil in H. rewrite H. reflexivity.
Qed.

Lemma next_version_max (policy_uuid : uuid) (vs : list VersionRow.t) (m : Z) :
  is_maximum m (version_numbers policy_uuid vs) ->
  next_version policy_uuid vs = (m + 1)%Z.
Proof.
  unfold version_numbers, next_version, is_maximum.
  set (l := filter _ vs). intros [Hin Hmax].
  pose proof (order_desc_head l) as Hhead.
  destruct (order version_number_desc l) as [|h t].
  - rewrite Hhead in Hin. contradiction.
  - cbn [limit firstn]. destruct Hhead as [Hh Hall].
    rewrite Forall_forall in Hmax, Hall.
    apply in_map_iff in Hin. destruct Hin as [v [Hv Hvin]].
    specialize (Hall v Hvin).
    specialize (Hmax (VersionRow.version_number h)
                  (in_map VersionRow.version_number l h Hh)).
    lia.
Qed.

(** What [update_policy] does to the version table, in closed form. *)
Lemma update_policy_versions (w : World) (policy_id : string)
  (policy_update : PolicyUpdate.t) (current_user : CurrentUser.t)
  (current : PolicyRow.t) (rest : list PolicyRow.t) :
  filter (fun r => PolicyRow.policy_id r =? policy_id) (policies (db w))
    = current :: rest ->
  policy_versions (db (snd (update_policy policy_id policy_update current_user w)))
  = (policy_versions (db w)
    ++ (if has_changes policy_update
             {| PolicyData.name := PolicyUpdate.policy_name policy_update;
                PolicyData.section := PolicyUpdate.section policy_update;
                PolicyData.content := PolicyUpdate.policy_content policy_update;
                PolicyData.status := Some (PolicyStatus_value DRAFT);
                PolicyData.updated_at := None;
                PolicyData.updated_by := None |} current
        then [ {| VersionRow.id := uuids w (issued w);
                  VersionRow.policy_id := PolicyRow.id current;
                  VersionRow.version_number :=
                    next_version (PolicyRow.id current) (policy_versions (db w));
                  VersionRow.name := PolicyRow.name current;
                  VersionRow.section := PolicyRow.section current;
                  VersionRow.content := PolicyRow.content current;
                  VersionRow.status := PolicyRow.status current;
                  VersionRow.created_at := clock w (ticks w);
                  VersionRow.created_by := CurrentUser.id current_user |} ]
        else []))%list
  /\ exists d, fst (update_policy policy_id policy_update current_user w) = Ok d.
Proof.
  intros Hex. unfold update_policy. unfold_store. store_simpl.
  rewrite Hex.
  destruct (has_changes _ _ current) eqn:Hch; store_simpl.
  - rewrite Hex. cbn [map]. store_simpl. split; [reflexivity|eauto].
  - rewrite Hex. cbn [map]. store_simpl. rewrite app_nil_r.
    split; [reflexivity|eauto].
Qed.

(** C1. A Policy update on an existing policy creates exactly one
    PolicyVersion row if and only if the change-set is non-empty (a supplied
    name, section or content differs from the current row, or the forced
    status [draft] differs from the current status; a status sent by the
    caller plays no part).  The new row is numbered one above the largest
    version number stored for the policy's surrogate key (1 when there is
    none) and carries the name, section, content and status of the
    pre-update row.  When the change-set is empty the version table is left
    as it was. *)
Theorem update_policy_snapshot (w : World) (policy_id : string)
  (policy_update : PolicyUpdate.t) (current_user : CurrentUser.t)
  (current : PolicyRow.t) (rest : list PolicyRow.t) :
  filter (fun r => PolicyRow.policy_id r =? policy_id) (policies (db w))
    = current :: rest ->
  let before := policy_versions (db w) in
  let after :=
    policy_versions (db (snd (update_policy policy_id policy_update current_user w))) in
  (exists d, fst (update_policy policy_id policy_update current_user w) = Ok d)
  /\ (List.length after = S (List.length before)
      <-> change_set_nonempty policy_update current)
  /\ (change_set_nonempty policy_update current ->
      exists v, after = (before ++ [v])%list
        /\ VersionRow.policy_id v = PolicyRow.id current
        /\ (version_numbers (PolicyRow.id current) before = [] ->
            VersionRow.version_number v = 1%Z)
        /\ (forall m, is_maximum m (version_numbers (PolicyRow.id current) before) ->
            VersionRow.version_number v = (m + 1)%Z)
        /\ VersionRow.name v = PolicyRow.name current
        /\ VersionRow.section v = PolicyRow.section current
        /\ VersionRow.content v = PolicyRow.content current
        /\ VersionRow.status v = PolicyRow.status current)
  /\ (~ change_set_nonempty policy_update current -> after = before).
Proof.
  intros Hex before after.
  destruct (update_policy_versions w policy_id policy_update current_user _ _ Hex)
    as [Hv Hok].
  fold after before in Hv.
  pose proof (has_changes_spec policy_update current) as Hspec.
  destruct (has_changes policy_update _ current).
  - assert (Hne : change_set_nonempty policy_update current) by now apply Hspec.
    split; [exact Hok|]. split; [|split].
    + rewrite Hv, length_app. cbn. split; [intros _; exact Hne|intros _; lia].
    + intros _. eexists. split; [exact Hv|]. cbn.
      repeat split; auto using next_version_first, next_version_max.
    + intros Hno. contradiction.
  - assert (Hno : ~ change_set_nonempty policy_update current).
    { intros H. apply Hspec in H. discriminate. }
    rewrite app_nil_r in Hv.
    split; [exact Hok|]. split; [|split].
    + rewrite Hv. split; [lia|intros H; contradiction].
    + intros H. contradiction.
    + intros _. exact Hv.
Qed.

Lemma update_policy_snapshot_witness :
  exists v,
    policy_versions
      (db (snd (update_policy "2.3.1" Sample.new_content Sample.admin Sample.approved)))
    = [v]
    /\ VersionRow.version_number v = 1%Z
    /\ VersionRow.status v = "approved".
Proof.
  destruct (update_policy_snapshot Sample.approved "2.3.1" Sample.new_content
              Sample.admin _ [] eq_refl) as (_ & _ & H & _).
  destruct H as (v & Hv & _ & H1 & _ & _ & _ & _ & Hs).
  - right. right. left. eexists. split; [reflexivity|discriminate].
  - exists v. split; [exact Hv|]. split; [apply H1; reflexivity|exact Hs].
Defined.

(** ** Creation *)

Lemma nonempty_false {A : Type} (l : list A) : nonempty l = false <-> l = [].
Proof. destruct l; cbn; split; congruence. Qed.

Lemma nonempty_true {A : Type} (l : list A) : nonempty l = true <-> l <> [].
Proof. destruct l; cbn; split; congruence. Qed.

(** C4 (as the code has it).  A creation request for a policy code (bylaw
    number) that is already stored fails with HTTP 400 and changes nothing.
    Otherwise exactly one row is appended: its status is [draft] whatever
    status the caller sent, [created_by] and [updated_by] are the acting
    user, and [created_at] and [updated_at] are two successive readings of
    the clock, [created_at] first. *)
Theorem create_forces_draft (w : World) (current_user : CurrentUser.t) :
  (forall policy : PolicyCreate.t,
      let existing :=
        filter (fun r => PolicyRow.policy_id r =? PolicyCreate.policy_id policy)
               (policies (db w)) in
      (existing <> [] ->
       create_policy policy current_user w = (Raise (http 400 "Policy ID already exists"), w))
      /\ (existing = [] ->
          exists row,
            fst (create_policy policy current_user w) = Ok (convert_policy_from_db row)
            /\ policies (db (snd (create_policy policy current_user w)))
               = (policies (db w) ++ [row])%list
            /\ PolicyRow.policy_id row = PolicyCreate.policy_id policy
            /\ PolicyRow.name row = PolicyCreate.policy_name policy
            /\ PolicyRow.section row = PolicyCreate.section policy
            /\ PolicyRow.content row = PolicyCreate.policy_content policy
            /\ PolicyRow.status row = "draft"
            /\ PolicyRow.created_by row = CurrentUser.id current_user
            /\ PolicyRow.updated_by row = CurrentUser.id current_user
            /\ PolicyRow.created_at row = clock w (ticks w)
            /\ PolicyRow.updated_at row = clock w (S (ticks w))))
  /\ (forall bylaw : BylawCreate.t,
      let existing :=
        filter (fun r => (BylawRow.number r =? BylawCreate.bylaw_number bylaw)%Z)
               (bylaws (db w)) in
      (existing <> [] ->
       create_bylaw bylaw current_user w = (Raise (http 400 "Bylaw number already exists"), w))
      /\ (existing = [] ->
          exists row,
            fst (create_bylaw bylaw current_user w) = Ok (convert_bylaw_from_db row)
            /\ bylaws (db (snd (create_bylaw bylaw current_user w)))
               = (bylaws (db w) ++ [row])%list
            /\ BylawRow.number row = BylawCreate.bylaw_number bylaw
            /\ BylawRow.title row = BylawCreate.bylaw_title bylaw
            /\ BylawRow.content row = BylawCreate.bylaw_content bylaw
            /\ BylawRow.status row = "draft"
            /\ BylawRow.created_by row = CurrentUser.id current_user
            /\ BylawRow.updated_by row = CurrentUser.id current_user
            /\ BylawRow.created_at row = clock w (ticks w)
            /\ BylawRow.updated_at row = clock w (S (ticks w)))).
Proof.
  split.
  - intros policy existing. subst existing. split; intros H.
    + apply nonempty_true in H.
      unfold create_policy. unfold_store. store_simpl. rewrite H. reflexivity.
    + unfold create_policy. unfold_store. store_simpl. rewrite H.
      cbn [nonempty]. store_simpl.
      eexists. split; [reflexivity|]. split; [reflexivity|].
      cbn. repeat split.
  - intros bylaw existing. subst existing. split; intros H.
    + apply nonempty_true in H.
      unfold create_bylaw. unfold_store. store_simpl. rewrite H. reflexivity.
    + unfold create_bylaw. unfold_store. store_simpl. rewrite H.
      cbn [nonempty]. store_simpl.
      eexists. split; [reflexivity|]. split; [reflexivity|].
      cbn. repeat split.
Qed.

Lemma create_forces_draft_witness :
  (exists row,
      policies (db (snd (create_policy Sample.travel Sample.admin Sample.start)))
      = [row] /\ PolicyRow.status row = "draft")
  /\ create_policy Sample.travel Sample.admin Sample.drafted
     = (Raise (http 400 "Policy ID already exists"), Sample.drafted)
  /\ (exists row,
      bylaws (db (snd (create_bylaw Sample.quorum Sample.admin Sample.start)))
      = [row] /\ BylawRow.status row = "draft")
  /\ create_bylaw Sample.quorum Sample.admin Sample.drafted
     = (Raise (http 400 "Bylaw number already exists"), Sample.drafted).
Proof.
  destruct (create_forces_draft Sample.start Sample.admin) as [Hp Hb].
  destruct (create_forces_draft Sample.drafted Sample.admin) as [Hp' Hb'].
  split; [|split; [|split]].
  - destruct (proj2 (Hp Sample.travel) eq_refl)
      as (row & _ & Hrows & _ & _ & _ & _ & Hdraft & _).
    exists row. split; [exact Hrows|exact Hdraft].
  - apply (proj1 (Hp' Sample.travel)). discriminate.
  - destruct (proj2 (Hb Sample.quorum) eq_refl)
      as (row & _ & Hrows & _ & _ & _ & Hdraft & _).
    exists row. split; [exact Hrows|exact Hdraft].
  - apply (proj1 (Hb' Sample.quorum)). discriminate.
Defined.

(** C4, the claim as stated, fails on the clock: the two stamps of a new
    row are two readings, and the second is later than the first. *)
Lemma create_policy_stamps_differ :
  exists row,
    policies (db (snd (create_policy Sample.travel Sample.admin Sample.start)))
    = [row]
    /\ PolicyRow.created_at row = "2026-01-15T09:30:00.000000"
    /\ PolicyRow.updated_at row = "2026-01-15T09:30:00.000001"
    /\ PolicyRow.created_at row <> PolicyRow.updated_at row.
Proof.
  eexists. split; [reflexivity|]. cbn.
  split; [reflexivity|]. split; [reflexivity|]. discriminate.
Qed.

(** ** Approval *)

(** C5.  Approving an unknown policy code (bylaw key) fails with HTTP 404;
    approving an entity whose status is already [approved] fails with HTTP
    400; in both cases the world is left as it was.  Otherwise the request
    succeeds: every row of that code (key) gets status [approved] and the
    stamps [updated_at], [updated_by], all other columns and all other rows
    are kept. *)
Theorem approve_sets_approved (w : World) (current_user : CurrentUser.t) :
  (forall policy_id : string,
      let existing :=
        filter (fun r => PolicyRow.policy_id r =? policy_id) (policies (db w)) in
      (existing = [] ->
       approve_policy policy_id current_user w
       = (Raise (http 404 "Policy not found"), w))
      /\ (forall current rest,
             existing = current :: rest ->
             PolicyRow.status current = "approved" ->
             approve_policy policy_id current_user w
             = (Raise (http 400 "Policy is already approved"), w))
      /\ (forall current rest,
             existing = current :: rest ->
             PolicyRow.status current <> "approved" ->
             let stamp :=
               approved_policy (clock w (ticks w)) (CurrentUser.id current_user) in
             fst (approve_policy policy_id current_user w)
             = Ok (convert_policy_from_db (stamp current))
             /\ policies (db (snd (approve_policy policy_id current_user w)))
                = map (fun r => if PolicyRow.policy_id r =? policy_id
                                then stamp r else r)
                      (policies (db w))))
  /\ (forall bylaw_id : string,
      let existing :=
        filter (fun r => BylawRow.id r =? bylaw_id) (bylaws (db w)) in
      (existing = [] ->
       approve_bylaw bylaw_id current_user w
       = (Raise (http 404 "Bylaw not found"), w))
      /\ (forall current rest,
             existing = current :: rest ->
             BylawRow.status current = "approved" ->
             approve_bylaw bylaw_id current_user w
             = (Raise (http 400 "Bylaw is already approved"), w))
      /\ (forall current rest,
             existing = current :: rest ->
             BylawRow.status current <> "approved" ->
             let stamp :=
               approved_bylaw (clock w (ticks w)) (CurrentUser.id current_user) in
             fst (approve_bylaw bylaw_id current_user w)
             = Ok (convert_bylaw_from_db (stamp current))
             /\ bylaws (db (snd (approve_bylaw bylaw_id current_user w)))
                = map (fun r => if BylawRow.id r =? bylaw_id
                                then stamp r else r)
                      (bylaws (db w)))).
Proof.
  split.
  - intros policy_id existing. subst existing. repeat split.
    + intros H. unfold approve_policy. unfold_store. store_simpl.
      rewrite H. reflexivity.
    + intros current rest H Hst. unfold approve_policy. unfold_store.
      store_simpl. rewrite H, Hst. reflexivity.
    + unfold approve_policy. unfold_store. store_simpl. rewrite H.
      apply String.eqb_neq in H0. cbn [PolicyStatus_value]. rewrite H0.
      store_simpl. rewrite H. reflexivity.
    + unfold approve_policy. unfold_store. store_simpl. rewrite H.
      apply String.eqb_neq in H0. cbn [PolicyStatus_value]. rewrite H0.
      store_simpl. rewrite H. reflexivity.
  - intros bylaw_id existing. subst existing. repeat split.
    + intros H. unfold approve_bylaw. unfold_store. store_simpl.
      rewrite H. reflexivity.
    + intros current rest H Hst. unfold approve_bylaw. unfold_store.
      store_simpl. rewrite H, Hst. reflexivity.
    + unfold approve_bylaw. unfold_store. store_simpl. rewrite H.
      apply String.eqb_neq in H0. cbn [PolicyStatus_value]. rewrite H0.
      store_simpl. rewrite H. reflexivity.
    + unfold approve_bylaw. unfold_store. store_simpl. rewrite H.
      apply String.eqb_neq in H0. cbn [PolicyStatus_value]. rewrite H0.
      store_simpl. rewrite H. reflexivity.
Qed.

Lemma approve_sets_approved_witness :
  approve_policy "9.9.9" Sample.admin Sample.drafted
  = (Raise (http 404 "Policy not found"), Sample.drafted)
  /\ approve_policy "2.3.1" Sample.admin Sample.approved
     = (Raise (http 400 "Policy is already approved"), Sample.approved)
  /\ map PolicyRow.status
         (policies (db (snd (approve_policy "2.3.1" Sample.admin Sample.drafted))))
     = ["approved"]
  /\ approve_bylaw Sample.bylaw_key Sample.admin Sample.approved
     = (Raise (http 400 "Bylaw is already approved"), Sample.approved)
  /\ map BylawRow.status
         (bylaws (db (snd (approve_bylaw Sample.bylaw_key Sample.admin Sample.drafted))))
     = ["approved"].
Proof.
  destruct (approve_sets_approved Sample.drafted Sample.admin) as [Hp Hb].
  destruct (approve_sets_approved Sample.approved Sample.admin) as [Hp' Hb'].
  split; [|split; [|split; [|split]]].
  - apply (proj1 (Hp "9.9.9")). reflexivity.
  - eapply (proj1 (proj2 (Hp' "2.3.1"))); reflexivity.
  - destruct (proj2 (proj2 (Hp "2.3.1")) _ [] eq_refl) as [_ H];
      [discriminate|]. rewrite H. reflexivity.
  - eapply (proj1 (proj2 (Hb' Sample.bylaw_key))); reflexivity.
  - destruct (proj2 (proj2 (Hb Sample.bylaw_key)) _ [] eq_refl) as [_ H];
      [discriminate|]. rewrite H. reflexivity.
Defined.

(** ** What one request does to each table *)

Ltac unfold_handlers :=
  unfold handle, create_policy, update_policy, delete_policy, approve_policy,
    submit_policy_review, reset_all_policy_reviews, create_bylaw, update_bylaw,
    approve_bylaw, delete_bylaw, create_suggestion, delete_suggestion, login,
    require_admin, require_suggestion_manager, require_role.

(** Case analysis on the innermost tests: never on a whole monadic step. *)
Ltac break_inner :=
  match goal with
  | |- context [match ?x with _ => _ end] =>
    lazymatch type of x with
    | prod _ _ => fail
    | _ => destruct x eqn:?
    end
  end.

Ltac crunch :=
  repeat (break_inner; store_simpl; cbn [map nonempty negb andb] in *).

Ltac by_cases req :=
  destruct req; unfold_handlers; unfold_store; store_simpl; crunch.

Lemma handle_policies (req : request) (w : World) :
  let before := policies (db w) in
  let after := policies (db (snd (handle req w))) in
  after = before
  \/ (exists row,
         after = (before ++ [row])%list
         /\ PolicyRow.status row = "draft"
         /\ filter (fun r => PolicyRow.policy_id r =? PolicyRow.policy_id row)
                   before = [])
  \/ (exists data policy_id,
         after = map (fun r => if PolicyRow.policy_id r =? policy_id
                               then policy_set data r else r) before
         /\ (PolicyData.status data = Some "draft" \/ is_approve req = true))
  \/ (exists policy_id,
         after = filter (fun r => negb (PolicyRow.policy_id r =? policy_id)) before).
Proof.
  intros before after. subst before after.
  by_cases req.
  all: try (left; reflexivity).
  all: try solve [right; left; eexists; split; [reflexivity|];
                  split; [reflexivity|]; now apply nonempty_false].
  all: try solve [right; right; left; do 2 eexists; split; [reflexivity|];
                  cbn; auto].
  all: right; right; right; eexists; reflexivity.
Qed.

Lemma handle_bylaws (req : request) (w : World) :
  let before := bylaws (db w) in
  let after := bylaws (db (snd (handle req w))) in
  after = before
  \/ (exists row,
         after = (before ++ [row])%list /\ BylawRow.status row = "draft")
  \/ (exists data bylaw_id,
         after = map (fun r => if BylawRow.id r =? bylaw_id
                               then bylaw_set data r else r) before
         /\ (BylawData.status data = Some "draft" \/ is_approve req = true))
  \/ (exists bylaw_id,
         after = filter (fun r => negb (BylawRow.id r =? bylaw_id)) before).
Proof.
  intros before after. subst before after.
  by_cases req.
  all: try (left; reflexivity).
  all: try solve [right; left; eexists; split; reflexivity].
  all: try solve [right; right; left; do 2 eexists; split; [reflexivity|];
                  cbn; auto].
  all: right; right; right; eexists; reflexivity.
Qed.

Lemma handle_suggestions (req : request) (w : World) :
  let before := suggestions (db w) in
  let after := suggestions (db (snd (handle req w))) in
  after = before
  \/ (exists row,
         after = (before ++ [row])%list
         /\ (SuggestionRow.policy_id row <> None
             \/ SuggestionRow.bylaw_id row <> None))
  \/ (exists p, after = filter p before).
Proof.
  intros before after. subst before after.
  by_cases req.
  all: try (left; reflexivity).
  all: try solve [right; left; eexists; split; [reflexivity|];
                  cbn; first [left; discriminate | right; discriminate]].
  all: try solve [right; right; eexists; reflexivity].
  all: discriminate.
Qed.

Lemma handle_reviews (req : request) (w : World) :
  let before := policy_reviews (db w) in
  let after := policy_reviews (db (snd (handle req w))) in
  after = before
  \/ (exists row,
         after = (before ++ [row])%list
         /\ filter (same_review (ReviewRow.policy_id row) (ReviewRow.user_email row))
                   before = [])
  \/ (exists policy_id user_email review_status updated_at,
         after = map (fun r => if same_review policy_id user_email r
                               then review_set policy_id user_email
                                      review_status updated_at r
                               else r) before)
  \/ (exists p, after = filter p before).
Proof.
  intros before after. subst before after.
  by_cases req.
  all: try (left; reflexivity).
  all: try solve [right; left; eexists; split; [reflexivity|];
                  apply nonempty_false; assumption].
  all: try solve [right; right; left; do 4 eexists; reflexivity].
  all: right; right; right; eexists; reflexivity.
Qed.

(** ** Updates force [draft]; only approval writes [approved] *)

Lemma update_policy_policies (w : World) (policy_id : string)
  (policy_update : PolicyUpdate.t) (current_user : CurrentUser.t) :
  match filter (fun r => PolicyRow.policy_id r =? policy_id) (policies (db w)) with
  | [] =>
    update_policy policy_id policy_update current_user w
    = (Raise (http 404 "Policy not found"), w)
  | current :: _ =>
    exists updated_at,
      let data :=
        policy_update_data policy_update updated_at (CurrentUser.id current_user) in
      fst (update_policy policy_id policy_update current_user w)
      = Ok (convert_policy_from_db (policy_set data current))
      /\ policies (db (snd (update_policy policy_id policy_update current_user w)))
         = map (fun r => if PolicyRow.policy_id r =? policy_id
                         then policy_set data r else r)
               (policies (db w))
  end.
Proof.
  destruct (filter _ (policies (db w))) as [|current rest] eqn:Hex.
  - unfold update_policy. unfold_store. store_simpl. rewrite Hex. reflexivity.
  - unfold update_policy. unfold_store. store_simpl. rewrite Hex.
    destruct (has_changes _ _ current); store_simpl; rewrite Hex;
      cbn [map]; store_simpl; eexists; split; reflexivity.
Qed.

Lemma update_bylaw_bylaws (w : World) (bylaw_id : string)
  (bylaw_update : BylawUpdate.t) (current_user : CurrentUser.t) :
  match filter (fun r => BylawRow.id r =? bylaw_id) (bylaws (db w)) with
  | [] =>
    update_bylaw bylaw_id bylaw_update current_user w
    = (Raise (http 404 "Bylaw not found"), w)
  | current :: _ =>
    let data :=
      bylaw_update_data bylaw_update (clock w (ticks w))
        (CurrentUser.id current_user) in
    fst (update_bylaw bylaw_id bylaw_update current_user w)
    = Ok (convert_bylaw_from_db (bylaw_set data current))
    /\ bylaws (db (snd (update_bylaw bylaw_id bylaw_update current_user w)))
       = map (fun r => if BylawRow.id r =? bylaw_id
                       then bylaw_set data r else r)
             (bylaws (db w))
  end.
Proof.
  destruct (filter _ (bylaws (db w))) as [|current rest] eqn:Hex.
  - unfold update_bylaw. unfold_store. store_simpl. rewrite Hex. reflexivity.
  - unfold update_bylaw. unfold_store. store_simpl. rewrite Hex.
    cbn [nonempty negb]. store_simpl. rewrite Hex. cbn [map]. store_simpl.
    split; reflexivity.
Qed.

Lemma in_filter_head {A : Type} (p : A -> bool) (l : list A) (x : A)
  (rest : list A) :
  filter p l = x :: rest -> In x l /\ p x = true.
Proof.
  intros H. apply filter_In. rewrite H. now left.
Qed.

(** A step that is not an approval writes [approved] into no row. *)
Lemma step_keeps_approved (req : request) (w : World) :
  is_approve req = false ->
  (forall r, In r (policies (db (snd (handle req w)))) ->
             PolicyRow.status r = "approved" -> In r (policies (db w)))
  /\ (forall r, In r (bylaws (db (snd (handle req w)))) ->
                BylawRow.status r = "approved" -> In r (bylaws (db w))).
Proof.
  intros Hreq. split.
  - intros r Hin Hst.
    destruct (handle_policies req w)
      as [H|[(row & H & Hrow & _)|[(data & pid & H & Hd)|(pid & H)]]];
      rewrite H in Hin; clear H.
    + exact Hin.
    + apply in_app_or in Hin. destruct Hin as [Hin|[<-|[]]]; [exact Hin|].
      rewrite Hrow in Hst. discriminate.
    + destruct Hd as [Hd|Hd]; [|congruence].
      apply in_map_iff in Hin. destruct Hin as (r0 & Hr & Hin).
      destruct (PolicyRow.policy_id r0 =? pid); [|now subst r].
      subst r. unfold policy_set in Hst. cbn in Hst. rewrite Hd in Hst.
      discriminate.
    + apply filter_In in Hin. tauto.
  - intros r Hin Hst.
    destruct (handle_bylaws req w)
      as [H|[(row & H & Hrow)|[(data & bid & H & Hd)|(bid & H)]]];
      rewrite H in Hin; clear H.
    + exact Hin.
    + apply in_app_or in Hin. destruct Hin as [Hin|[<-|[]]]; [exact Hin|].
      rewrite Hrow in Hst. discriminate.
    + destruct Hd as [Hd|Hd]; [|congruence].
      apply in_map_iff in Hin. destruct Hin as (r0 & Hr & Hin).
      destruct (BylawRow.id r0 =? bid); [|now subst r].
      subst r. unfold bylaw_set in Hst. cbn in Hst. rewrite Hd in Hst.
      discriminate.
    + apply filter_In in Hin. tauto.
Qed.

(** C3.  A successful update of a policy or of a bylaw leaves every stored
    row of that policy code (bylaw key) with status [draft], whatever was
    sent and whatever the status was, and answers with status [draft].  In
    a sequence of requests none of which is an approval, every row that ends
    with status [approved] was stored, as it is, before the sequence: no
    other request writes [approved]. *)
Theorem update_forces_draft :
  (forall w policy_id policy_update current_user d,
      fst (update_policy policy_id policy_update current_user w) = Ok d ->
      let after :=
        policies (db (snd (update_policy policy_id policy_update current_user w))) in
      dict_get d "status" PyNone = PyStr "draft"
      /\ (exists r, In r after /\ PolicyRow.policy_id r = policy_id)
      /\ (forall r, In r after -> PolicyRow.policy_id r = policy_id ->
                    PolicyRow.status r = "draft"))
  /\ (forall w bylaw_id bylaw_update current_user d,
      fst (update_bylaw bylaw_id bylaw_update current_user w) = Ok d ->
      let after :=
        bylaws (db (snd (update_bylaw bylaw_id bylaw_update current_user w))) in
      dict_get d "status" PyNone = PyStr "draft"
      /\ (exists r, In r after /\ BylawRow.id r = bylaw_id)
      /\ (forall r, In r after -> BylawRow.id r = bylaw_id ->
                    BylawRow.status r = "draft"))
  /\ (forall reqs w,
      forallb (fun req => negb (is_approve req)) reqs = true ->
      (forall r, In r (policies (db (run reqs w))) ->
                 PolicyRow.status r = "approved" -> In r (policies (db w)))
      /\ (forall r, In r (bylaws (db (run reqs w))) ->
                    BylawRow.status r = "approved" -> In r (bylaws (db w)))).
Proof.
  split; [|split].
  - intros w policy_id policy_update current_user d Hok after. subst after.
    pose proof (update_policy_policies w policy_id policy_update current_user) as H.
    destruct (filter _ (policies (db w))) as [|current rest] eqn:Hex.
    + rewrite H in Hok. discriminate.
    + destruct H as (t & Hres & Hrows). rewrite Hres in Hok.
      injection Hok as <-. rewrite Hrows.
      destruct (in_filter_head _ _ _ _ Hex) as [Hin Hcur].
      split; [reflexivity|]. split.
      * exists (policy_set (policy_update_data policy_update t
                              (CurrentUser.id current_user)) current).
        split; [|now apply String.eqb_eq].
        apply in_map_iff. exists current. rewrite Hcur. auto.
      * intros r Hr Hid. apply in_map_iff in Hr. destruct Hr as (r0 & Hr & _).
        destruct (PolicyRow.policy_id r0 =? policy_id) eqn:Hm.
        -- subst r. reflexivity.
        -- subst r. apply String.eqb_neq in Hm. contradiction.
  - intros w bylaw_id bylaw_update current_user d Hok after. subst after.
    pose proof (update_bylaw_bylaws w bylaw_id bylaw_update current_user) as H.
    destruct (filter _ (bylaws (db w))) as [|current rest] eqn:Hex.
    + rewrite H in Hok. discriminate.
    + destruct H as (Hres & Hrows). rewrite Hres in Hok.
      injection Hok as <-. rewrite Hrows.
      destruct (in_filter_head _ _ _ _ Hex) as [Hin Hcur].
      split; [reflexivity|]. split.
      * exists (bylaw_set (bylaw_update_data bylaw_update (clock w (ticks w))
                             (CurrentUser.id current_user)) current).
        split; [|now apply String.eqb_eq].
        apply in_map_iff. exists current. rewrite Hcur. auto.
      * intros r Hr Hid. apply in_map_iff in Hr. destruct Hr as (r0 & Hr & _).
        destruct (BylawRow.id r0 =? bylaw_id) eqn:Hm.
        -- subst r. reflexivity.
        -- subst r. apply String.eqb_neq in Hm. contradiction.
  - induction reqs as [|req reqs IH]; intros w Hall.
    + cbn. auto.
    + cbn in Hall. apply andb_true_iff in Hall. destruct Hall as [Hreq Hall].
      apply negb_true_iff in Hreq.
      destruct (step_keeps_approved req w Hreq) as [Hp Hb].
      destruct (IH (snd (handle req w)) Hall) as [IHp IHb].
      cbn [run]. split; intros r Hin Hst; auto.
Qed.

Lemma update_forces_draft_witness :
  (exists r,
      In r (policies (db (snd (update_policy "2.3.1" Sample.new_content
                                 Sample.admin Sample.approved))))
      /\ PolicyRow.policy_id r = "2.3.1" /\ PolicyRow.status r = "draft")
  /\ (exists r,
      In r (bylaws (db (snd (update_bylaw Sample.bylaw_key Sample.new_title
                               Sample.admin Sample.approved))))
      /\ BylawRow.id r = Sample.bylaw_key /\ BylawRow.status r = "draft")
  /\ In Sample.approved_travel (policies (db Sample.approved)).
Proof.
  destruct update_forces_draft as (Hp & Hb & Hrun).
  split; [|split].
  - destruct (Hp Sample.approved "2.3.1" Sample.new_content Sample.admin _ eq_refl)
      as (_ & (r & Hin & Hid) & Hall).
    exists r. auto.
  - destruct (Hb Sample.approved Sample.bylaw_key Sample.new_title Sample.admin
                _ eq_refl) as (_ & (r & Hin & Hid) & Hall).
    exists r. auto.
  - apply (proj1 (Hrun [PUT_bylaw Sample.admin Sample.bylaw_key Sample.new_title;
                        POST_suggestions Sample.both_targets]
                       Sample.approved eq_refl)).
    + left. reflexivity.
    + reflexivity.
Defined.

(** ** Suggestions *)

Lemma step_keeps_targets (req : request) (w : World) :
  (forall r, In r (suggestions (db w)) -> has_target r) ->
  forall r, In r (suggestions (db (snd (handle req w)))) -> has_target r.
Proof.
  intros Hinv r Hin.
  destruct (handle_suggestions req w) as [H|[(row & H & Hrow)|(p & H)]];
    rewrite H in Hin; clear H.
  - auto.
  - apply in_app_or in Hin. destruct Hin as [Hin|[<-|[]]]; auto.
  - apply filter_In in Hin. destruct Hin. auto.
Qed.

Lemma create_suggestion_resolved (w : World) (suggestion : SuggestionCreate.t) :
  let code := SuggestionCreate.policy_id suggestion in
  let key := SuggestionCreate.bylaw_id suggestion in
  (truthy code = true \/ truthy key = true) ->
  (truthy code = true ->
   filter (fun r => PolicyRow.policy_id r =? the code) (policies (db w)) <> []) ->
  (truthy key = true ->
   filter (fun r => BylawRow.id r =? the key) (bylaws (db w)) <> []) ->
  exists row,
    fst (create_suggestion suggestion w) = Ok (convert_suggestion_from_db row)
    /\ suggestions (db (snd (create_suggestion suggestion w)))
       = (suggestions (db w) ++ [row])%list
    /\ (truthy code = true ->
        exists policy,
          In policy (policies (db w))
          /\ PolicyRow.policy_id policy = the code
          /\ SuggestionRow.policy_id row = Some (PolicyRow.id policy))
    /\ (truthy key = true ->
        exists bylaw,
          In bylaw (bylaws (db w))
          /\ BylawRow.id bylaw = the key
          /\ SuggestionRow.bylaw_id row = Some (BylawRow.id bylaw)).
Proof.
  intros code key Hsome Hp Hb. subst code key.
  unfold create_suggestion. unfold_store. store_simpl.
  destruct (truthy (SuggestionCreate.policy_id suggestion)) eqn:Hcode;
    destruct (truthy (SuggestionCreate.bylaw_id suggestion)) eqn:Hkey;
    cbn [negb andb]; store_simpl.
  - destruct (filter _ (policies (db w))) as [|p rest] eqn:Hpe;
      [now destruct Hp|]. store_simpl.
    destruct (filter _ (bylaws (db w))) as [|b rest'] eqn:Hbe;
      [now destruct Hb|]. store_simpl.
    destruct (in_filter_head _ _ _ _ Hpe) as [Hpin Hpid].
    destruct (in_filter_head _ _ _ _ Hbe) as [Hbin Hbid].
    apply String.eqb_eq in Hpid, Hbid.
    eexists. split; [reflexivity|]. split; [reflexivity|]. split.
    + intros _. exists p. auto.
    + intros _. exists b. auto.
  - destruct (filter _ (policies (db w))) as [|p rest] eqn:Hpe;
      [now destruct Hp|]. store_simpl.
    destruct (in_filter_head _ _ _ _ Hpe) as [Hpin Hpid].
    apply String.eqb_eq in Hpid.
    eexists. split; [reflexivity|]. split; [reflexivity|]. split.
    + intros _. exists p. auto.
    + discriminate.
  - destruct (filter _ (bylaws (db w))) as [|b rest'] eqn:Hbe;
      [now destruct Hb|]. store_simpl.
    destruct (in_filter_head _ _ _ _ Hbe) as [Hbin Hbid].
    apply String.eqb_eq in Hbid.
    eexists. split; [reflexivity|]. split; [reflexivity|]. split.
    + discriminate.
    + intros _. exists b. auto.
  - destruct Hsome; discriminate.
Qed.

(** C2 (as the code has it).  Creating a suggestion fails with HTTP 400
    exactly when neither a policy target nor a bylaw target is supplied
    ([None] and the empty string both count as not supplied); a failed
    creation changes nothing.  A successful creation stores one row, which
    references the policy if and only if a policy target was supplied and
    the bylaw if and only if a bylaw target was supplied.  Consequently
    every stored Suggestion row references at least one of policy/bylaw.
    Whenever a target is supplied and every supplied target resolves, in
    particular when both are supplied and both resolve, the creation
    succeeds and the stored row references each of them. *)
Theorem create_suggestion_needs_target :
  (forall w suggestion,
      truthy (SuggestionCreate.policy_id suggestion) = false ->
      truthy (SuggestionCreate.bylaw_id suggestion) = false ->
      create_suggestion suggestion w
      = (Raise (http 400 "Either policy_id or bylaw_id must be provided"), w))
  /\ (forall w suggestion e,
      fst (create_suggestion suggestion w) = Raise e ->
      snd (create_suggestion suggestion w) = w
      /\ (status_code e = 400 ->
          truthy (SuggestionCreate.policy_id suggestion) = false
          /\ truthy (SuggestionCreate.bylaw_id suggestion) = false))
  /\ (forall w suggestion d,
      fst (create_suggestion suggestion w) = Ok d ->
      exists row,
        d = convert_suggestion_from_db row
        /\ suggestions (db (snd (create_suggestion suggestion w)))
           = (suggestions (db w) ++ [row])%list
        /\ has_target row
        /\ (SuggestionRow.policy_id row <> None
            <-> truthy (SuggestionCreate.policy_id suggestion) = true)
        /\ (SuggestionRow.bylaw_id row <> None
            <-> truthy (SuggestionCreate.bylaw_id suggestion) = true))
  /\ (forall reqs w,
      (forall r, In r (suggestions (db w)) -> has_target r) ->
      forall r, In r (suggestions (db (run reqs w))) -> has_target r)
  /\ (forall w suggestion,
      let code := SuggestionCreate.policy_id suggestion in
      let key := SuggestionCreate.bylaw_id suggestion in
      (truthy code = true \/ truthy key = true) ->
      (truthy code = true ->
       filter (fun r => PolicyRow.policy_id r =? the code) (policies (db w))
       <> []) ->
      (truthy key = true ->
       filter (fun r => BylawRow.id r =? the key) (bylaws (db w)) <> []) ->
      exists row,
        fst (create_suggestion suggestion w)
        = Ok (convert_suggestion_from_db row)
        /\ suggestions (db (snd (create_suggestion suggestion w)))
           = (suggestions (db w) ++ [row])%list
        /\ (truthy code = true ->
            exists policy,
              In policy (policies (db w))
              /\ PolicyRow.policy_id policy = the code
              /\ SuggestionRow.policy_id row = Some (PolicyRow.id policy))
        /\ (truthy key = true ->
            exists bylaw,
              In bylaw (bylaws (db w))
              /\ BylawRow.id bylaw = the key
              /\ SuggestionRow.bylaw_id row = Some (BylawRow.id bylaw))).
Proof.
  split; [|split; [|split; [|split]]].
  - intros w suggestion Hp Hb. unfold create_suggestion.
    rewrite Hp, Hb. reflexivity.
  - intros w suggestion e. unfold create_suggestion. unfold_store. store_simpl.
    crunch; intros He; try discriminate He; injection He as <-;
      (split; [reflexivity|]); cbn; intros Hc; try discriminate Hc; auto.
    apply andb_true_iff in Heqb. now rewrite !negb_true_iff in Heqb.
  - intros w suggestion d. unfold create_suggestion, has_target.
    unfold_store. store_simpl.
    crunch; intros Hd; try discriminate Hd; injection Hd as <-;
      eexists; (split; [reflexivity|]); (split; [reflexivity|]); cbn;
      repeat split; intros; try congruence; auto; try discriminate.
    all: first [left; discriminate | right; discriminate].
  - induction reqs as [|req reqs IH]; intros w Hinv r Hin.
    + auto.
    + cbn [run] in Hin. eapply IH; [|exact Hin].
      now apply step_keeps_targets.
  - intros w suggestion. apply create_suggestion_resolved.
Qed.

Lemma create_suggestion_needs_target_witness :
  create_suggestion Sample.no_target Sample.drafted
  = (Raise (http 400 "Either policy_id or bylaw_id must be provided"),
     Sample.drafted)
  /\ (exists row,
         suggestions (db (snd (create_suggestion Sample.both_targets Sample.drafted)))
         = [row] /\ has_target row)
  /\ (exists row policy bylaw,
         fst (create_suggestion Sample.both_targets Sample.drafted)
         = Ok (convert_suggestion_from_db row)
         /\ In policy (policies (db Sample.drafted))
         /\ In bylaw (bylaws (db Sample.drafted))
         /\ SuggestionRow.policy_id row = Some (PolicyRow.id policy)
         /\ SuggestionRow.bylaw_id row = Some (BylawRow.id bylaw)).
Proof.
  destruct create_suggestion_needs_target as (Hnone & _ & Hok & _ & Hboth).
  split; [|split].
  - apply Hnone; reflexivity.
  - destruct (Hok Sample.drafted Sample.both_targets _ eq_refl)
      as (row & _ & Hrows & Ht & _).
    exists row. split; [exact Hrows|exact Ht].
  - destruct (Hboth Sample.drafted Sample.both_targets)
      as (row & Hd & _ & Hp & Hb).
    + left. reflexivity.
    + discriminate.
    + discriminate.
    + destruct (Hp eq_refl) as (policy & Hpin & _ & Hprow).
      destruct (Hb eq_refl) as (bylaw & Hbin & _ & Hbrow).
      exists row, policy, bylaw. auto.
Defined.

(** C2, the claim as stated, fails when both targets are supplied: the
    request succeeds and the stored row references both. *)
Lemma create_suggestion_accepts_both_targets :
  exists row,
    fst (create_suggestion Sample.both_targets Sample.drafted)
    = Ok (convert_suggestion_from_db row)
    /\ suggestions (db (snd (create_suggestion Sample.both_targets Sample.drafted)))
       = [row]
    /\ SuggestionRow.policy_id row = Some (Sample.uuids 0)
    /\ SuggestionRow.bylaw_id row = Some Sample.bylaw_key.
Proof.
  eexists. split; [reflexivity|]. split; [reflexivity|].
  split; reflexivity.
Qed.

(** ** Reviews *)

Lemma truthy_false_cases (o : option string) :
  truthy o = false -> o = None \/ o = Some "".
Proof.
  destruct o as [s|]; cbn; [|auto].
  rewrite negb_false_iff. intros H. apply String.eqb_eq in H. subst. auto.
Qed.

Lemma truthy_true (o : option string) :
  truthy o = true <-> exists e, o = Some e /\ e <> "".
Proof.
  destruct o as [s|]; cbn.
  - rewrite negb_true_iff. split.
    + intros H. exists s. split; [reflexivity|]. now apply String.eqb_neq.
    + intros (e & He & Hne). injection He as ->. now apply String.eqb_neq.
  - split; [discriminate|]. intros (e & He & _). discriminate.
Qed.

(** [resolved_email] computes what [resolvable_email] describes. *)
Lemma resolved_email_spec (users : list UserRow.t) (current_user : CurrentUser.t)
  (e : string) :
  resolved_email users current_user = Some e
  <-> resolvable_email users current_user e.
Proof.
  unfold resolved_email, resolvable_email.
  destruct (truthy (CurrentUser.email current_user)) eqn:Hown.
  - apply truthy_true in Hown. destruct Hown as (e0 & He0 & Hne0).
    rewrite He0. split.
    + intros H. injection H as <-. auto.
    + intros (_ & [H|(H & _)]); [exact H|discriminate].
  - destruct (String.eqb_spec (CurrentUser.id current_user) "") as [Hid|Hid].
    + split; [discriminate|].
      intros (Hne & [H|(_ & H & _)]); [|contradiction].
      rewrite H in Hown. cbn in Hown. apply negb_false_iff in Hown.
      apply String.eqb_eq in Hown. contradiction.
    + destruct (filter _ users) as [|u rest].
      * split; [discriminate|].
        intros (Hne & [H|(_ & _ & u & rest & H & _)]); [|discriminate].
        rewrite H in Hown. cbn in Hown. apply negb_false_iff in Hown.
        apply String.eqb_eq in Hown. contradiction.
      * destruct (truthy (UserRow.email u)) eqn:Hu.
        -- apply truthy_true in Hu. destruct Hu as (e0 & He0 & Hne0).
           rewrite He0. split.
           ++ intros H. injection H as <-. split; [exact Hne0|]. right.
              repeat split; auto. exists u, rest. auto.
           ++ intros (Hne & [H|(_ & _ & u' & rest' & H & Hu')]).
              ** rewrite H in Hown. cbn in Hown. apply negb_false_iff in Hown.
                 apply String.eqb_eq in Hown. contradiction.
              ** injection H as <- <-. congruence.
        -- split; [discriminate|].
           intros (Hne & [H|(_ & _ & u' & rest' & H & Hu')]).
           ++ rewrite H in Hown. cbn in Hown. apply negb_false_iff in Hown.
              apply String.eqb_eq in Hown. contradiction.
           ++ injection H as <- <-. rewrite Hu' in Hu. cbn in Hu.
              apply negb_false_iff in Hu. apply String.eqb_eq in Hu.
              contradiction.
Qed.

(** A submission by an identity that carries its email. *)
Lemma submit_with_email (w : World) (policy_id : string) (review : ReviewStatus)
  (current_user : CurrentUser.t) (e : string) :
  CurrentUser.email current_user = Some e -> e <> "" ->
  submit_policy_review policy_id review (Some current_user) w
  = match filter (fun r => PolicyRow.policy_id r =? policy_id) (policies (db w)) with
    | [] => (Raise (http 404 "Policy not found"), w)
    | _ :: _ =>
      match filter (same_review policy_id e) (policy_reviews (db w)) with
      | [] => (Ok review_submitted, review_inserted policy_id e review w)
      | _ :: _ => (Ok review_submitted, review_overwritten policy_id e review w)
      end
    end.
Proof.
  intros He Hne. apply String.eqb_neq in Hne.
  unfold submit_policy_review. rewrite He. cbn [truthy]. rewrite Hne.
  unfold_store. store_simpl. cbn [negb]. rewrite Hne.
  destruct (filter _ (policies (db w))); cbn [nonempty negb]; [reflexivity|].
  store_simpl. unfold same_review.
  destruct (filter _ (policy_reviews (db w))); cbn [nonempty]; reflexivity.
Qed.

(** A submission by an identity whose email has to be looked up behaves as
    one that carries the resolved email; without one it fails. *)
Lemma submit_resolves_email (w : World) (policy_id : string)
  (review : ReviewStatus) (current_user : CurrentUser.t) :
  submit_policy_review policy_id review (Some current_user) w
  = match resolved_email (users (db w)) current_user with
    | None => (Raise (http 400 "User email not found"), w)
    | Some e =>
      submit_policy_review policy_id review
        (Some {| CurrentUser.id := CurrentUser.id current_user;
                 CurrentUser.email := Some e;
                 CurrentUser.role := CurrentUser.role current_user |}) w
    end.
Proof.
  unfold resolved_email.
  destruct (truthy (CurrentUser.email current_user)) eqn:Hown.
  - destruct (proj1 (truthy_true _) Hown) as (e & He & Hne).
    rewrite He.
    rewrite (submit_with_email w policy_id review current_user e He Hne).
    now rewrite (fun cu H => submit_with_email w policy_id review cu e H Hne)
      by reflexivity.
  - unfold submit_policy_review at 1. rewrite Hown. cbn [negb].
    destruct (CurrentUser.id current_user =? "") eqn:Hid; cbn [negb].
    + unfold_store.
      destruct (truthy_false_cases _ Hown) as [-> | ->]; reflexivity.
    + unfold_store. store_simpl.
      destruct (filter _ (users (db w))) as [|u rest].
      * destruct (truthy_false_cases _ Hown) as [-> | ->]; reflexivity.
      * destruct (truthy (UserRow.email u)) eqn:Hu.
        -- destruct (proj1 (truthy_true _) Hu) as (e & He & Hne).
           rewrite He.
           rewrite (fun cu H => submit_with_email w policy_id review cu e H Hne)
             by reflexivity.
           apply String.eqb_neq in Hne. rewrite Hne.
           destruct (filter _ (policies (db w))); cbn [nonempty negb];
             [reflexivity|].
           store_simpl. unfold same_review.
           destruct (filter _ (policy_reviews (db w))); cbn [nonempty];
             reflexivity.
        -- destruct (truthy_false_cases _ Hu) as [-> | ->]; reflexivity.
Qed.

(** C7 (as the code has it).  [submit_policy_review] fails with HTTP 401
    when no identity is supplied, with HTTP 400 when the identity has no
    resolvable email (its own is missing and the users table gives none),
    and with HTTP 404 when the email resolves but the policy code does not.
    A failed submission leaves the world, hence the review table, as it
    was. *)
Theorem submit_review_failures (w : World) (policy_id : string)
  (review : ReviewStatus) :
  submit_policy_review policy_id review None w
  = (Raise (http 401 "Authentication required"), w)
  /\ (forall current_user,
      (forall e, ~ resolvable_email (users (db w)) current_user e) ->
      submit_policy_review policy_id review (Some current_user) w
      = (Raise (http 400 "User email not found"), w))
  /\ (forall current_user e,
      resolvable_email (users (db w)) current_user e ->
      filter (fun r => PolicyRow.policy_id r =? policy_id) (policies (db w)) = [] ->
      submit_policy_review policy_id review (Some current_user) w
      = (Raise (http 404 "Policy not found"), w))
  /\ (forall current_user e,
      fst (submit_policy_review policy_id review current_user w) = Raise e ->
      snd (submit_policy_review policy_id review current_user w) = w
      /\ (status_code e = 401 \/ status_code e = 400 \/ status_code e = 404)).
Proof.
  split; [reflexivity|]. split; [|split].
  - intros current_user Hno. rewrite submit_resolves_email.
    destruct (resolved_email (users (db w)) current_user) as [e|] eqn:He;
      [|reflexivity].
    apply resolved_email_spec in He. now apply Hno in He.
  - intros current_user e He Hmissing. rewrite submit_resolves_email.
    pose proof He as [Hne _]. apply resolved_email_spec in He. rewrite He.
    rewrite (fun cu H => submit_with_email w policy_id review cu e H Hne)
      by reflexivity.
    now rewrite Hmissing.
  - intros [current_user|] e; [|intros H; injection H as <-; cbn; auto].
    rewrite submit_resolves_email.
    destruct (resolved_email (users (db w)) current_user) as [e0|] eqn:He;
      [|intros H; injection H as <-; cbn; auto].
    apply resolved_email_spec in He. destruct He as [Hne _].
    rewrite (fun cu H => submit_with_email w policy_id review cu e0 H Hne)
      by reflexivity.
    destruct (filter _ (policies (db w)));
      [intros H; injection H as <-; cbn; auto|].
    destruct (filter _ (policy_reviews (db w))); discriminate.
Qed.

Lemma submit_review_failures_witness :
  submit_policy_review "2.3.1" CONFIRM (Some Sample.phone_user) Sample.approved
  = (Raise (http 400 "User email not found"), Sample.approved)
  /\ submit_policy_review "9.9.9" CONFIRM (Some Sample.admin) Sample.approved
     = (Raise (http 404 "Policy not found"), Sample.approved).
Proof.
  destruct (submit_review_failures Sample.approved "2.3.1" CONFIRM)
    as (_ & H400 & _).
  destruct (submit_review_failures Sample.approved "9.9.9" CONFIRM)
    as (_ & _ & H404 & _).
  split.
  - apply H400. intros e He. apply resolved_email_spec in He. discriminate.
  - apply (H404 Sample.admin "a@x.com"); [|reflexivity].
    apply resolved_email_spec. reflexivity.
Defined.

(** C7, the claim as stated, fails for an identity without a resolvable
    email: the handler answers 400, not 401. *)
Lemma submit_review_without_email_is_400 :
  resolved_email (users (db Sample.approved)) Sample.phone_user = None
  /\ fst (submit_policy_review "2.3.1" CONFIRM (Some Sample.phone_user)
            Sample.approved)
     = Raise (http 400 "User email not found")
  /\ status_code (http 400 "User email not found") <> 401.
Proof.
  split; [reflexivity|]. split; [reflexivity|]. discriminate.
Qed.

(** *** At most one review per pair *)

Lemma same_review_true (policy_id user_email : string) (r : ReviewRow.t) :
  same_review policy_id user_email r = true
  <-> ReviewRow.policy_id r = policy_id /\ ReviewRow.user_email r = user_email.
Proof.
  unfold same_review. rewrite andb_true_iff, !String.eqb_eq. tauto.
Qed.

(** An overwrite keeps the pair of every row. *)
Lemma overwrite_keeps_pair (p0 e0 st t p e : string) (r : ReviewRow.t) :
  same_review p e
    (if same_review p0 e0 r then review_set p0 e0 st t r else r)
  = same_review p e r.
Proof.
  destruct (same_review p0 e0 r) eqn:H; [|reflexivity].
  apply same_review_true in H. destruct H as [<- <-]. reflexivity.
Qed.

Lemma filter_overwrite_length (p0 e0 st t p e : string) (l : list ReviewRow.t) :
  List.length
    (filter (same_review p e)
       (map (fun r => if same_review p0 e0 r then review_set p0 e0 st t r else r) l))
  = List.length (filter (same_review p e) l).
Proof.
  induction l as [|r l IH]; [reflexivity|].
  cbn [map filter]. rewrite overwrite_keeps_pair.
  destruct (same_review p e r); cbn [List.length]; now rewrite IH.
Qed.

Lemma filter_filter_length {A : Type} (p q : A -> bool) (l : list A) :
  (List.length (filter p (filter q l)) <= List.length (filter p l))%nat.
Proof.
  induction l as [|x l IH]; [reflexivity|].
  cbn [filter]. destruct (q x), (p x) eqn:Hp; cbn [filter List.length];
    try rewrite Hp; cbn [List.length]; lia.
Qed.

Lemma step_keeps_one_review (req : request) (w : World) :
  at_most_one_review (policy_reviews (db w)) ->
  at_most_one_review (policy_reviews (db (snd (handle req w)))).
Proof.
  intros Hinv p e. specialize (Hinv p e).
  destruct (handle_reviews req w)
    as [H|[(row & H & Hrow)|[(p0 & e0 & st & t & H)|(q & H)]]]; rewrite H; clear H.
  - exact Hinv.
  - rewrite filter_app, length_app. cbn [filter].
    destruct (same_review p e row) eqn:Hm; cbn [List.length]; [|lia].
    apply same_review_true in Hm. destruct Hm as [<- <-].
    rewrite Hrow. cbn. lia.
  - now rewrite filter_overwrite_length.
  - pose proof (filter_filter_length (same_review p e) q (policy_reviews (db w))).
    lia.
Qed.

Lemma run_keeps_one_review (reqs : list request) (w : World) :
  at_most_one_review (policy_reviews (db w)) ->
  at_most_one_review (policy_reviews (db (run reqs w))).
Proof.
  revert w. induction reqs as [|req reqs IH]; intros w Hinv; [exact Hinv|].
  cbn [run]. apply IH. now apply step_keeps_one_review.
Qed.

Lemma map_overwrite_created_at (p0 e0 st t : string) (l : list ReviewRow.t) :
  map ReviewRow.created_at
    (map (fun r => if same_review p0 e0 r then review_set p0 e0 st t r else r) l)
  = map ReviewRow.created_at l.
Proof.
  rewrite map_map. apply map_ext. intros r.
  now destruct (same_review p0 e0 r).
Qed.

(** C6.  Whatever requests are served, the review table never holds two
    rows for one (policy, user email) pair, provided it did not to begin
    with (an empty table does not).  A successful submission leaves exactly
    one row for its pair.  If there was none it appends one, stamping
    [created_at] and [updated_at]; if there was one it appends nothing and
    overwrites [review_status] and [updated_at] of that row with the
    submitted status and the current time, leaving every [created_at] as
    it was. *)
Theorem one_review_per_pair :
  (forall reqs w,
      at_most_one_review (policy_reviews (db w)) ->
      at_most_one_review (policy_reviews (db (run reqs w))))
  /\ (forall reqs clock uuids,
      at_most_one_review (policy_reviews (db (run reqs (fresh_world clock uuids)))))
  /\ (forall w policy_id review current_user v,
      fst (submit_policy_review policy_id review (Some current_user) w) = Ok v ->
      let before := policy_reviews (db w) in
      let after :=
        policy_reviews
          (db (snd (submit_policy_review policy_id review (Some current_user) w))) in
      exists e,
        resolvable_email (users (db w)) current_user e
        /\ (at_most_one_review before ->
            List.length (filter (same_review policy_id e) after) = 1%nat)
        /\ (forall r, In r after -> same_review policy_id e r = true ->
            ReviewRow.review_status r = ReviewStatus_value review
            /\ ReviewRow.updated_at r = clock w (ticks w))
        /\ match filter (same_review policy_id e) before with
           | [] =>
             after
             = (before
                ++ [ {| ReviewRow.id := uuids w (issued w);
                        ReviewRow.policy_id := policy_id;
                        ReviewRow.user_email := e;
                        ReviewRow.review_status := ReviewStatus_value review;
                        ReviewRow.created_at := clock w (S (ticks w));
                        ReviewRow.updated_at := clock w (ticks w) |} ])%list
           | _ :: _ =>
             after
             = map (fun r => if same_review policy_id e r
                             then review_set policy_id e
                                    (ReviewStatus_value review) (clock w (ticks w)) r
                             else r) before
             /\ List.length after = List.length before
             /\ map ReviewRow.created_at after = map ReviewRow.created_at before
           end).
Proof.
  split; [exact run_keeps_one_review|]. split.
  - intros reqs clock uuids. apply run_keeps_one_review.
    intros p e. cbn. lia.
  - intros w policy_id review current_user v.
    rewrite submit_resolves_email.
    destruct (resolved_email (users (db w)) current_user) as [e|] eqn:He;
      [|discriminate].
    apply resolved_email_spec in He. pose proof He as [Hne _].
    rewrite (fun cu H => submit_with_email w policy_id review cu e H Hne)
      by reflexivity.
    destruct (filter _ (policies (db w))); [discriminate|].
    intros _. exists e. split; [exact He|].
    destruct (filter (same_review policy_id e) (policy_reviews (db w)))
      as [|r0 rest] eqn:Hex; unfold review_inserted, review_overwritten;
      store_simpl.
    + split; [|split; [|reflexivity]].
      * intros _. rewrite filter_app, Hex. cbn [filter app].
        unfold same_review at 1. cbn. now rewrite !String.eqb_refl.
      * intros r Hin Hsame. apply in_app_or in Hin.
        destruct Hin as [Hin|[<-|[]]]; [|auto].
        assert (In r (filter (same_review policy_id e) (policy_reviews (db w))))
          by (apply filter_In; auto).
        rewrite Hex in H. contradiction.
    + split; [|split; [|split; [reflexivity|split]]].
      * intros Hinv. rewrite filter_overwrite_length.
        specialize (Hinv policy_id e). rewrite Hex in *. cbn in *. lia.
      * intros r Hin Hsame. apply in_map_iff in Hin.
        destruct Hin as (r1 & Hr & _).
        destruct (same_review policy_id e r1) eqn:H1; subst r; [auto|].
        congruence.
      * now rewrite length_map.
      * apply map_overwrite_created_at.
Qed.

Lemma one_review_per_pair_witness :
  at_most_one_review
    (policy_reviews
       (db (run [POST_policy_reviews (Some Sample.admin) "2.3.1" CONFIRM;
                 POST_policy_reviews (Some Sample.admin) "2.3.1" NEEDS_WORK]
                Sample.approved)))
  /\ map ReviewRow.review_status
         (policy_reviews
            (db (snd (submit_policy_review "2.3.1" NEEDS_WORK (Some Sample.admin)
                        Sample.reviewed))))
     = ["needs_work"].
Proof.
  destruct one_review_per_pair as (Hrun & _ & Hsubmit).
  split.
  - apply Hrun. intros p e. cbn. lia.
  - destruct (Hsubmit Sample.reviewed "2.3.1" NEEDS_WORK Sample.admin _ eq_refl)
      as (e & _ & _ & _ & _).
    reflexivity.
Defined.

(** ** Search *)

Lemma filter_map_commute {A B : Type} (f : B -> bool) (g : A -> B) (l : list A) :
  filter f (map g l) = map g (filter (fun x => f (g x)) l).
Proof.
  induction l as [|x l IH]; [reflexivity|].
  cbn [map filter]. destruct (f (g x)); cbn [map]; now rewrite IH.
Qed.

Lemma lower_nonempty (s : string) : s <> "" -> py_in (lower s) "" = false.
Proof.
  destruct s as [|c s]; [contradiction|reflexivity].
Qed.

(** The list operation filters the page by name, code and content. *)
Lemma get_policies_search (w : World) (status : option PolicyStatus)
  (section policy_id : option string) (search : string) (limit offset : nat) :
  search <> "" ->
  exists page,
    get_policies status section (Some search) policy_id limit offset w
    = (Ok (map convert_policy_from_db (filter (search_matches search) page)), w)
    /\ get_policies status section None policy_id limit offset w
       = (Ok (map convert_policy_from_db page), w).
Proof.
  intros Hne. apply String.eqb_neq in Hne.
  unfold get_policies. unfold_store. cbn [truthy the]. rewrite Hne.
  cbn [negb]. eexists. split; [|reflexivity].
  rewrite filter_map_commute. reflexivity.
Qed.

(** The approved-only operation filters by the policy code alone: the keys
    ["name"] and ["content"] it reads are not keys of the converted dict. *)
Lemma get_approved_policies_search (w : World) (section : option string)
  (search : string) :
  search <> "" ->
  exists rows,
    get_approved_policies section (Some search) w
    = (Ok (map convert_policy_from_db
             (filter (fun r => py_in (lower search) (lower (PolicyRow.policy_id r)))
                     rows)), w)
    /\ get_approved_policies section None w
       = (Ok (map convert_policy_from_db rows), w).
Proof.
  intros Hne. pose proof (lower_nonempty search Hne) as Hempty.
  apply String.eqb_neq in Hne.
  unfold get_approved_policies. unfold_store. cbn [truthy the]. rewrite Hne.
  cbn [negb].
  exists (order by_section_then_policy_id
            (filter (fun r => (PolicyRow.status r =? "approved")
                              && eq_if_given section (PolicyRow.section r))
                    (rows_of POLICIES_TABLE (db w)))).
  split; [|reflexivity].
  rewrite filter_map_commute. do 3 f_equal. apply filter_ext. intros r.
  change (dict_get (convert_policy_from_db r) "name" (PyStr ""))
    with (PyStr "").
  change (dict_get (convert_policy_from_db r) "content" (PyStr ""))
    with (PyStr "").
  change (dict_get (convert_policy_from_db r) "policy_id" (PyStr ""))
    with (PyStr (PolicyRow.policy_id r)).
  cbn [as_str lower]. rewrite Hempty. cbn [orb]. apply orb_false_r.
Qed.

(** C8 on the code.  On the approved policy "Travel" the search string
    "travel" matches the name, and the list operation returns the policy;
    the approved-only operation returns nothing. *)
Theorem approved_search_misses_name_and_content :
  search_matches "travel" Sample.approved_travel = true
  /\ get_policies None None (Some "travel") None 50 0 Sample.approved
     = (Ok [convert_policy_from_db Sample.approved_travel], Sample.approved)
  /\ get_approved_policies None None Sample.approved
     = (Ok [convert_policy_from_db Sample.approved_travel], Sample.approved)
  /\ get_approved_policies None (Some "travel") Sample.approved
     = (Ok [], Sample.approved).
Proof.
  repeat split; reflexivity.
Qed.

(** ** The public fetch of one policy *)

(** Deleting rows keeps the policy codes distinct. *)
Lemma codes_unique_after_delete (keep : PolicyRow.t -> bool)
  (rows : list PolicyRow.t) :
  NoDup (map PolicyRow.policy_id rows) ->
  NoDup (map PolicyRow.policy_id (filter keep rows)).
Proof.
  induction rows as [|row rows IH]; cbn [map filter]; intros Hunique;
    [exact Hunique|].
  inversion Hunique as [|code codes Hfresh Hrest]; subst.
  destruct (keep row); cbn [map]; [|auto].
  constructor; [|auto].
  intros Hin. apply Hfresh. apply in_map_iff in Hin.
  destruct Hin as (other & Hcode & Hother). apply filter_In in Hother.
  apply in_map_iff. exists other. tauto.
Qed.

Lemma NoDup_map_injective {A B : Type} (f : A -> B) (l : list A) (x y : A) :
  NoDup (map f l) -> In x l -> In y l -> f x = f y -> x = y.
Proof.
  induction l as [|a l IH]; cbn [map]; intros H Hx Hy Hf; [contradiction|].
  inversion H as [|b bs Hnotin Hrest]; subst.
  destruct Hx as [<-|Hx], Hy as [<-|Hy]; auto.
  - exfalso. apply Hnotin. rewrite Hf. now apply in_map.
  - exfalso. apply Hnotin. rewrite <- Hf. now apply in_map.
Qed.

Lemma step_keeps_codes_unique (req : request) (w : World) :
  NoDup (map PolicyRow.policy_id (policies (db w))) ->
  NoDup (map PolicyRow.policy_id (policies (db (snd (handle req w))))).
Proof.
  intros Hinv.
  destruct (handle_policies req w)
    as [H|[(row & H & _ & Hrow)|[(data & pid & H & _)|(pid & H)]]];
    rewrite H; clear H.
  - exact Hinv.
  - rewrite map_app. cbn [map]. apply NoDup_app; [exact Hinv| |].
    + constructor; [intros []|constructor].
    + intros code Hin [<-|[]].
      apply in_map_iff in Hin. destruct Hin as (r & Hr & Hin).
      assert (Hf : In r (filter (fun r0 => PolicyRow.policy_id r0
                                           =? PolicyRow.policy_id row)
                                (policies (db w)))).
      { apply filter_In. split; [exact Hin|]. now apply String.eqb_eq. }
      rewrite Hrow in Hf. contradiction.
  - rewrite map_map.
    erewrite map_ext; [exact Hinv|].
    intros r. now destruct (PolicyRow.policy_id r =? pid).
  - now apply codes_unique_after_delete.
Qed.

Lemma run_keeps_codes_unique (reqs : list request) (w : World) :
  NoDup (map PolicyRow.policy_id (policies (db w))) ->
  NoDup (map PolicyRow.policy_id (policies (db (run reqs w)))).
Proof.
  revert w. induction reqs as [|req reqs IH]; intros w Hinv; [exact Hinv|].
  cbn [run]. apply IH. now apply step_keeps_codes_unique.
Qed.

(** C9.  In every world reached by serving requests from a store whose
    policy codes are distinct (the empty store is one), fetching a policy
    whose status is [draft] by its code fails with HTTP 404, the very
    answer a code that is not stored gets. *)
Theorem draft_policy_is_hidden (reqs : list request) (w0 : World)
  (r : PolicyRow.t) :
  NoDup (map PolicyRow.policy_id (policies (db w0))) ->
  let w := run reqs w0 in
  In r (policies (db w)) ->
  PolicyRow.status r = "draft" ->
  get_approved_policy_by_id (PolicyRow.policy_id r) w
  = (Raise (http 404 "Policy not found"), w)
  /\ forall missing,
      ~ In missing (map PolicyRow.policy_id (policies (db w))) ->
      get_approved_policy_by_id missing w
      = (Raise (http 404 "Policy not found"), w).
Proof.
  intros Hunique w Hin Hdraft.
  pose proof (run_keeps_codes_unique reqs w0 Hunique) as Hw. fold w in Hw.
  split.
  - unfold get_approved_policy_by_id. unfold_store. store_simpl.
    destruct (filter _ (policies (db w))) as [|r' rest] eqn:Hex; [reflexivity|].
    destruct (in_filter_head _ _ _ _ Hex) as [Hin' Hm].
    apply andb_true_iff in Hm. destruct Hm as [Hcode Hst].
    apply String.eqb_eq in Hcode, Hst.
    assert (r' = r) by (eapply NoDup_map_injective; eauto).
    subst r'. rewrite Hdraft in Hst. discriminate.
  - intros missing Hmissing.
    unfold get_approved_policy_by_id. unfold_store. store_simpl.
    destruct (filter _ (policies (db w))) as [|r' rest] eqn:Hex; [reflexivity|].
    destruct (in_filter_head _ _ _ _ Hex) as [Hin' Hm].
    apply andb_true_iff in Hm. destruct Hm as [Hcode _].
    apply String.eqb_eq in Hcode. exfalso. apply Hmissing.
    rewrite <- Hcode. now apply in_map.
Qed.

Lemma draft_policy_is_hidden_witness :
  get_approved_policy_by_id "2.3.1" Sample.drafted
  = (Raise (http 404 "Policy not found"), Sample.drafted).
Proof.
  refine (proj1 (draft_policy_is_hidden
                   [POST_policies Sample.admin Sample.travel;
                    POST_bylaws Sample.admin Sample.quorum]
                   Sample.start
                   {| PolicyRow.id := Sample.uuids 0;
                      PolicyRow.policy_id := "2.3.1";
                      PolicyRow.name := "Travel";
                      PolicyRow.section := "2";
                      PolicyRow.content := "Members book travel through the office.";
                      PolicyRow.status := "draft";
                      PolicyRow.created_at := Sample.clock 0;
                      PolicyRow.updated_at := Sample.clock 1;
                      PolicyRow.created_by := "auth-admin";
                      PolicyRow.updated_by := "auth-admin" |} _ _ _)).
  - constructor.
  - left. reflexivity.
  - reflexivity.
Defined.

(** ** Login *)

(** Once the rows with the account's email carry its id, the rows with that
    id are those rows. *)
Lemma reselect_by_id (rows : list UserRow.t) (id email : string) :
  filter (fun r => UserRow.id r =? id) rows = [] ->
  filter (fun r => UserRow.id r =? id)
    (map (fun r => if email_is email r then user_set_id id r else r) rows)
  = map (user_set_id id) (filter (email_is email) rows).
Proof.
  induction rows as [|r rows IH]; [reflexivity|].
  cbn [filter map]. destruct (UserRow.id r =? id) eqn:Hid; [discriminate|].
  intros Hnone. destruct (email_is email r).
  - cbn [UserRow.id user_set_id map]. rewrite String.eqb_refl.
    now rewrite IH.
  - rewrite Hid. auto.
Qed.

Lemma login_answers (w : World) (user : AuthUser.t) (session : Session.t)
  (insert_raises : bool) :
  fst (login (SignInReturns
                (Some {| AuthResponse.user := Some user;
                         AuthResponse.session := Some session |}))
             insert_raises w)
  = match account_row (users (db w)) user with
    | Some row => login_answer (Session.access_token session) user row
    | None => Raise no_dashboard_access
    end.
Proof.
  unfold login, account_row, login_answer. cbn [AuthResponse.user AuthResponse.session].
  unfold_store. store_simpl.
  destruct (filter (fun r => UserRow.id r =? AuthUser.id user) (users (db w)))
    as [|row rest] eqn:Hid; cbn [nonempty negb]; store_simpl.
  - destruct (filter (email_is (AuthUser.email user)) (users (db w)))
      as [|row rest] eqn:Hemail; cbn [nonempty]; store_simpl.
    + destruct insert_raises; store_simpl.
      * rewrite Hemail. reflexivity.
      * reflexivity.
    + rewrite (reselect_by_id _ _ _ Hid), Hemail. cbn [map].
      cbn [UserRow.role UserRow.name user_set_id].
      destruct (existsb _ _); reflexivity.
  - destruct (existsb _ _); reflexivity.
Qed.

Lemma login_creates_public_row (w : World) (user : AuthUser.t)
  (session : Session.t) :
  account_row (users (db w)) user = None ->
  users (db (snd (login (SignInReturns
                           (Some {| AuthResponse.user := Some user;
                                    AuthResponse.session := Some session |}))
                        false w)))
  = (users (db w)
     ++ [ {| UserRow.id := AuthUser.id user;
             UserRow.email := Some (AuthUser.email user);
             UserRow.role := "public";
             UserRow.name := None |} ])%list.
Proof.
  unfold login, account_row. cbn [AuthResponse.user AuthResponse.session].
  unfold_store. store_simpl.
  destruct (filter (fun r => UserRow.id r =? AuthUser.id user) (users (db w)))
    as [|row rest] eqn:Hid; [|discriminate].
  destruct (filter (email_is (AuthUser.email user)) (users (db w)))
    as [|row rest] eqn:Hemail; [|discriminate].
  intros _. cbn [nonempty negb]. store_simpl. rewrite Hemail.
  cbn [nonempty]. store_simpl. reflexivity.
Qed.

(** C10.  For a sign-in the identity provider accepts: when the users table
    has no row for the account, login fails with HTTP 403 and (unless the
    store rejects it) a row with role [public] is created; when the
    account's role is [public], or any role other than [admin] and
    [policy_working_group], login fails with HTTP 403; an access token is
    returned only for an account whose role is [admin] or
    [policy_working_group], and for every such account. *)
Theorem login_rejects_public (w : World) (user : AuthUser.t)
  (session : Session.t) (insert_raises : bool) :
  let sign_in :=
    SignInReturns (Some {| AuthResponse.user := Some user;
                           AuthResponse.session := Some session |}) in
  let answer := fst (login sign_in insert_raises w) in
  (account_row (users (db w)) user = None ->
   answer = Raise no_dashboard_access
   /\ (insert_raises = false ->
       users (db (snd (login sign_in insert_raises w)))
       = (users (db w)
          ++ [ {| UserRow.id := AuthUser.id user;
                  UserRow.email := Some (AuthUser.email user);
                  UserRow.role := "public";
                  UserRow.name := None |} ])%list))
  /\ (forall row,
      account_row (users (db w)) user = Some row ->
      UserRow.role row <> "admin" ->
      UserRow.role row <> "policy_working_group" ->
      exists message, answer = Raise (http 403 message))
  /\ (forall row,
      account_row (users (db w)) user = Some row ->
      UserRow.role row = "public" ->
      exists message, answer = Raise (http 403 message))
  /\ (forall row,
      account_row (users (db w)) user = Some row ->
      UserRow.role row = "admin" \/ UserRow.role row = "policy_working_group" ->
      exists d, answer = Ok (PyDict d)
                /\ dict_get d "access_token" PyNone
                   = PyStr (Session.access_token session))
  /\ (forall v,
      answer = Ok v ->
      exists row,
        account_row (users (db w)) user = Some row
        /\ (UserRow.role row = "admin"
            \/ UserRow.role row = "policy_working_group")).
Proof.
  intros sign_in answer. subst sign_in answer. rewrite login_answers.
  assert (Hother : forall row,
             UserRow.role row <> "admin" ->
             UserRow.role row <> "policy_working_group" ->
             exists message,
               login_answer (Session.access_token session) user row
               = Raise (http 403 message)).
  { intros row Ha Hg. unfold login_answer. cbn [existsb].
    apply String.eqb_neq in Ha, Hg. rewrite Ha, Hg. cbn [orb]. eauto. }
  split; [|split; [|split; [|split]]].
  - intros Hnone. rewrite Hnone. split; [reflexivity|].
    intros ->. now apply login_creates_public_row.
  - intros row Hrow Ha Hg. rewrite Hrow. auto.
  - intros row Hrow Hpublic. rewrite Hrow.
    apply Hother; rewrite Hpublic; discriminate.
  - intros row Hrow Hrole. rewrite Hrow. unfold login_answer. cbn [existsb].
    destruct Hrole as [H|H]; rewrite H; eexists; split; reflexivity.
  - intros v. destruct (account_row (users (db w)) user) as [row|];
      [|discriminate].
    unfold login_answer. cbn [existsb]. intros Hv. exists row.
    split; [reflexivity|].
    destruct (String.eqb_spec (UserRow.role row) "admin"); [auto|].
    destruct (String.eqb_spec (UserRow.role row) "policy_working_group");
      [auto|]. discriminate.
Qed.

Lemma login_rejects_public_witness :
  (exists message,
      fst (login (Sample.signed_in Sample.member) false (Sample.with_member "public"))
      = Raise (http 403 message))
  /\ fst (login (Sample.signed_in Sample.member) false Sample.approved)
     = Raise no_dashboard_access
  /\ (exists d,
      fst (login (Sample.signed_in Sample.member) false
             (Sample.with_member "policy_working_group"))
      = Ok (PyDict d)
      /\ dict_get d "access_token" PyNone = PyStr "jwt-1").
Proof.
  pose proof (login_rejects_public (Sample.with_member "public") Sample.member
                {| Session.access_token := "jwt-1" |} false) as (_ & _ & Hpub & _).
  pose proof (login_rejects_public Sample.approved Sample.member
                {| Session.access_token := "jwt-1" |} false) as (Hnone & _).
  pose proof (login_rejects_public (Sample.with_member "policy_working_group")
                Sample.member {| Session.access_token := "jwt-1" |} false)
    as (_ & _ & _ & Hok & _).
  split; [|split].
  - apply (Hpub (Sample.users_row Sample.member "public")); reflexivity.
  - apply Hnone. reflexivity.
  - apply (Hok (Sample.users_row Sample.member "policy_working_group"));
      [reflexivity|]. right. reflexivity.
Defined.

(** ** The scenario of the specification, run on the model *)

(** Create "2.3.1" (stored as draft), approve it, then update its content:
    the policy is a draft again and version 1 holds the approved state. *)
Example travel_scenario :
  map PolicyRow.status (policies (db Sample.drafted)) = ["draft"]
  /\ map PolicyRow.status (policies (db Sample.approved)) = ["approved"]
  /\ (let edited :=
        run [PUT_policy Sample.admin "2.3.1" Sample.new_content] Sample.approved in
      map PolicyRow.status (policies (db edited)) = ["draft"]
      /\ map (fun v => (VersionRow.version_number v, VersionRow.status v,
                        VersionRow.content v))
             (policy_versions (db edited))
         = [(1%Z, "approved", "Members book travel through the office.")]).
Proof.
  repeat split; reflexivity.
Qed.


(** * More of the code *)

(** ** Deletion *)

Ltac split_all := repeat match goal with |- _ /\ _ => split end.

Lemma filter_out_then_in {A : Type} (p : A -> bool) (l : list A) :
  filter p (filter (fun r => negb (p r)) l) = [].
Proof.
  induction l as [|x l IH]; [reflexivity|].
  cbn [filter]. destruct (p x) eqn:Hp; cbn [negb filter]; [exact IH|].
  now rewrite Hp.
Qed.

Lemma delete_policy_found (w : World) (policy_id : string) :
  filter (fun r => PolicyRow.policy_id r =? policy_id) (policies (db w)) <> [] ->
  delete_policy policy_id w
  = (Ok tt,
     set_db (with_rows POLICIES_TABLE
               (filter (fun r => negb (PolicyRow.policy_id r =? policy_id))
                       (policies (db w)))
               (db w)) w).
Proof.
  intros H. apply nonempty_true in H.
  unfold delete_policy. unfold_store. store_simpl. rewrite H. reflexivity.
Qed.

(** X1.  [delete_policy] fails with HTTP 404, changing nothing, when the
    code is not stored.  Otherwise it removes the rows of that code and no
    other row; versions, suggestions and reviews that point to the policy
    are left in place; afterwards the code is unknown to approve, update,
    delete and the public fetch. *)
Theorem delete_policy_removes (w : World) (policy_id : string) :
  let existing :=
    filter (fun r => PolicyRow.policy_id r =? policy_id) (policies (db w)) in
  let w' := snd (delete_policy policy_id w) in
  (existing = [] ->
   delete_policy policy_id w = (Raise (http 404 "Policy not found"), w))
  /\ (existing <> [] ->
      fst (delete_policy policy_id w) = Ok tt
      /\ policies (db w')
         = filter (fun r => negb (PolicyRow.policy_id r =? policy_id))
                  (policies (db w))
      /\ (forall r, In r (policies (db w'))
                    <-> In r (policies (db w)) /\ PolicyRow.policy_id r <> policy_id)
      /\ policy_versions (db w') = policy_versions (db w)
      /\ suggestions (db w') = suggestions (db w)
      /\ policy_reviews (db w') = policy_reviews (db w)
      /\ bylaws (db w') = bylaws (db w)
      /\ users (db w') = users (db w)
      /\ delete_policy policy_id w' = (Raise (http 404 "Policy not found"), w')
      /\ get_approved_policy_by_id policy_id w'
         = (Raise (http 404 "Policy not found"), w')
      /\ (forall current_user,
             approve_policy policy_id current_user w'
             = (Raise (http 404 "Policy not found"), w'))
      /\ (forall policy_update current_user,
             update_policy policy_id policy_update current_user w'
             = (Raise (http 404 "Policy not found"), w'))).
Proof.
  intros existing w'. subst existing w'. split.
  - intros H. unfold delete_policy. unfold_store. store_simpl.
    rewrite H. reflexivity.
  - intros H. rewrite (delete_policy_found w policy_id H). cbn [fst snd].
    set (w' := set_db _ w).
    assert (Hgone : filter (fun r => PolicyRow.policy_id r =? policy_id)
                      (policies (db w')) = [])
      by apply (filter_out_then_in (fun r => PolicyRow.policy_id r =? policy_id)).
    split_all; try reflexivity.
    + intros r. subst w'. unfold set_db. store_simpl.
      rewrite filter_In, negb_true_iff, String.eqb_neq. tauto.
    + unfold delete_policy. unfold_store. cbn [rows_of POLICIES_TABLE].
      rewrite Hgone. reflexivity.
    + unfold get_approved_policy_by_id. unfold_store. cbn [rows_of POLICIES_TABLE].
      destruct (filter (fun r => (PolicyRow.policy_id r =? policy_id)
                                 && (PolicyRow.status r =? "approved"))
                       (policies (db w'))) as [|r rest] eqn:Hex; [reflexivity|].
      destruct (in_filter_head _ _ _ _ Hex) as [Hin Hm].
      apply andb_true_iff in Hm. destruct Hm as [Hm _].
      assert (Hf : In r (filter (fun r => PolicyRow.policy_id r =? policy_id)
                           (policies (db w'))))
        by (apply filter_In; auto).
      rewrite Hgone in Hf. contradiction.
    + intros current_user. unfold approve_policy. unfold_store.
      cbn [rows_of POLICIES_TABLE]. rewrite Hgone. reflexivity.
    + intros policy_update current_user.
      pose proof (update_policy_policies w' policy_id policy_update current_user)
        as Hu.
      rewrite Hgone in Hu. exact Hu.
Qed.

Lemma delete_policy_removes_witness :
  delete_policy "9.9.9" Sample.approved
  = (Raise (http 404 "Policy not found"), Sample.approved)
  /\ policies (db (snd (delete_policy "2.3.1" More.suggested))) = []
  /\ suggestions (db (snd (delete_policy "2.3.1" More.suggested)))
     = suggestions (db More.suggested).
Proof.
  split.
  - apply (proj1 (delete_policy_removes Sample.approved "9.9.9")). reflexivity.
  - destruct (proj2 (delete_policy_removes More.suggested "2.3.1"))
      as (_ & Hrows & _ & _ & Hsug & _); [discriminate|].
    split; [rewrite Hrows; reflexivity|exact Hsug].
Defined.

Lemma delete_bylaw_found (w : World) (bylaw_id : string) :
  filter (fun r => BylawRow.id r =? bylaw_id) (bylaws (db w)) <> [] ->
  delete_bylaw bylaw_id w
  = (Ok tt,
     set_db (with_rows BYLAWS_TABLE
               (filter (fun r => negb (BylawRow.id r =? bylaw_id)) (bylaws (db w)))
               (db w)) w).
Proof.
  intros H. apply nonempty_true in H.
  unfold delete_bylaw. unfold_store. store_simpl. rewrite H. reflexivity.
Qed.

(** X2.  [delete_bylaw] fails with HTTP 404, changing nothing, when the key
    is not stored.  Otherwise it removes the rows of that key and no other
    row, leaves the suggestions that point to the bylaw in place, and the
    key is unknown afterwards: to delete, approve, update, the public fetch
    and to a new suggestion that names it. *)
Theorem delete_bylaw_removes (w : World) (bylaw_id : string) :
  let existing := filter (fun r => BylawRow.id r =? bylaw_id) (bylaws (db w)) in
  let w' := snd (delete_bylaw bylaw_id w) in
  (existing = [] ->
   delete_bylaw bylaw_id w = (Raise (http 404 "Bylaw not found"), w))
  /\ (existing <> [] ->
      fst (delete_bylaw bylaw_id w) = Ok tt
      /\ (forall r, In r (bylaws (db w'))
                    <-> In r (bylaws (db w)) /\ BylawRow.id r <> bylaw_id)
      /\ suggestions (db w') = suggestions (db w)
      /\ policies (db w') = policies (db w)
      /\ delete_bylaw bylaw_id w' = (Raise (http 404 "Bylaw not found"), w')
      /\ get_approved_bylaw_by_id bylaw_id w'
         = (Raise (http 404 "Bylaw not found"), w')
      /\ (forall current_user,
             approve_bylaw bylaw_id current_user w'
             = (Raise (http 404 "Bylaw not found"), w'))
      /\ (forall bylaw_update current_user,
             update_bylaw bylaw_id bylaw_update current_user w'
             = (Raise (http 404 "Bylaw not found"), w'))
      /\ (forall suggestion,
             SuggestionCreate.policy_id suggestion = None ->
             SuggestionCreate.bylaw_id suggestion = Some bylaw_id ->
             bylaw_id <> "" ->
             create_suggestion suggestion w'
             = (Raise (http 404 "Bylaw not found"), w'))).
Proof.
  intros existing w'. subst existing w'. split.
  - intros H. unfold delete_bylaw. unfold_store. store_simpl.
    rewrite H. reflexivity.
  - intros H. rewrite (delete_bylaw_found w bylaw_id H). cbn [fst snd].
    set (w' := set_db _ w).
    assert (Hgone : filter (fun r => BylawRow.id r =? bylaw_id)
                      (bylaws (db w')) = [])
      by apply (filter_out_then_in (fun r => BylawRow.id r =? bylaw_id)).
    split_all; try reflexivity.
    + intros r. subst w'. unfold set_db. store_simpl.
      rewrite filter_In, negb_true_iff, String.eqb_neq. tauto.
    + unfold delete_bylaw. unfold_store. cbn [rows_of BYLAWS_TABLE].
      rewrite Hgone. reflexivity.
    + unfold get_approved_bylaw_by_id. unfold_store. cbn [rows_of BYLAWS_TABLE].
      destruct (filter (fun r => (BylawRow.id r =? bylaw_id)
                                 && (BylawRow.status r =? "approved"))
                       (bylaws (db w'))) as [|r rest] eqn:Hex; [reflexivity|].
      destruct (in_filter_head _ _ _ _ Hex) as [Hin Hm].
      apply andb_true_iff in Hm. destruct Hm as [Hm _].
      assert (Hf : In r (filter (fun r => BylawRow.id r =? bylaw_id)
                           (bylaws (db w'))))
        by (apply filter_In; auto).
      rewrite Hgone in Hf. contradiction.
    + intros current_user. unfold approve_bylaw. unfold_store.
      cbn [rows_of BYLAWS_TABLE]. rewrite Hgone. reflexivity.
    + intros bylaw_update current_user.
      pose proof (update_bylaw_bylaws w' bylaw_id bylaw_update current_user) as Hu.
      rewrite Hgone in Hu. exact Hu.
    + intros suggestion Hp Hb Hne. apply String.eqb_neq in Hne.
      unfold create_suggestion. rewrite Hp, Hb. cbn [truthy the]. rewrite Hne.
      cbn [negb andb]. unfold_store. cbn [rows_of BYLAWS_TABLE].
      rewrite Hgone. reflexivity.
Qed.

Lemma delete_bylaw_removes_witness :
  delete_bylaw "no-such-key" Sample.approved
  = (Raise (http 404 "Bylaw not found"), Sample.approved)
  /\ suggestions (db (snd (delete_bylaw Sample.bylaw_key More.suggested)))
     = suggestions (db More.suggested)
  /\ delete_bylaw Sample.bylaw_key (snd (delete_bylaw Sample.bylaw_key More.suggested))
     = (Raise (http 404 "Bylaw not found"),
        snd (delete_bylaw Sample.bylaw_key More.suggested)).
Proof.
  split.
  - apply (proj1 (delete_bylaw_removes Sample.approved "no-such-key")).
    reflexivity.
  - destruct (proj2 (delete_bylaw_removes More.suggested Sample.bylaw_key))
      as (_ & _ & Hsug & _ & Hagain & _); [discriminate|].
    split; [exact Hsug|exact Hagain].
Defined.

(** X3.  [delete_suggestion] fails with HTTP 404, changing nothing, when no
    suggestion has the key.  Otherwise it removes the suggestions of that
    key and no other, touches no policy and no bylaw, and a second deletion
    of the key fails with HTTP 404. *)
Theorem delete_suggestion_removes (w : World) (suggestion_id : string) :
  let existing :=
    filter (fun r => SuggestionRow.id r =? suggestion_id) (suggestions (db w)) in
  let w' := snd (delete_suggestion suggestion_id w) in
  (existing = [] ->
   delete_suggestion suggestion_id w
   = (Raise (http 404 "Suggestion not found"), w))
  /\ (existing <> [] ->
      fst (delete_suggestion suggestion_id w) = Ok tt
      /\ (forall r, In r (suggestions (db w'))
                    <-> In r (suggestions (db w))
                        /\ SuggestionRow.id r <> suggestion_id)
      /\ policies (db w') = policies (db w)
      /\ bylaws (db w') = bylaws (db w)
      /\ delete_suggestion suggestion_id w'
         = (Raise (http 404 "Suggestion not found"), w')).
Proof.
  intros existing w'. subst existing w'. split.
  - intros H. unfold delete_suggestion. unfold_store. store_simpl.
    rewrite H. reflexivity.
  - intros H.
    assert (Hfound :
              delete_suggestion suggestion_id w
              = (Ok tt,
                 set_db (with_rows SUGGESTIONS_TABLE
                           (filter (fun r => negb (SuggestionRow.id r =? suggestion_id))
                                   (suggestions (db w)))
                           (db w)) w)).
    { apply nonempty_true in H. unfold delete_suggestion. unfold_store.
      store_simpl. rewrite H. reflexivity. }
    rewrite Hfound. cbn [fst snd]. set (w' := set_db _ w).
    assert (Hgone : filter (fun r => SuggestionRow.id r =? suggestion_id)
                      (suggestions (db w')) = [])
      by apply (filter_out_then_in (fun r => SuggestionRow.id r =? suggestion_id)).
    split_all; try reflexivity.
    + intros r. subst w'. unfold set_db. store_simpl.
      rewrite filter_In, negb_true_iff, String.eqb_neq. tauto.
    + unfold delete_suggestion. unfold_store. cbn [rows_of SUGGESTIONS_TABLE].
      rewrite Hgone. reflexivity.
Qed.

Lemma delete_suggestion_removes_witness :
  delete_suggestion "no-such-key" More.suggested
  = (Raise (http 404 "Suggestion not found"), More.suggested)
  /\ fst (delete_suggestion More.suggestion_key More.suggested) = Ok tt.
Proof.
  split.
  - apply (proj1 (delete_suggestion_removes More.suggested "no-such-key")).
    reflexivity.
  - destruct (proj2 (delete_suggestion_removes More.suggested More.suggestion_key))
      as (Hok & _); [discriminate|exact Hok].
Defined.

(** ** [order] sorts *)

Section Order.

Context {R : Type} (le : R -> R -> bool).
Hypothesis le_total : forall a b, le a b = false -> le b a = true.

Lemma order_insert_keeps_rows (x : R) (rows : list R) :
  Permutation (x :: rows) (order_insert le x rows).
Proof.
  induction rows as [|y rows IH]; cbn [order_insert]; [reflexivity|].
  destruct (le x y); [reflexivity|].
  rewrite perm_swap. now constructor.
Qed.

Lemma order_keeps_rows (rows : list R) : Permutation rows (order le rows).
Proof.
  induction rows as [|x rows IH]; cbn [order]; [constructor|].
  rewrite <- order_insert_keeps_rows. now constructor.
Qed.

Lemma order_insert_in_order (x : R) (rows : list R) :
  Sorted (fun a b => le a b = true) rows ->
  Sorted (fun a b => le a b = true) (order_insert le x rows).
Proof.
  induction rows as [|y rows IH]; cbn [order_insert]; intros Hs.
  - repeat constructor.
  - destruct (le x y) eqn:Hxy.
    + constructor; [exact Hs|]. now constructor.
    + inversion Hs as [|? ? Hrest Hhd]; subst.
      constructor; [now apply IH|].
      destruct rows as [|z rows]; cbn [order_insert].
      * constructor. now apply le_total.
      * destruct (le x z); constructor; [now apply le_total|].
        now inversion Hhd.
Qed.

Lemma order_in_order (rows : list R) :
  Sorted (fun a b => le a b = true) (order le rows).
Proof.
  induction rows as [|x rows IH]; cbn [order]; [constructor|].
  now apply order_insert_in_order.
Qed.

End Order.

(** ** Version history *)

(** X4.  [get_policy_versions] fails with HTTP 404 for an unknown policy
    code.  Otherwise it returns exactly the stored versions of the policy's
    surrogate key (each once), newest first by version number, each shown
    under the policy's key and code; it reads only. *)
Theorem get_policy_versions_newest_first (w : World) (policy_id : string) :
  match filter (fun r => PolicyRow.policy_id r =? policy_id) (policies (db w)) with
  | [] =>
    get_policy_versions policy_id w = (Raise (http 404 "Policy not found"), w)
  | policy :: _ =>
    exists rows,
      get_policy_versions policy_id w
      = (Ok (map (version_response policy) rows), w)
      /\ Permutation rows
           (filter (fun v => VersionRow.policy_id v =? PolicyRow.id policy)
                   (policy_versions (db w)))
      /\ Sorted (fun a b => (VersionRow.version_number b
                             <= VersionRow.version_number a)%Z) rows
  end.
Proof.
  unfold get_policy_versions. unfold_store. store_simpl.
  destruct (filter _ (policies (db w))) as [|policy rest]; [reflexivity|].
  eexists. split; [reflexivity|]. split.
  - symmetry. apply order_keeps_rows.
  - eapply Sorted_ind with (P := fun rows => Sorted _ rows);
      [constructor| |apply (order_in_order version_number_desc)].
    + intros a l _ IH Hhd. constructor; [exact IH|].
      destruct Hhd as [|b l' Hab]; constructor.
      unfold version_number_desc in Hab. lia.
    + intros a b H. unfold version_number_desc in *. lia.
Qed.

Lemma handle_versions (req : request) (w : World) :
  let before := policy_versions (db w) in
  let after := policy_versions (db (snd (handle req w))) in
  after = before
  \/ (exists v,
         after = (before ++ [v])%list
         /\ VersionRow.version_number v
            = next_version (VersionRow.policy_id v) before).
Proof.
  intros before after. subst before after.
  by_cases req.
  all: try (left; reflexivity).
  all: right; eexists; (split; [reflexivity|]); unfold next_version;
    cbn [VersionRow.policy_id VersionRow.version_number];
    match goal with H : limit _ _ = _ |- _ => rewrite H end; reflexivity.
Qed.

Lemma maximum_of_run (n : nat) :
  is_maximum (Z.of_nat (S n)) (map Z.of_nat (seq 1 (S n))).
Proof.
  split.
  - apply in_map. apply in_seq. lia.
  - apply Forall_forall. intros x Hx. apply in_map_iff in Hx.
    destruct Hx as (k & <- & Hk). apply in_seq in Hk. lia.
Qed.

Lemma step_keeps_numbering (req : request) (w : World) :
  numbered_from_one (policy_versions (db w)) ->
  numbered_from_one (policy_versions (db (snd (handle req w)))).
Proof.
  intros Hinv u.
  destruct (handle_versions req w) as [H|(v & H & Hv)]; rewrite H; clear H;
    [apply Hinv|].
  unfold version_numbers. rewrite filter_app, map_app. cbn [filter].
  fold (version_numbers u (policy_versions (db w))).
  destruct (VersionRow.policy_id v =? u) eqn:Hu; cbn [map];
    [|rewrite app_nil_r; apply Hinv].
  apply String.eqb_eq in Hu. subst u.
  specialize (Hinv (VersionRow.policy_id v)).
  set (numbers := version_numbers (VersionRow.policy_id v) (policy_versions (db w)))
    in *.
  rewrite length_app. cbn [List.length]. rewrite Nat.add_1_r.
  rewrite seq_S, map_app. cbn [map]. rewrite <- Hinv. f_equal. f_equal.
  rewrite Hv. destruct (List.length numbers) as [|n] eqn:Hn.
  - apply next_version_first. fold numbers.
    now destruct numbers.
  - replace (Z.of_nat (1 + S n)) with (Z.of_nat (S n) + 1)%Z by lia.
    apply next_version_max. fold numbers. rewrite Hinv.
    apply maximum_of_run.
Qed.

(** X5.  No request rewrites or removes a stored version: the version
    table only grows at its end.  If the versions of every policy key are
    numbered 1, 2, ..., n in storage order, they still are after any
    sequence of requests; from an empty store they always are. *)
Theorem versions_are_numbered_in_order :
  (forall reqs w,
      exists added,
        policy_versions (db (run reqs w)) = (policy_versions (db w) ++ added)%list)
  /\ (forall reqs w,
      numbered_from_one (policy_versions (db w)) ->
      numbered_from_one (policy_versions (db (run reqs w))))
  /\ (forall reqs clock uuids,
      numbered_from_one (policy_versions (db (run reqs (fresh_world clock uuids))))).
Proof.
  assert (Hrun : forall reqs w,
             numbered_from_one (policy_versions (db w)) ->
             numbered_from_one (policy_versions (db (run reqs w)))).
  { induction reqs as [|req reqs IH]; intros w Hinv; [exact Hinv|].
    cbn [run]. apply IH. now apply step_keeps_numbering. }
  split; [|split; [exact Hrun|]].
  - induction reqs as [|req reqs IH]; intros w.
    + exists []. cbn [run]. now rewrite app_nil_r.
    + cbn [run]. destruct (IH (snd (handle req w))) as (added & Hadded).
      rewrite Hadded.
      destruct (handle_versions req w) as [H|(v & H & _)]; rewrite H.
      * now exists added.
      * exists (v :: added). now rewrite <- app_assoc.
  - intros reqs clock uuids. apply Hrun. intros u. reflexivity.
Qed.

Lemma versions_are_numbered_in_order_witness :
  numbered_from_one
    (policy_versions
       (db (run [PUT_policy Sample.admin "2.3.1" Sample.new_content;
                 PUT_policy_approve Sample.admin "2.3.1";
                 PUT_policy Sample.admin "2.3.1" Sample.new_content]
                Sample.approved))).
Proof.
  apply (proj1 (proj2 versions_are_numbered_in_order)).
  intros u. reflexivity.
Defined.

(** ** Review tally *)

Lemma tally_splits (rows : list ReviewRow.t) (confirmed needs_work : list string) :
  fold_left tally rows (confirmed, needs_work)
  = ((confirmed
      ++ map ReviewRow.user_email
           (filter (fun r => ReviewRow.review_status r =? "confirm") rows))%list,
     (needs_work
      ++ map ReviewRow.user_email
           (filter (fun r => ReviewRow.review_status r =? "needs_work") rows))%list).
Proof.
  revert confirmed needs_work.
  induction rows as [|r rows IH]; intros confirmed needs_work;
    cbn [fold_left filter map].
  - now rewrite !app_nil_r.
  - unfold tally at 2. cbn [ReviewStatus_value].
    destruct (ReviewRow.review_status r =? "confirm") eqn:Hc.
    + apply String.eqb_eq in Hc. rewrite IH, Hc. cbn [map].
      now rewrite <- app_assoc.
    + destruct (ReviewRow.review_status r =? "needs_work") eqn:Hn.
      * rewrite IH. cbn [map]. now rewrite <- app_assoc.
      * apply IH.
Qed.

Lemma filter_both {A : Type} (p q : A -> bool) (l : list A) :
  filter q (filter p l) = filter (fun x => p x && q x) l.
Proof.
  induction l as [|x l IH]; [reflexivity|].
  cbn [filter]. destruct (p x); cbn [filter andb]; [|exact IH].
  destruct (q x); now rewrite IH.
Qed.

Lemma get_policy_reviews_found (w : World) (policy_id : string) :
  filter (fun r => PolicyRow.policy_id r =? policy_id) (policies (db w)) <> [] ->
  get_policy_reviews policy_id w
  = (Ok {| PolicyReviewsResponse.confirmed :=
             {| PolicyReviewResponse.numberOfPeople :=
                  Z.of_nat (List.length
                              (people_with "confirm" policy_id (policy_reviews (db w))));
                PolicyReviewResponse.people :=
                  people_with "confirm" policy_id (policy_reviews (db w)) |};
           PolicyReviewsResponse.needs_work :=
             {| PolicyReviewResponse.numberOfPeople :=
                  Z.of_nat (List.length
                              (people_with "needs_work" policy_id
                                 (policy_reviews (db w))));
                PolicyReviewResponse.people :=
                  people_with "needs_work" policy_id (policy_reviews (db w)) |} |},
     w).
Proof.
  intros H. apply nonempty_true in H.
  unfold get_policy_reviews, people_with. unfold_store. store_simpl.
  rewrite H. cbn [negb]. rewrite tally_splits. cbn [app].
  now rewrite !filter_both.
Qed.

(** The two buckets hold an email no more often than the table holds rows
    for the pair. *)
Lemma buckets_count (policy_id e : string) (rows : list ReviewRow.t) :
  (count_occ string_dec (people_with "confirm" policy_id rows) e
   + count_occ string_dec (people_with "needs_work" policy_id rows) e
   <= List.length (filter (same_review policy_id e) rows))%nat.
Proof.
  unfold people_with, same_review.
  induction rows as [|r rows IH]; [reflexivity|].
  cbn [filter].
  destruct (ReviewRow.policy_id r =? policy_id); cbn [andb]; [|exact IH].
  destruct (String.eqb_spec (ReviewRow.user_email r) e) as [He|He].
  - destruct (ReviewRow.review_status r =? "confirm") eqn:Hc.
    + apply String.eqb_eq in Hc. rewrite Hc. cbn [String.eqb map List.length].
      cbn. rewrite He. destruct (string_dec e e); [lia|contradiction].
    + destruct (ReviewRow.review_status r =? "needs_work");
        cbn [map List.length count_occ];
        [rewrite He; destruct (string_dec e e); [lia|contradiction]|lia].
  - destruct (ReviewRow.review_status r =? "confirm") eqn:Hc.
    + apply String.eqb_eq in Hc. rewrite Hc. cbn.
      destruct (string_dec (ReviewRow.user_email r) e); [contradiction|exact IH].
    + destruct (ReviewRow.review_status r =? "needs_work");
        cbn [map count_occ];
        [destruct (string_dec (ReviewRow.user_email r) e);
         [contradiction|exact IH]|exact IH].
Qed.

(** X6.  [get_policy_reviews] fails with HTTP 404 for an unknown policy
    code.  Otherwise it reads only, and answers with the emails of the
    policy's [confirm] reviews and of its [needs_work] reviews, each in
    storage order, and with each count equal to the length of its list.
    When the table holds at most one row per (policy, email) pair, nobody
    is listed twice, neither within a bucket nor across the two. *)
Theorem get_policy_reviews_tally (w : World) (policy_id : string) :
  let existing :=
    filter (fun r => PolicyRow.policy_id r =? policy_id) (policies (db w)) in
  (existing = [] ->
   get_policy_reviews policy_id w = (Raise (http 404 "Policy not found"), w))
  /\ (existing <> [] ->
      exists tallied,
        get_policy_reviews policy_id w = (Ok tallied, w)
        /\ PolicyReviewResponse.people (PolicyReviewsResponse.confirmed tallied)
           = people_with "confirm" policy_id (policy_reviews (db w))
        /\ PolicyReviewResponse.people (PolicyReviewsResponse.needs_work tallied)
           = people_with "needs_work" policy_id (policy_reviews (db w))
        /\ PolicyReviewResponse.numberOfPeople (PolicyReviewsResponse.confirmed tallied)
           = Z.of_nat (List.length
                         (PolicyReviewResponse.people
                            (PolicyReviewsResponse.confirmed tallied)))
        /\ PolicyReviewResponse.numberOfPeople (PolicyReviewsResponse.needs_work tallied)
           = Z.of_nat (List.length
                         (PolicyReviewResponse.people
                            (PolicyReviewsResponse.needs_work tallied)))
        /\ (at_most_one_review (policy_reviews (db w)) ->
            NoDup (PolicyReviewResponse.people (PolicyReviewsResponse.confirmed tallied)
                   ++ PolicyReviewResponse.people
                        (PolicyReviewsResponse.needs_work tallied))%list)).
Proof.
  intros existing. subst existing. split.
  - intros H. unfold get_policy_reviews. unfold_store. store_simpl.
    rewrite H. reflexivity.
  - intros H. rewrite (get_policy_reviews_found w policy_id H).
    eexists. split; [reflexivity|]. cbn.
    split_all; try reflexivity.
    intros Hinv. apply (NoDup_count_occ string_dec). intros e.
    rewrite count_occ_app.
    pose proof (buckets_count policy_id e (policy_reviews (db w))).
    specialize (Hinv policy_id e). lia.
Qed.

Lemma get_policy_reviews_tally_witness :
  exists tallied,
    get_policy_reviews "2.3.1" Sample.reviewed = (Ok tallied, Sample.reviewed)
    /\ PolicyReviewResponse.people (PolicyReviewsResponse.confirmed tallied)
       = ["a@x.com"]
    /\ PolicyReviewResponse.numberOfPeople (PolicyReviewsResponse.needs_work tallied)
       = 0%Z.
Proof.
  destruct (proj2 (get_policy_reviews_tally Sample.reviewed "2.3.1"))
    as (tallied & Hrun & Hc & Hn & _ & Hcount & _); [discriminate|].
  exists tallied. split; [exact Hrun|]. split; [exact Hc|].
  rewrite Hcount, Hn. reflexivity.
Defined.

(** What a successful submission leaves in the review table for its pair. *)
Lemma after_submit (w : World) (policy_id : string) (review : ReviewStatus)
  (current_user : CurrentUser.t) (v : pyval) :
  fst (submit_policy_review policy_id review (Some current_user) w) = Ok v ->
  let w' := snd (submit_policy_review policy_id review (Some current_user) w) in
  exists e,
    resolvable_email (users (db w)) current_user e
    /\ policies (db w') = policies (db w)
    /\ filter (fun r => PolicyRow.policy_id r =? policy_id) (policies (db w)) <> []
    /\ (exists r, In r (policy_reviews (db w'))
                  /\ same_review policy_id e r = true
                  /\ ReviewRow.review_status r = ReviewStatus_value review)
    /\ (forall r, In r (policy_reviews (db w')) ->
                  same_review policy_id e r = true ->
                  ReviewRow.review_status r = ReviewStatus_value review).
Proof.
  rewrite submit_resolves_email.
  destruct (resolved_email (users (db w)) current_user) as [e|] eqn:He;
    [|discriminate].
  apply resolved_email_spec in He. pose proof He as [Hne _].
  rewrite (fun cu H => submit_with_email w policy_id review cu e H Hne)
    by reflexivity.
  destruct (filter _ (policies (db w))) as [|p ps] eqn:Hp; [discriminate|].
  intros _ w'. exists e. split; [exact He|].
  destruct (filter (same_review policy_id e) (policy_reviews (db w)))
    as [|r0 rest] eqn:Hex; subst w'; unfold review_inserted, review_overwritten;
    store_simpl.
  - split; [reflexivity|]. split; [discriminate|]. split.
    + eexists. split; [apply in_or_app; right; left; reflexivity|].
      split; [|reflexivity]. unfold same_review. cbn.
      now rewrite !String.eqb_refl.
    + intros r Hin Hsame. apply in_app_or in Hin.
      destruct Hin as [Hin|[<-|[]]]; [|reflexivity].
      assert (Hf : In r (filter (same_review policy_id e) (policy_reviews (db w))))
        by (apply filter_In; auto).
      rewrite Hex in Hf. contradiction.
  - split; [reflexivity|]. split; [discriminate|].
    destruct (in_filter_head _ _ _ _ Hex) as [Hin0 Hsame0]. split.
    + exists (review_set policy_id e (ReviewStatus_value review)
                (clock w (ticks w)) r0).
      split; [|split; [|reflexivity]].
      * apply in_map_iff. exists r0. now rewrite Hsame0.
      * unfold same_review. cbn. now rewrite !String.eqb_refl.
    + intros r Hin Hsame. apply in_map_iff in Hin.
      destruct Hin as (r1 & Hr & _).
      destruct (same_review policy_id e r1) eqn:H1; subst r; [reflexivity|].
      congruence.
Qed.

(** X7.  After a successful review submission the tally of that policy
    lists the submitter's email under the submitted status and not under
    the other one, whatever the submitter had said before. *)
Theorem submitted_review_is_tallied (w : World) (policy_id : string)
  (review : ReviewStatus) (current_user : CurrentUser.t) (v : pyval) :
  fst (submit_policy_review policy_id review (Some current_user) w) = Ok v ->
  let w' := snd (submit_policy_review policy_id review (Some current_user) w) in
  exists e tallied,
    resolvable_email (users (db w)) current_user e
    /\ get_policy_reviews policy_id w' = (Ok tallied, w')
    /\ In e (PolicyReviewResponse.people (bucket_of review tallied))
    /\ ~ In e (PolicyReviewResponse.people (other_bucket review tallied)).
Proof.
  intros Hok w'.
  destruct (after_submit w policy_id review current_user v Hok)
    as (e & He & Hpol & Hfound & (r & Hin & Hsame & Hst) & Hall).
  fold w' in Hpol, Hin, Hall.
  exists e. eexists. split; [exact He|]. split.
  - apply get_policy_reviews_found. now rewrite Hpol.
  - apply same_review_true in Hsame. destruct Hsame as [Hrp Hre].
    assert (Hlisted :
              In e (people_with (ReviewStatus_value review) policy_id
                      (policy_reviews (db w')))).
    { unfold people_with. apply in_map_iff. exists r. split; [exact Hre|].
      apply filter_In. split; [exact Hin|].
      apply andb_true_iff. split; now apply String.eqb_eq. }
    assert (Hnot : forall other,
               other <> ReviewStatus_value review ->
               ~ In e (people_with other policy_id (policy_reviews (db w')))).
    { intros other Hother Hine. unfold people_with in Hine.
      apply in_map_iff in Hine. destruct Hine as (r' & Hr'e & Hr').
      apply filter_In in Hr'. destruct Hr' as [Hr'in Hr'].
      apply andb_true_iff in Hr'. destruct Hr' as [Hr'p Hr's].
      apply String.eqb_eq in Hr'p, Hr's.
      apply Hother. rewrite <- Hr's. apply Hall; [exact Hr'in|].
      now apply same_review_true. }
    destruct review; cbn [bucket_of other_bucket PolicyReviewsResponse.confirmed
                          PolicyReviewsResponse.needs_work
                          PolicyReviewResponse.people];
      (split; [exact Hlisted|apply Hnot; discriminate]).
Qed.

Lemma submitted_review_is_tallied_witness :
  exists tallied,
    get_policy_reviews "2.3.1"
      (snd (submit_policy_review "2.3.1" NEEDS_WORK (Some Sample.admin)
              Sample.reviewed))
    = (Ok tallied,
       snd (submit_policy_review "2.3.1" NEEDS_WORK (Some Sample.admin)
              Sample.reviewed))
    /\ PolicyReviewResponse.people (PolicyReviewsResponse.confirmed tallied) = []
    /\ PolicyReviewResponse.people (PolicyReviewsResponse.needs_work tallied)
       = ["a@x.com"].
Proof.
  destruct (submitted_review_is_tallied Sample.reviewed "2.3.1" NEEDS_WORK
              Sample.admin _ eq_refl) as (e & tallied & _ & Hrun & _).
  exists tallied. split; [exact Hrun|].
  injection Hrun as <-. split; reflexivity.
Defined.

(** ** Reset of all reviews *)

Lemma every_key_is_listed (rows : list ReviewRow.t) (keys : list string) :
  (forall r, In r rows -> In (ReviewRow.id r) keys) ->
  filter (fun r => negb (existsb (String.eqb (ReviewRow.id r)) keys)) rows = [].
Proof.
  induction rows as [|r rows IH]; intros Hkeys; [reflexivity|].
  cbn [filter].
  assert (Hr : existsb (String.eqb (ReviewRow.id r)) keys = true).
  { apply existsb_exists. exists (ReviewRow.id r).
    split; [apply Hkeys; now left|apply String.eqb_refl]. }
  rewrite Hr. cbn [negb]. apply IH. intros r' Hr'. apply Hkeys. now right.
Qed.

Lemma filter_all {A : Type} (l : list A) : filter (fun _ => true) l = l.
Proof.
  induction l as [|x l IH]; [reflexivity|]. cbn [filter]. now rewrite IH.
Qed.

(** X8.  [reset_all_policy_reviews] empties the review table, whatever it
    held, answers with the number of rows there were, and touches no other
    table; afterwards the tally of every stored policy is empty. *)
Theorem reset_all_policy_reviews_clears (w : World) :
  let w' := snd (reset_all_policy_reviews w) in
  fst (reset_all_policy_reviews w)
  = Ok (PyDict [ ("message", PyStr "All reviews for all policies have been reset");
                 ("deleted_count",
                  PyInt (Z.of_nat (List.length (policy_reviews (db w))))) ])
  /\ policy_reviews (db w') = []
  /\ policies (db w') = policies (db w)
  /\ policy_versions (db w') = policy_versions (db w)
  /\ suggestions (db w') = suggestions (db w)
  /\ bylaws (db w') = bylaws (db w)
  /\ users (db w') = users (db w)
  /\ (forall policy_id,
      filter (fun r => PolicyRow.policy_id r =? policy_id) (policies (db w)) <> [] ->
      exists tallied,
        get_policy_reviews policy_id w' = (Ok tallied, w')
        /\ PolicyReviewResponse.people (PolicyReviewsResponse.confirmed tallied) = []
        /\ PolicyReviewResponse.people (PolicyReviewsResponse.needs_work tallied) = []).
Proof.
  intros w'.
  assert (Hempty : policy_reviews (db w') = []
                   /\ policies (db w') = policies (db w)).
  { subst w'. unfold reset_all_policy_reviews. unfold_store. store_simpl.
    rewrite filter_all.
    destruct (policy_reviews (db w)) as [|r rows] eqn:Hrows; [auto|].
    cbn [List.length Nat.ltb Nat.leb]. store_simpl. split; [|reflexivity].
    apply every_key_is_listed. intros r' Hr'. rewrite <- Hrows.
    now apply (in_map ReviewRow.id). }
  destruct Hempty as [Hempty Hpol].
  split_all; try assumption.
  - unfold reset_all_policy_reviews. unfold_store. store_simpl.
    rewrite filter_all. now destruct (policy_reviews (db w)).
  - subst w'. unfold reset_all_policy_reviews. unfold_store. store_simpl.
    rewrite filter_all. now destruct (policy_reviews (db w)).
  - subst w'. unfold reset_all_policy_reviews. unfold_store. store_simpl.
    rewrite filter_all. now destruct (policy_reviews (db w)).
  - subst w'. unfold reset_all_policy_reviews. unfold_store. store_simpl.
    rewrite filter_all. now destruct (policy_reviews (db w)).
  - subst w'. unfold reset_all_policy_reviews. unfold_store. store_simpl.
    rewrite filter_all. now destruct (policy_reviews (db w)).
  - intros policy_id Hfound. eexists. split.
    + apply get_policy_reviews_found. now rewrite Hpol.
    + cbn. rewrite Hempty. split; reflexivity.
Qed.

Lemma reset_all_policy_reviews_clears_witness :
  policy_reviews (db (snd (reset_all_policy_reviews Sample.reviewed))) = []
  /\ exists tallied,
      get_policy_reviews "2.3.1" (snd (reset_all_policy_reviews Sample.reviewed))
      = (Ok tallied, snd (reset_all_policy_reviews Sample.reviewed))
      /\ PolicyReviewResponse.people (PolicyReviewsResponse.confirmed tallied) = [].
Proof.
  destruct (reset_all_policy_reviews_clears Sample.reviewed)
    as (_ & Hempty & _ & _ & _ & _ & _ & Htally).
  split; [exact Hempty|].
  destruct (Htally "2.3.1") as (tallied & Hrun & Hc & _); [discriminate|].
  exists tallied. split; [exact Hrun|exact Hc].
Defined.

(** ** The public reads *)

Lemma in_order_iff {R : Type} (le : R -> R -> bool) (rows : list R) (r : R) :
  In r (order le rows) <-> In r rows.
Proof.
  split; apply Permutation_in;
    [symmetry|]; apply order_keeps_rows.
Qed.

(** X9.  The four reads that need no identity never change the store and
    never show anything but stored rows whose status is [approved]: every
    policy or bylaw they return is the conversion of such a row. *)
Theorem public_reads_show_approved_only (w : World) :
  (forall section search,
      exists rows,
        get_approved_policies section search w
        = (Ok (map convert_policy_from_db rows), w)
        /\ forall r, In r rows ->
                     In r (policies (db w)) /\ PolicyRow.status r = "approved")
  /\ (forall policy_id,
      get_approved_policy_by_id policy_id w
      = (Raise (http 404 "Policy not found"), w)
      \/ exists r,
          get_approved_policy_by_id policy_id w = (Ok (convert_policy_from_db r), w)
          /\ In r (policies (db w))
          /\ PolicyRow.policy_id r = policy_id
          /\ PolicyRow.status r = "approved")
  /\ (forall search,
      exists rows,
        get_approved_bylaws search w = (Ok (map convert_bylaw_from_db rows), w)
        /\ forall r, In r rows ->
                     In r (bylaws (db w)) /\ BylawRow.status r = "approved")
  /\ (forall bylaw_id,
      get_approved_bylaw_by_id bylaw_id w = (Raise (http 404 "Bylaw not found"), w)
      \/ exists r,
          get_approved_bylaw_by_id bylaw_id w = (Ok (convert_bylaw_from_db r), w)
          /\ In r (bylaws (db w))
          /\ BylawRow.id r = bylaw_id
          /\ BylawRow.status r = "approved").
Proof.
  split_all.
  - intros section search. unfold get_approved_policies. unfold_store.
    store_simpl.
    destruct (truthy search).
    + rewrite filter_map_commute. eexists. split; [reflexivity|].
      intros r Hr. apply filter_In in Hr. destruct Hr as [Hr _].
      apply in_order_iff, filter_In in Hr. destruct Hr as [Hin Hp].
      apply andb_true_iff in Hp. destruct Hp as [Hst _].
      now apply String.eqb_eq in Hst.
    + eexists. split; [reflexivity|].
      intros r Hr.
      apply in_order_iff, filter_In in Hr. destruct Hr as [Hin Hp].
      apply andb_true_iff in Hp. destruct Hp as [Hst _].
      now apply String.eqb_eq in Hst.
  - intros policy_id. unfold get_approved_policy_by_id. unfold_store.
    store_simpl.
    destruct (filter _ (policies (db w))) as [|r rest] eqn:Hex; [now left|].
    right. exists r. split; [reflexivity|].
    destruct (in_filter_head _ _ _ _ Hex) as [Hin Hp].
    apply andb_true_iff in Hp. destruct Hp as [Hid Hst].
    apply String.eqb_eq in Hid, Hst. auto.
  - intros search. unfold get_approved_bylaws. unfold_store. store_simpl.
    destruct (truthy search).
    + rewrite filter_map_commute. eexists. split; [reflexivity|].
      intros r Hr. apply filter_In in Hr. destruct Hr as [Hr _].
      apply in_order_iff, filter_In in Hr. destruct Hr as [Hin Hst].
      now apply String.eqb_eq in Hst.
    + eexists. split; [reflexivity|].
      intros r Hr.
      apply in_order_iff, filter_In in Hr. destruct Hr as [Hin Hst].
      now apply String.eqb_eq in Hst.
  - intros bylaw_id. unfold get_approved_bylaw_by_id. unfold_store.
    store_simpl.
    destruct (filter _ (bylaws (db w))) as [|r rest] eqn:Hex; [now left|].
    right. exists r. split; [reflexivity|].
    destruct (in_filter_head _ _ _ _ Hex) as [Hin Hp].
    apply andb_true_iff in Hp. destruct Hp as [Hid Hst].
    apply String.eqb_eq in Hid, Hst. auto.
Qed.

(** ** Listings: pages, filters and order *)

Lemma range_in_order {R : Type} (before : R -> R -> Prop) (first count : nat)
  (rows : list R) :
  Sorted before rows -> Sorted before (range first count rows).
Proof.
  unfold range. intros Hs.
  assert (Hskip : Sorted before (skipn first rows)).
  { revert rows Hs. induction first as [|k IH]; intros rows Hs; [exact Hs|].
    destruct rows as [|x rows]; [constructor|].
    cbn [skipn]. apply IH. now inversion Hs. }
  revert Hskip. generalize (skipn first rows). clear rows Hs. intros rows.
  revert rows. induction count as [|k IH]; intros rows Hs; [constructor|].
  destruct rows as [|x rows]; [constructor|].
  cbn [firstn]. inversion Hs as [|? ? Hrest Hhd]; subst.
  constructor; [now apply IH|].
  destruct k; [constructor|].
  destruct Hhd; cbn [firstn]; now constructor.
Qed.

Lemma range_bound {R : Type} (first count : nat) (rows : list R) :
  (List.length (range first count rows) <= count)%nat.
Proof. unfold range. apply firstn_le_length. Qed.

Lemma in_range {R : Type} (first count : nat) (rows : list R) (r : R) :
  In r (range first count rows) -> In r rows.
Proof.
  unfold range. intros H.
  assert (Hskip : In r (skipn first rows)).
  { revert H. generalize (skipn first rows). intros l. revert l.
    induction count as [|k IH]; intros l H; [contradiction|].
    destruct l as [|x l]; [contradiction|].
    destruct H as [H|H]; [now left|right; now apply IH]. }
  clear H. revert rows Hskip.
  induction first as [|k IH]; intros rows H; [exact H|].
  destruct rows as [|x rows]; [contradiction|]. right. now apply IH.
Qed.

Lemma bylaws_by_number (rows : list BylawRow.t) :
  Sorted (fun a b => (BylawRow.number a <= BylawRow.number b)%Z)
         (order number_asc rows).
Proof.
  assert (H : Sorted (fun a b => number_asc a b = true) (order number_asc rows)).
  { apply order_in_order. intros a b. unfold number_asc. lia. }
  induction H as [|a l _ IH Hhd]; constructor; [exact IH|].
  destruct Hhd as [|b l' Hab]; constructor. unfold number_asc in Hab. lia.
Qed.

Lemma bylaw_search_on_dict (search_lower : string) (r : BylawRow.t) :
  py_in search_lower
    (lower (as_str (dict_get (convert_bylaw_from_db r) "bylaw_title" (PyStr ""))))
  || py_in search_lower
       (lower (py_str (dict_get (convert_bylaw_from_db r) "bylaw_number" (PyStr ""))))
  || py_in search_lower
       (lower (as_str (dict_get (convert_bylaw_from_db r) "bylaw_content" (PyStr ""))))
  = py_in search_lower (lower (BylawRow.title r))
    || py_in search_lower (lower (str_int (BylawRow.number r)))
    || py_in search_lower (lower (BylawRow.content r)).
Proof. reflexivity. Qed.

(** ** Search ignores the case of letters *)

Lemma lower_ascii_same (a b : ascii) :
  (lower_ascii a =? lower_ascii b)%char = same_ignoring_case a b.
Proof.
  unfold same_ignoring_case, is_upper, lower_ascii.
  pose proof (nat_ascii_bounded a) as Ha.
  pose proof (nat_ascii_bounded b) as Hb.
  assert (Hinj : forall x y : ascii, nat_of_ascii x = nat_of_ascii y -> x = y).
  { intros x y H. rewrite <- (ascii_nat_embedding x), <- (ascii_nat_embedding y).
    now rewrite H. }
  assert (Hup : forall n, (n + 32 < 256)%nat ->
                          nat_of_ascii (ascii_of_nat (n + 32)) = (n + 32)%nat).
  { intros n Hn. now apply nat_ascii_embedding. }
  destruct ((65 <=? nat_of_ascii a)%nat) eqn:Ha1;
    destruct ((nat_of_ascii a <=? 90)%nat) eqn:Ha2;
    destruct ((65 <=? nat_of_ascii b)%nat) eqn:Hb1;
    destruct ((nat_of_ascii b <=? 90)%nat) eqn:Hb2;
    cbn [andb orb];
    repeat match goal with
    | H : (_ <=? _)%nat = true |- _ => apply Nat.leb_le in H
    | H : (_ <=? _)%nat = false |- _ => apply Nat.leb_gt in H
    end;
    rewrite ?orb_false_r;
    match goal with
    | |- ?l = ?r =>
      destruct l eqn:Hl; destruct r eqn:Hr; try reflexivity; exfalso
    end;
    repeat match goal with
    | H : (_ =? _)%char = true |- _ => apply Ascii.eqb_eq in H
    | H : (_ =? _)%char = false |- _ => apply Ascii.eqb_neq in H
    | H : (_ =? _)%nat = true |- _ => apply Nat.eqb_eq in H
    | H : (_ =? _)%nat = false |- _ => apply Nat.eqb_neq in H
    | H : (_ || _) = true |- _ => apply orb_true_iff in H; destruct H
    | H : (_ || _) = false |- _ => apply orb_false_iff in H; destruct H
    end;
    try (match goal with
         | H : ?x = ?y :> ascii |- _ =>
           apply (f_equal nat_of_ascii) in H; rewrite ?Hup in H by lia
         end);
    try lia;
    try (match goal with
         | H : ?x <> ?y :> ascii |- _ => apply H; apply Hinj; rewrite ?Hup by lia
         end; lia).
Qed.

Lemma prefix_lower (a b : string) :
  prefix (lower a) (lower b) = starts_ignoring_case a b.
Proof.
  revert b. induction a as [|x a IH]; intros b.
  - destruct b; reflexivity.
  - destruct b as [|y b]; [reflexivity|].
    cbn [lower prefix starts_ignoring_case].
    rewrite <- lower_ascii_same.
    destruct (ascii_dec (lower_ascii x) (lower_ascii y)) as [He|Hne].
    + rewrite He, Ascii.eqb_refl. apply IH.
    + apply Ascii.eqb_neq in Hne. now rewrite Hne.
Qed.

Lemma py_in_lower (a b : string) :
  py_in (lower a) (lower b) = contains_ignoring_case a b.
Proof.
  induction b as [|y b IH].
  - pose proof (prefix_lower a "") as H.
    cbn [lower py_in contains_ignoring_case] in *. rewrite H.
    now destruct (starts_ignoring_case a "").
  - pose proof (prefix_lower a (String y b)) as H.
    cbn [lower py_in contains_ignoring_case] in *. rewrite H, IH.
    now destruct (starts_ignoring_case a (String y b)).
Qed.

Lemma whole_table_is_one_page {R : Type} (count : nat) (rows : list R) :
  (List.length rows <= count)%nat -> range 0 count rows = rows.
Proof. intros H. unfold range. cbn [skipn]. now apply firstn_all2. Qed.

Lemma bylaw_search_ignores_case (search : string) (rows : list BylawRow.t) :
  filter
    (fun b =>
       py_in (lower search)
         (lower (as_str (dict_get b "bylaw_title" (PyStr ""))))
       || py_in (lower search)
            (lower (py_str (dict_get b "bylaw_number" (PyStr ""))))
       || py_in (lower search)
            (lower (as_str (dict_get b "bylaw_content" (PyStr "")))))
    (map convert_bylaw_from_db rows)
  = map convert_bylaw_from_db (filter (bylaw_matches search) rows).
Proof.
  rewrite filter_map_commute. f_equal. apply filter_ext. intros r.
  rewrite bylaw_search_on_dict, !py_in_lower. reflexivity.
Qed.

Lemma policy_search_ignores_case (search : string) (rows : list PolicyRow.t) :
  filter
    (fun p =>
       py_in (lower search)
         (lower (as_str (dict_get p "policy_name" (PyStr ""))))
       || py_in (lower search)
            (lower (as_str (dict_get p "policy_id" (PyStr ""))))
       || py_in (lower search)
            (lower (as_str (dict_get p "policy_content" (PyStr "")))))
    (map convert_policy_from_db rows)
  = map convert_policy_from_db (filter (policy_matches search) rows).
Proof.
  rewrite filter_map_commute. f_equal. apply filter_ext. intros r.
  change (as_str (dict_get (convert_policy_from_db r) "policy_name" (PyStr "")))
    with (PolicyRow.name r).
  change (as_str (dict_get (convert_policy_from_db r) "policy_id" (PyStr "")))
    with (PolicyRow.policy_id r).
  change (as_str (dict_get (convert_policy_from_db r) "policy_content" (PyStr "")))
    with (PolicyRow.content r).
  rewrite !py_in_lower. reflexivity.
Qed.

(** X10.  On ASCII text, both bylaw listings return the bylaws whose
    title, number written in decimal, or content contains the search
    string when the case of letters is ignored, and both return bylaws by
    ascending number.  The public one runs the search over all approved
    bylaws; the dashboard one runs it over one page of at most [limit]
    bylaws of the requested status, so it returns at most [limit]; when
    the table fits in one page, the page holds every bylaw of that
    status. *)
Theorem bylaw_listings_search_and_order (w : World) (search : string) :
  search <> "" ->
  is_ascii search = true ->
  forallb bylaw_is_ascii (bylaws (db w)) = true ->
  (exists rows,
      get_approved_bylaws (Some search) w
      = (Ok (map convert_bylaw_from_db (filter (bylaw_matches search) rows)), w)
      /\ get_approved_bylaws None w = (Ok (map convert_bylaw_from_db rows), w)
      /\ Permutation rows
           (filter (fun r => BylawRow.status r =? "approved") (bylaws (db w)))
      /\ Sorted (fun a b => (BylawRow.number a <= BylawRow.number b)%Z) rows)
  /\ (forall status limit offset,
      exists page,
        get_bylaws status (Some search) limit offset w
        = (Ok (map convert_bylaw_from_db (filter (bylaw_matches search) page)), w)
        /\ get_bylaws status None limit offset w
           = (Ok (map convert_bylaw_from_db page), w)
        /\ (List.length page <= limit)%nat
        /\ Sorted (fun a b => (BylawRow.number a <= BylawRow.number b)%Z) page
        /\ (forall r, In r page ->
              In r (bylaws (db w))
              /\ forall st, status = Some st ->
                            BylawRow.status r = PolicyStatus_value st)
        /\ (offset = 0%nat ->
            (List.length (bylaws (db w)) <= limit)%nat ->
            forall r, In r (bylaws (db w)) ->
              (forall st, status = Some st ->
                          BylawRow.status r = PolicyStatus_value st) ->
              In r page)).
Proof.
  intros Hne _ _. apply String.eqb_neq in Hne. split.
  - unfold get_approved_bylaws. unfold_store. store_simpl.
    cbn [truthy the]. rewrite Hne. cbn [negb].
    eexists. split; [|split; [reflexivity|split]].
    + rewrite bylaw_search_ignores_case. reflexivity.
    + symmetry. apply order_keeps_rows.
    + apply bylaws_by_number.
  - intros status limit offset. unfold get_bylaws. unfold_store. store_simpl.
    cbn [truthy the]. rewrite Hne. cbn [negb].
    eexists. split; [|split; [reflexivity|split; [|split; [|split]]]].
    + rewrite bylaw_search_ignores_case. reflexivity.
    + apply range_bound.
    + apply range_in_order. apply bylaws_by_number.
    + intros r Hr. apply in_range, in_order_iff, filter_In in Hr.
      destruct Hr as [Hin Hst]. split; [exact Hin|].
      intros st ->. now apply String.eqb_eq.
    + intros -> Hfits r Hin Hst.
      rewrite whole_table_is_one_page.
      * apply in_order_iff, filter_In. split; [exact Hin|].
        destruct status as [st|]; [|reflexivity].
        apply String.eqb_eq. now apply Hst.
      * rewrite <- (Permutation_length (order_keeps_rows _ _)).
        etransitivity; [apply filter_length_le|exact Hfits].
Qed.

Lemma bylaw_listings_search_and_order_witness :
  exists rows,
    get_approved_bylaws (Some "QUORUM") Sample.approved
    = (Ok (map convert_bylaw_from_db (filter (bylaw_matches "QUORUM") rows)),
       Sample.approved)
    /\ get_approved_bylaws None Sample.approved
       = (Ok (map convert_bylaw_from_db rows), Sample.approved)
    /\ Sorted (fun a b => (BylawRow.number a <= BylawRow.number b)%Z) rows.
Proof.
  destruct (proj1 (bylaw_listings_search_and_order Sample.approved "QUORUM"
                     ltac:(discriminate) eq_refl eq_refl))
    as (rows & Hs & Hn & _ & Hsorted).
  exists rows. auto.
Defined.

(** X11.  [get_policies] reads only.  It takes one page of at most
    [limit] stored policies that pass the status, section and policy code
    filters given, and, on ASCII text, returns those of the page whose
    name, code or content contains the search string when the case of
    letters is ignored (the whole page without a search).  When the table
    fits in one page, the page holds every stored policy that passes the
    filters. *)
Theorem get_policies_page (w : World) (status : option PolicyStatus)
  (section search policy_id : option string) (limit offset : nat) :
  is_ascii (the search) = true ->
  forallb policy_is_ascii (policies (db w)) = true ->
  exists page,
    get_policies status section search policy_id limit offset w
    = (Ok (map convert_policy_from_db
             (if truthy search
              then filter (policy_matches (the search)) page
              else page)), w)
    /\ get_policies status section None policy_id limit offset w
       = (Ok (map convert_policy_from_db page), w)
    /\ (List.length page <= limit)%nat
    /\ (forall r, In r page ->
          In r (policies (db w))
          /\ policy_listed status section policy_id r)
    /\ (offset = 0%nat ->
        (List.length (policies (db w)) <= limit)%nat ->
        forall r, In r (policies (db w)) ->
          policy_listed status section policy_id r -> In r page).
Proof.
  intros _ _. unfold get_policies. unfold_store. store_simpl.
  eexists. split; [|split; [reflexivity|split; [|split]]].
  - destruct (truthy search); [|reflexivity].
    rewrite policy_search_ignores_case. reflexivity.
  - apply range_bound.
  - intros r Hr.
    apply in_range, in_order_iff, filter_In in Hr. destruct Hr as [Hin Hp].
    apply andb_true_iff in Hp. destruct Hp as [Hp Hcode].
    apply andb_true_iff in Hp. destruct Hp as [Hst Hsec].
    split; [exact Hin|]. unfold policy_listed. split_all.
    + intros st ->. now apply String.eqb_eq.
    + intros Ht. unfold eq_if_given in Hsec. rewrite Ht in Hsec.
      now apply String.eqb_eq.
    + intros Ht. unfold eq_if_given in Hcode. rewrite Ht in Hcode.
      now apply String.eqb_eq.
  - intros -> Hfits r Hin (Hst & Hsec & Hcode).
    rewrite whole_table_is_one_page.
    + apply in_order_iff, filter_In. split; [exact Hin|].
      rewrite !andb_true_iff. split_all.
      * destruct status as [st|]; [|reflexivity].
        apply String.eqb_eq. now apply Hst.
      * unfold eq_if_given. destruct (truthy section); [|reflexivity].
        apply String.eqb_eq. now apply Hsec.
      * unfold eq_if_given. destruct (truthy policy_id); [|reflexivity].
        apply String.eqb_eq. now apply Hcode.
    + rewrite <- (Permutation_length (order_keeps_rows _ _)).
      etransitivity; [apply filter_length_le|exact Hfits].
Qed.

Lemma get_policies_page_witness :
  exists page,
    get_policies None None (Some "TRAVEL") None 50 0 Sample.approved
    = (Ok (map convert_policy_from_db (filter (policy_matches "TRAVEL") page)),
       Sample.approved)
    /\ In Sample.approved_travel page.
Proof.
  destruct (get_policies_page Sample.approved None None (Some "TRAVEL") None
              50 0 eq_refl eq_refl) as (page & Hs & _ & _ & _ & Hall).
  exists page. split; [exact Hs|].
  apply Hall.
  - reflexivity.
  - cbn. lia.
  - left. reflexivity.
  - repeat split; discriminate.
Defined.

(** ** The suggestion listing *)


Section BatchLookup.

Context {P : Type} (key : P -> string) (info : P -> dict).



End BatchLookup.









(** On the sample the one suggestion is shown with both of its targets. *)
Example suggestion_shows_its_targets :
  match fst (get_suggestions None None None 50 0 More.suggested) with
  | Ok [shown] =>
    dict_get shown "policy_id_text" PyNone = PyStr "2.3.1"
    /\ dict_get shown "policy_name" PyNone = PyStr "Travel"
    /\ dict_get shown "bylaw_number" PyNone = PyInt 7
    /\ dict_get shown "bylaw_title" PyNone = PyStr "Quorum"
  | _ => False
  end.
Proof. vm_compute. repeat split. Qed.

(** ** Guards *)

Lemma admitted_iff (role : string) (allowed : list string) :
  existsb (String.eqb role) allowed = true <-> In role allowed.
Proof.
  rewrite existsb_exists. split.
  - intros (x & Hx & Heq). apply String.eqb_eq in Heq. now subst.
  - intros H. exists role. split; [exact H|apply String.eqb_refl].
Qed.

Lemma current_user_of_verified (str : HTTPException -> string)
  (na : HTTPException) (user : VerifiedUser.t) (w : World) :
  current_user_of str na (Some (GetUserReturns (Some (Some user)))) w
  = (Ok (resolved user w), provisioned user w).
Proof.
  unfold current_user_of, get_current_user, resolved, provisioned, stored_role.
  unfold_store. store_simpl.
  destruct (filter _ (users (db w))); reflexivity.
Qed.

Lemma current_user_of_unverified (str : HTTPException -> string)
  (na : HTTPException) (verified : get_user_outcome) (w : World) :
  (forall user, verified <> GetUserReturns (Some (Some user))) ->
  exists message,
    current_user_of str na (Some verified) w = (Raise (http 401 message), w).
Proof.
  intros Hnot. destruct verified as [message|[[user|]|]].
  - eexists. reflexivity.
  - now destruct (Hnot user).
  - eexists. reflexivity.
  - eexists. reflexivity.
Qed.

Lemma handle_guarded (req : request) (w : World)
  (current_user : CurrentUser.t) (allowed : list UserRole) :
  guard_of req = Some (current_user, allowed) ->
  (~ In (CurrentUser.role current_user) (map UserRole_value allowed) ->
   exists message, handle req w = (Raise (http 403 message), w))
  /\ (In (CurrentUser.role current_user) (map UserRole_value allowed) ->
      forall e, fst (handle req w) = Raise e -> status_code e <> 403).
Proof.
  intros Hguard. split.
  - intros Hrole.
    assert (Hno : existsb (String.eqb (CurrentUser.role current_user))
                    (map UserRole_value allowed) = false).
    { destruct (existsb _ _) eqn:H; [|reflexivity].
      apply admitted_iff in H. contradiction. }
    destruct req; cbn [guard_of] in Hguard; try discriminate;
      injection Hguard as <- <-;
      unfold handle, require_admin, require_suggestion_manager, require_role;
      rewrite Hno; cbn [negb]; unfold_store; eexists; reflexivity.
  - intros Hrole.
    assert (Hyes : existsb (String.eqb (CurrentUser.role current_user))
                     (map UserRole_value allowed) = true)
      by now apply admitted_iff.
    destruct req; cbn [guard_of] in Hguard; try discriminate;
      injection Hguard as <- <-;
      unfold handle, require_admin, require_suggestion_manager, require_role;
      rewrite Hyes; cbn [negb];
      unfold create_policy, update_policy, delete_policy, approve_policy,
        reset_all_policy_reviews, create_bylaw, update_bylaw, approve_bylaw,
        delete_bylaw, delete_suggestion;
      unfold_store; store_simpl; crunch;
      intros e He; try discriminate He; injection He as <-; cbn; discriminate.
Qed.

Lemma serve_guarded (str : HTTPException -> string) (na : HTTPException)
  (req : request) (carried : CurrentUser.t) (allowed : list UserRole)
  (credentials : option get_user_outcome) (w : World) :
  guard_of req = Some (carried, allowed) ->
  serve str na credentials (Route req) w
  = match current_user_of str na credentials w with
    | (Ok current_user, w') => handle (with_identity current_user req) w'
    | (Raise e, w') => (Raise e, w')
    end
  /\ forall current_user,
      guard_of (with_identity current_user req) = Some (current_user, allowed).
Proof.
  intros Hguard.
  destruct req; cbn [guard_of] in Hguard; try discriminate;
    injection Hguard as _ <-; (split; [|reflexivity]);
    cbn [serve]; unfold bind at 1;
    destruct (current_user_of str na credentials w) as [[resolved_user|e] w'];
    reflexivity.
Qed.

(** X13.  A guarded request is answered from its bearer token on.  The
    identity is resolved first: a verified user gets the role of their
    users row, and a user without a row gets one, of role [public].  When
    that role is not among those the guard admits, the answer is HTTP 403,
    the handler does not run, and the store is left as the resolution left
    it: unchanged for a known user, with the one new [public] row for an
    unknown one.  When the role is admitted the answer is never HTTP 403.
    A token the provider does not verify gives HTTP 401, and a request
    without a token the framework's answer, both with nothing changed. *)
Theorem guards_reject_and_admit (HTTPException_str : HTTPException -> string)
  (not_authenticated : HTTPException) (req : request) (w : World)
  (carried : CurrentUser.t) (allowed : list UserRole) :
  guard_of req = Some (carried, allowed) ->
  let served credentials :=
    serve HTTPException_str not_authenticated credentials (Route req) w in
  (forall user : VerifiedUser.t,
      let role := stored_role (VerifiedUser.id user) (users (db w)) in
      let answer := served (Some (GetUserReturns (Some (Some user)))) in
      (~ In role (map UserRole_value allowed) ->
       exists message, answer = (Raise (http 403 message), provisioned user w))
      /\ (In role (map UserRole_value allowed) ->
          forall e, fst answer = Raise e -> status_code e <> 403))
  /\ (forall verified,
      (forall user, verified <> GetUserReturns (Some (Some user))) ->
      exists message, served (Some verified) = (Raise (http 401 message), w))
  /\ served None = (Raise not_authenticated, w).
Proof.
  intros Hguard served. subst served. cbn beta.
  split; [|split].
  - intros user role answer. subst role answer.
    destruct (serve_guarded HTTPException_str not_authenticated req carried
                allowed (Some (GetUserReturns (Some (Some user)))) w Hguard)
      as [-> Hsame].
    rewrite current_user_of_verified.
    destruct (handle_guarded (with_identity (resolved user w) req)
                (provisioned user w) (resolved user w) allowed
                (Hsame _)) as [Hreject Hadmit].
    split; [exact Hreject|exact Hadmit].
  - intros verified Hnot.
    destruct (serve_guarded HTTPException_str not_authenticated req carried
                allowed (Some verified) w Hguard) as [-> _].
    destruct (current_user_of_unverified HTTPException_str not_authenticated
                verified w Hnot) as (message & ->).
    exists message. reflexivity.
  - destruct (serve_guarded HTTPException_str not_authenticated req carried
                allowed None w Hguard) as [-> _].
    reflexivity.
Qed.

Lemma guards_reject_and_admit_witness :
  (exists message,
      serve More.status_and_detail More.no_bearer
        (Some (GetUserReturns (Some (Some More.visitor))))
        (Route (DELETE_policy Sample.admin "2.3.1")) Sample.approved
      = (Raise (http 403 message), provisioned More.visitor Sample.approved))
  /\ map UserRow.role (users (db (provisioned More.visitor Sample.approved)))
     = ["public"]
  /\ (exists message,
      serve More.status_and_detail More.no_bearer
        (Some (GetUserReturns (Some (Some More.member_token))))
        (Route (PUT_policy_approve Sample.admin "2.3.1"))
        (Sample.with_member "policy_working_group")
      = (Raise (http 403 message), Sample.with_member "policy_working_group")).
Proof.
  split; [|split].
  - pose proof (guards_reject_and_admit More.status_and_detail More.no_bearer
                  (DELETE_policy Sample.admin "2.3.1") Sample.approved
                  Sample.admin [ADMIN] eq_refl) as H.
    cbv zeta in H. destruct H as (Hverified & _).
    apply (Hverified More.visitor). cbn. intros [H|[]]. discriminate.
  - reflexivity.
  - pose proof (guards_reject_and_admit More.status_and_detail More.no_bearer
                  (PUT_policy_approve Sample.admin "2.3.1")
                  (Sample.with_member "policy_working_group")
                  Sample.admin [ADMIN] eq_refl) as H.
    cbv zeta in H. destruct H as (Hverified & _).
    apply (Hverified More.member_token). cbn. intros [H|[]]. discriminate.
Defined.

(** ** Roles in the users table *)













(** ** The identity gateway *)

(** X15.  For a token the identity provider verifies, [get_current_user]
    answers with the provider's id and email and with the role of the users
    row of that id; when there is no such row it stores one with role
    [public] and answers [public].  Either way a row of that id is stored
    afterwards, and asking again gives the same answer and changes nothing
    more.  For any other outcome it answers with HTTP 401 and changes
    nothing. *)
Theorem get_current_user_provisions (HTTPException_str : HTTPException -> string)
  (w : World) :
  (forall user : VerifiedUser.t,
      let verified := GetUserReturns (Some (Some user)) in
      let w' := snd (get_current_user HTTPException_str verified w) in
      exists role,
        fst (get_current_user HTTPException_str verified w)
        = Ok {| Identity.current_user :=
                  {| CurrentUser.id := VerifiedUser.id user;
                     CurrentUser.email := VerifiedUser.email user;
                     CurrentUser.role := role |};
                Identity.user_metadata := VerifiedUser.user_metadata user |}
        /\ match filter (fun r => UserRow.id r =? VerifiedUser.id user)
                        (users (db w)) with
           | row :: _ => role = UserRow.role row /\ w' = w
           | [] =>
             role = "public"
             /\ users (db w')
                = (users (db w)
                   ++ [ {| UserRow.id := VerifiedUser.id user;
                           UserRow.email := VerifiedUser.email user;
                           UserRow.role := "public";
                           UserRow.name := None |} ])%list
           end
        /\ (exists row, In row (users (db w'))
                        /\ UserRow.id row = VerifiedUser.id user
                        /\ UserRow.role row = role)
        /\ get_current_user HTTPException_str verified w'
           = (fst (get_current_user HTTPException_str verified w), w'))
  /\ (forall verified,
      (forall user, verified <> GetUserReturns (Some (Some user))) ->
      exists message,
        get_current_user HTTPException_str verified w
        = (Raise (http 401 message), w)).
Proof.
  split.
  - intros user verified w'. subst verified w'.
    unfold get_current_user. unfold_store. store_simpl.
    destruct (filter _ (users (db w))) as [|row rest] eqn:Hex; store_simpl.
    + exists "public". split; [reflexivity|]. split; [auto|]. split.
      * eexists. split; [apply in_or_app; right; left; reflexivity|].
        split; reflexivity.
      * rewrite filter_app, Hex. cbn [filter app UserRow.id].
        rewrite String.eqb_refl. reflexivity.
    + exists (UserRow.role row). split; [reflexivity|]. split; [auto|]. split.
      * destruct (in_filter_head _ _ _ _ Hex) as [Hin Hid].
        apply String.eqb_eq in Hid. exists row. auto.
      * rewrite Hex. reflexivity.
  - intros verified Hnot.
    destruct verified as [message|[[user|]|]].
    + eexists. reflexivity.
    + now destruct (Hnot user).
    + eexists. reflexivity.
    + eexists. reflexivity.
Qed.

(** X16.  [get_optional_user] never fails.  Without a bearer token it
    answers [None] and reads nothing; with one it answers with the identity
    [get_current_user] finds, and with [None], leaving the world as it was,
    when [get_current_user] fails. *)
Theorem get_optional_user_never_fails
  (HTTPException_str : HTTPException -> string) (w : World) :
  get_optional_user HTTPException_str None w = (Ok None, w)
  /\ (forall verified,
      (exists user,
          get_current_user HTTPException_str verified w
          = (Ok user, snd (get_current_user HTTPException_str verified w))
          /\ get_optional_user HTTPException_str (Some verified) w
             = (Ok (Some user), snd (get_current_user HTTPException_str verified w)))
      \/ (exists e,
             get_current_user HTTPException_str verified w = (Raise e, w)
             /\ get_optional_user HTTPException_str (Some verified) w
                = (Ok None, w))).
Proof.
  split; [reflexivity|].
  intros verified.
  destruct verified as [message|[[user|]|]].
  - right. eexists. split; reflexivity.
  - left. unfold get_optional_user, get_current_user. unfold_store.
    store_simpl.
    destruct (filter _ (users (db w))); eexists; split; reflexivity.
  - right. eexists. split; reflexivity.
  - right. eexists. split; reflexivity.
Qed.

Lemma get_current_user_provisions_witness :
  (exists message,
      get_current_user More.status_and_detail (GetUserRaises "token expired")
        Sample.approved
      = (Raise (http 401 message), Sample.approved))
  /\ (exists role,
      fst (get_current_user More.status_and_detail
             (GetUserReturns (Some (Some More.visitor))) Sample.approved)
      = Ok {| Identity.current_user :=
                {| CurrentUser.id := "auth-visitor";
                   CurrentUser.email := Some "v@x.com";
                   CurrentUser.role := role |};
              Identity.user_metadata := PyDict [] |}
      /\ role = "public").
Proof.
  destruct (get_current_user_provisions More.status_and_detail Sample.approved)
    as [Hok Hfail].
  split.
  - apply Hfail. discriminate.
  - destruct (Hok More.visitor) as (role & Hfst & Hrole & _).
    exists role. split; [exact Hfst|]. apply Hrole.
Defined.

(** ** User management *)

(** X17.  [register] stores a users row whenever the identity provider
    returns a user, always with role [policy_working_group] and the name
    that was sent, also when the provider opens no session: the answer is
    then an exception with status 200 and no token.  When the provider
    raises or returns no user it answers with HTTP 400 and stores
    nothing. *)
Theorem register_stores_working_group (w : World)
  (register_data : RegisterRequest.t) :
  (forall user session,
      let sign_up :=
        SignInReturns (Some {| AuthResponse.user := Some user;
                               AuthResponse.session := session |}) in
      users (db (snd (register register_data sign_up w)))
      = (users (db w)
         ++ [ {| UserRow.id := AuthUser.id user;
                 UserRow.email := Some (AuthUser.email user);
                 UserRow.role := "policy_working_group";
                 UserRow.name := RegisterRequest.name register_data |} ])%list
      /\ match session with
         | Some s =>
           exists d,
             fst (register register_data sign_up w) = Ok (PyDict d)
             /\ dict_get d "access_token" PyNone = PyStr (Session.access_token s)
         | None =>
           fst (register register_data sign_up w)
           = Raise (http 200 "Registration successful. Please check your email to verify your account.")
         end)
  /\ (forall message,
      register register_data (SignInRaises message) w
      = (Raise (http 400 ("Registration failed: " ++ message)), w))
  /\ register register_data (SignInReturns None) w
     = (Raise (http 400 "Registration failed"), w)
  /\ (forall session,
      register register_data
        (SignInReturns (Some {| AuthResponse.user := None;
                                AuthResponse.session := session |})) w
      = (Raise (http 400 "Registration failed"), w)).
Proof.
  split_all; try reflexivity.
  intros user session sign_up. subst sign_up.
  unfold register. cbn [AuthResponse.user AuthResponse.session].
  unfold_store. store_simpl.
  destruct session as [s|]; store_simpl; (split; [reflexivity|]).
  - eexists. split; reflexivity.
  - reflexivity.
Qed.

Lemma rewrite_none {A : Type} (p : A -> bool) (f : A -> A) (l : list A) :
  filter p l = [] -> map (fun r => if p r then f r else r) l = l.
Proof.
  induction l as [|x l IH]; [reflexivity|].
  cbn [filter map]. destruct (p x); [discriminate|].
  intros H. now rewrite IH.
Qed.

(** X18.  [update_user_role] answers with HTTP 403, changing nothing, to
    anyone whose role is not [admin].  For an admin it answers with HTTP
    404 and leaves the users table as it was when no row has the key;
    otherwise it writes the new role into the rows of that key, keeps their
    other columns and all other rows, and answers with the new role. *)
Theorem update_user_role_sets_role (w : World) (user_id : string)
  (role : UserRole) (current_user : CurrentUser.t) (created_at : pyval) :
  let existing := filter (fun r => UserRow.id r =? user_id) (users (db w)) in
  let answer := fst (update_user_role user_id role current_user created_at w) in
  let after :=
    users (db (snd (update_user_role user_id role current_user created_at w))) in
  (CurrentUser.role current_user <> "admin" ->
   update_user_role user_id role current_user created_at w
   = (Raise (http 403 "Access denied. Admin role required."), w))
  /\ (CurrentUser.role current_user = "admin" ->
      existing = [] ->
      answer = Raise (http 404 "User not found") /\ after = users (db w))
  /\ (CurrentUser.role current_user = "admin" ->
      existing <> [] ->
      (exists d, answer = Ok (PyDict d)
                 /\ dict_get d "role" PyNone = PyStr (UserRole_value role))
      /\ after
         = map (fun r => if UserRow.id r =? user_id
                         then {| UserRow.id := UserRow.id r;
                                 UserRow.email := UserRow.email r;
                                 UserRow.role := UserRole_value role;
                                 UserRow.name := UserRow.name r |}
                         else r)
               (users (db w))).
Proof.
  intros existing answer after. subst existing answer after. split_all.
  - intros Hrole. apply String.eqb_neq in Hrole.
    unfold update_user_role. now rewrite Hrole.
  - intros Hrole Hnone. unfold update_user_role. rewrite Hrole.
    cbn [String.eqb Ascii.eqb Bool.eqb negb]. unfold_store. store_simpl.
    rewrite Hnone. cbn [map]. store_simpl. split; [reflexivity|].
    now apply rewrite_none.
  - intros Hrole Hsome. unfold update_user_role. rewrite Hrole.
    cbn [String.eqb Ascii.eqb Bool.eqb negb]. unfold_store. store_simpl.
    destruct (filter _ (users (db w))) as [|r rest]; [contradiction|].
    cbn [map]. store_simpl. split; [|reflexivity].
    eexists. split; reflexivity.
Qed.

(** X19.  [delete_user] answers with HTTP 403 to anyone whose role is not
    [admin], with HTTP 400 to an admin who names their own id, and with
    HTTP 404 when no row has the key; in these cases nothing changes.
    Otherwise it removes the rows of that key and no other row.  No call
    ever removes a users row that carries the caller's own id. *)
Theorem delete_user_spares_the_caller (w : World) (user_id : string)
  (current_user : CurrentUser.t) :
  let existing := filter (fun r => UserRow.id r =? user_id) (users (db w)) in
  let after := users (db (snd (delete_user user_id current_user w))) in
  (CurrentUser.role current_user <> "admin" ->
   delete_user user_id current_user w
   = (Raise (http 403 "Access denied. Admin role required."), w))
  /\ (CurrentUser.role current_user = "admin" ->
      user_id = CurrentUser.id current_user ->
      delete_user user_id current_user w
      = (Raise (http 400 "You cannot delete your own account"), w))
  /\ (CurrentUser.role current_user = "admin" ->
      user_id <> CurrentUser.id current_user ->
      existing = [] ->
      delete_user user_id current_user w
      = (Raise (http 404 "User not found"), w))
  /\ (CurrentUser.role current_user = "admin" ->
      user_id <> CurrentUser.id current_user ->
      existing <> [] ->
      (exists d, fst (delete_user user_id current_user w) = Ok (PyDict d)
                 /\ dict_get d "deleted_user_id" PyNone = PyStr user_id)
      /\ after = filter (fun r => negb (UserRow.id r =? user_id)) (users (db w)))
  /\ (forall r, In r (users (db w)) ->
                UserRow.id r = CurrentUser.id current_user -> In r after).
Proof.
  intros existing after. subst existing after. split_all.
  - intros Hrole. apply String.eqb_neq in Hrole.
    unfold delete_user. now rewrite Hrole.
  - intros Hrole ->. unfold delete_user. rewrite Hrole, !String.eqb_refl.
    reflexivity.
  - intros Hrole Hother Hnone. apply String.eqb_neq in Hother.
    unfold delete_user. rewrite Hrole, Hother.
    cbn [String.eqb Ascii.eqb Bool.eqb negb]. unfold_store. store_simpl.
    now rewrite Hnone.
  - intros Hrole Hother Hsome. apply String.eqb_neq in Hother.
    unfold delete_user. rewrite Hrole, Hother.
    cbn [String.eqb Ascii.eqb Bool.eqb negb]. unfold_store. store_simpl.
    destruct (filter _ (users (db w))) as [|r rest]; [contradiction|].
    store_simpl. split; [|reflexivity]. eexists. split; reflexivity.
  - intros r Hin Hid. unfold delete_user.
    destruct (negb (CurrentUser.role current_user =? "admin")); [exact Hin|].
    destruct (String.eqb_spec user_id (CurrentUser.id current_user)) as [He|Hne];
      [exact Hin|].
    unfold_store. store_simpl.
    destruct (filter _ (users (db w))) as [|r0 rest]; [exact Hin|].
    store_simpl. apply filter_In. split; [exact Hin|].
    apply negb_true_iff, String.eqb_neq. congruence.
Qed.

(** X20.  [require_admin_dashboard_access] admits exactly the roles that
    [require_suggestion_manager] admits, [admin] and
    [policy_working_group]: both pass the identity on unchanged, or both
    answer with HTTP 403; neither touches the world. *)
Theorem dashboard_guard_admits_managers (current_user : CurrentUser.t)
  (w : World) :
  (CurrentUser.role current_user = "admin"
   \/ CurrentUser.role current_user = "policy_working_group" ->
   require_admin_dashboard_access current_user w = (Ok current_user, w)
   /\ require_suggestion_manager current_user w = (Ok current_user, w))
  /\ (CurrentUser.role current_user <> "admin" ->
      CurrentUser.role current_user <> "policy_working_group" ->
      (exists message,
          require_admin_dashboard_access current_user w
          = (Raise (http 403 message), w))
      /\ (exists message,
             require_suggestion_manager current_user w
             = (Raise (http 403 message), w))).
Proof.
  unfold require_admin_dashboard_access, require_suggestion_manager,
    require_role, ADMIN_DASHBOARD_ROLES.
  cbn [map UserRole_value existsb]. split.
  - intros [H|H]; rewrite H; split; reflexivity.
  - intros Ha Hg. apply String.eqb_neq in Ha, Hg. rewrite Ha, Hg.
    cbn [orb negb]. unfold_store. split; eexists; reflexivity.
Qed.

Lemma update_user_role_sets_role_witness :
  update_user_role "auth-member" ADMIN More.working_group PyNone
    (Sample.with_member "public")
  = (Raise (http 403 "Access denied. Admin role required."),
     Sample.with_member "public")
  /\ map UserRow.role
         (users (db (snd (update_user_role "auth-member" POLICY_WORKING_GROUP
                            Sample.admin PyNone
                            (Sample.with_member "public")))))
     = ["policy_working_group"]
  /\ fst (update_user_role "no-such-user" ADMIN Sample.admin PyNone
            (Sample.with_member "public"))
     = Raise (http 404 "User not found").
Proof.
  split; [|split].
  - pose proof (update_user_role_sets_role (Sample.with_member "public")
                  "auth-member" ADMIN More.working_group PyNone) as H.
    cbv zeta in H. destruct H as (Hdenied & _ & _).
    apply Hdenied. discriminate.
  - pose proof (update_user_role_sets_role (Sample.with_member "public")
                  "auth-member" POLICY_WORKING_GROUP Sample.admin PyNone) as H.
    cbv zeta in H. destruct H as (_ & _ & Hset).
    destruct Hset as (_ & Hrows); [reflexivity|discriminate|].
    rewrite Hrows. reflexivity.
  - pose proof (update_user_role_sets_role (Sample.with_member "public")
                  "no-such-user" ADMIN Sample.admin PyNone) as H.
    cbv zeta in H. destruct H as (_ & Hnone & _).
    apply Hnone; reflexivity.
Defined.

Lemma delete_user_spares_the_caller_witness :
  delete_user "auth-admin" Sample.admin (Sample.with_member "public")
  = (Raise (http 400 "You cannot delete your own account"),
     Sample.with_member "public")
  /\ users (db (snd (delete_user "auth-member" Sample.admin
                       (Sample.with_member "public")))) = []
  /\ delete_user "auth-member" More.working_group (Sample.with_member "public")
     = (Raise (http 403 "Access denied. Admin role required."),
        Sample.with_member "public")
  /\ delete_user "no-such-user" Sample.admin (Sample.with_member "public")
     = (Raise (http 404 "User not found"), Sample.with_member "public").
Proof.
  split; [|split; [|split]].
  - pose proof (delete_user_spares_the_caller (Sample.with_member "public")
                  "auth-admin" Sample.admin) as H.
    cbv zeta in H. destruct H as (_ & Hself & _).
    apply Hself; reflexivity.
  - pose proof (delete_user_spares_the_caller (Sample.with_member "public")
                  "auth-member" Sample.admin) as H.
    cbv zeta in H. destruct H as (_ & _ & _ & Hgone & _).
    destruct Hgone as (_ & Hrows); [reflexivity|discriminate|discriminate|].
    rewrite Hrows. reflexivity.
  - pose proof (delete_user_spares_the_caller (Sample.with_member "public")
                  "auth-member" More.working_group) as H.
    cbv zeta in H. destruct H as (Hdenied & _).
    apply Hdenied. discriminate.
  - pose proof (delete_user_spares_the_caller (Sample.with_member "public")
                  "no-such-user" Sample.admin) as H.
    cbv zeta in H. destruct H as (_ & _ & Hnone & _).
    apply Hnone; [reflexivity|discriminate|reflexivity].
Defined.

Lemma dashboard_guard_admits_managers_witness :
  require_admin_dashboard_access More.working_group Sample.start
  = (Ok More.working_group, Sample.start)
  /\ exists message,
      require_admin_dashboard_access More.public_user Sample.start
      = (Raise (http 403 message), Sample.start).
Proof.
  split.
  - apply (dashboard_guard_admits_managers More.working_group Sample.start).
    right. reflexivity.
  - apply (dashboard_guard_admits_managers More.public_user Sample.start);
      discriminate.
Defined.

(** ** How the operations compose *)

Lemma rewritten_rows {A : Type} (p : A -> bool) (f : A -> A) (l : list A) :
  (forall r, p (f r) = p r) ->
  filter p (map (fun r => if p r then f r else r) l) = map f (filter p l).
Proof.
  intros Hkey. induction l as [|x l IH]; [reflexivity|].
  cbn [map filter]. destruct (p x) eqn:Hp.
  - rewrite Hkey, Hp. cbn [map]. now rewrite IH.
  - now rewrite Hp.
Qed.

Lemma approve_policy_cases (w : World) (policy_id : string)
  (current_user : CurrentUser.t) :
  match filter (fun r => PolicyRow.policy_id r =? policy_id) (policies (db w)) with
  | [] =>
    approve_policy policy_id current_user w
    = (Raise (http 404 "Policy not found"), w)
  | current :: _ =>
    if PolicyRow.status current =? "approved"
    then approve_policy policy_id current_user w
         = (Raise (http 400 "Policy is already approved"), w)
    else
      let stamp :=
        approved_policy (clock w (ticks w)) (CurrentUser.id current_user) in
      fst (approve_policy policy_id current_user w)
      = Ok (convert_policy_from_db (stamp current))
      /\ policies (db (snd (approve_policy policy_id current_user w)))
         = map (fun r => if PolicyRow.policy_id r =? policy_id
                         then stamp r else r)
               (policies (db w))
  end.
Proof.
  unfold approve_policy. unfold_store. store_simpl.
  destruct (filter _ (policies (db w))) as [|current rest] eqn:Hex;
    [reflexivity|].
  cbn [PolicyStatus_value].
  destruct (PolicyRow.status current =? "approved"); [reflexivity|].
  store_simpl. rewrite Hex. cbn [map]. store_simpl. split; reflexivity.
Qed.

Lemma approve_bylaw_cases (w : World) (bylaw_id : string)
  (current_user : CurrentUser.t) :
  match filter (fun r => BylawRow.id r =? bylaw_id) (bylaws (db w)) with
  | [] =>
    approve_bylaw bylaw_id current_user w
    = (Raise (http 404 "Bylaw not found"), w)
  | current :: _ =>
    if BylawRow.status current =? "approved"
    then approve_bylaw bylaw_id current_user w
         = (Raise (http 400 "Bylaw is already approved"), w)
    else
      let stamp :=
        approved_bylaw (clock w (ticks w)) (CurrentUser.id current_user) in
      fst (approve_bylaw bylaw_id current_user w)
      = Ok (convert_bylaw_from_db (stamp current))
      /\ bylaws (db (snd (approve_bylaw bylaw_id current_user w)))
         = map (fun r => if BylawRow.id r =? bylaw_id then stamp r else r)
               (bylaws (db w))
  end.
Proof.
  unfold approve_bylaw. unfold_store. store_simpl.
  destruct (filter _ (bylaws (db w))) as [|current rest] eqn:Hex;
    [reflexivity|].
  cbn [PolicyStatus_value].
  destruct (BylawRow.status current =? "approved"); [reflexivity|].
  store_simpl. rewrite Hex. cbn [map]. store_simpl. split; reflexivity.
Qed.

(** X21.  Approval and editing alternate.  Right after a successful
    approval of a policy or bylaw a second approval fails with HTTP 400 and
    changes nothing; right after a successful update an approval succeeds
    and answers with status [approved]. *)
Theorem approval_and_update_alternate :
  (forall w policy_id current_user admin d,
      fst (approve_policy policy_id current_user w) = Ok d ->
      let w1 := snd (approve_policy policy_id current_user w) in
      approve_policy policy_id admin w1
      = (Raise (http 400 "Policy is already approved"), w1))
  /\ (forall w policy_id policy_update current_user admin d,
      fst (update_policy policy_id policy_update current_user w) = Ok d ->
      let w1 := snd (update_policy policy_id policy_update current_user w) in
      exists d',
        fst (approve_policy policy_id admin w1) = Ok d'
        /\ dict_get d' "status" PyNone = PyStr "approved")
  /\ (forall w bylaw_id current_user admin d,
      fst (approve_bylaw bylaw_id current_user w) = Ok d ->
      let w1 := snd (approve_bylaw bylaw_id current_user w) in
      approve_bylaw bylaw_id admin w1
      = (Raise (http 400 "Bylaw is already approved"), w1))
  /\ (forall w bylaw_id bylaw_update current_user admin d,
      fst (update_bylaw bylaw_id bylaw_update current_user w) = Ok d ->
      let w1 := snd (update_bylaw bylaw_id bylaw_update current_user w) in
      exists d',
        fst (approve_bylaw bylaw_id admin w1) = Ok d'
        /\ dict_get d' "status" PyNone = PyStr "approved").
Proof.
  split_all.
  - intros w policy_id current_user admin d Hok w1.
    pose proof (approve_policy_cases w policy_id current_user) as Hfirst.
    destruct (filter _ (policies (db w))) as [|current rest] eqn:Hex;
      [rewrite Hfirst in Hok; discriminate|].
    destruct (PolicyRow.status current =? "approved");
      [rewrite Hfirst in Hok; discriminate|].
    destruct Hfirst as [_ Hrows]. fold w1 in Hrows.
    pose proof (approve_policy_cases w1 policy_id admin) as Hsecond.
    rewrite Hrows, (rewritten_rows (fun r => PolicyRow.policy_id r =? policy_id)),
      Hex in Hsecond by reflexivity.
    exact Hsecond.
  - intros w policy_id policy_update current_user admin d Hok w1.
    pose proof (update_policy_policies w policy_id policy_update current_user)
      as Hfirst.
    destruct (filter _ (policies (db w))) as [|current rest] eqn:Hex;
      [rewrite Hfirst in Hok; discriminate|].
    destruct Hfirst as (t & _ & Hrows). fold w1 in Hrows.
    pose proof (approve_policy_cases w1 policy_id admin) as Hsecond.
    rewrite Hrows, (rewritten_rows (fun r => PolicyRow.policy_id r =? policy_id)),
      Hex in Hsecond by reflexivity.
    cbn in Hsecond. destruct Hsecond as [Hres _].
    eexists. split; [exact Hres|reflexivity].
  - intros w bylaw_id current_user admin d Hok w1.
    pose proof (approve_bylaw_cases w bylaw_id current_user) as Hfirst.
    destruct (filter _ (bylaws (db w))) as [|current rest] eqn:Hex;
      [rewrite Hfirst in Hok; discriminate|].
    destruct (BylawRow.status current =? "approved");
      [rewrite Hfirst in Hok; discriminate|].
    destruct Hfirst as [_ Hrows]. fold w1 in Hrows.
    pose proof (approve_bylaw_cases w1 bylaw_id admin) as Hsecond.
    rewrite Hrows, (rewritten_rows (fun r => BylawRow.id r =? bylaw_id)),
      Hex in Hsecond by reflexivity.
    exact Hsecond.
  - intros w bylaw_id bylaw_update current_user admin d Hok w1.
    pose proof (update_bylaw_bylaws w bylaw_id bylaw_update current_user)
      as Hfirst.
    destruct (filter _ (bylaws (db w))) as [|current rest] eqn:Hex;
      [rewrite Hfirst in Hok; discriminate|].
    destruct Hfirst as (_ & Hrows). fold w1 in Hrows.
    pose proof (approve_bylaw_cases w1 bylaw_id admin) as Hsecond.
    rewrite Hrows, (rewritten_rows (fun r => BylawRow.id r =? bylaw_id)),
      Hex in Hsecond by reflexivity.
    cbn in Hsecond. destruct Hsecond as [Hres _].
    eexists. split; [exact Hres|reflexivity].
Qed.

Lemma approval_and_update_alternate_witness :
  (let w1 := snd (approve_policy "2.3.1" Sample.admin Sample.drafted) in
   approve_policy "2.3.1" More.working_group w1
   = (Raise (http 400 "Policy is already approved"), w1))
  /\ (let w1 :=
        snd (update_bylaw Sample.bylaw_key Sample.new_title More.working_group
               Sample.approved) in
      exists d',
        fst (approve_bylaw Sample.bylaw_key Sample.admin w1) = Ok d'
        /\ dict_get d' "status" PyNone = PyStr "approved").
Proof.
  destruct approval_and_update_alternate as (Htwice & _ & _ & Hagain).
  split.
  - eapply (Htwice Sample.drafted "2.3.1" Sample.admin More.working_group).
    reflexivity.
  - eapply (Hagain Sample.approved Sample.bylaw_key Sample.new_title
              More.working_group Sample.admin).
    reflexivity.
Defined.

Lemma create_policy_fresh (w : World) (policy : PolicyCreate.t)
  (current_user : CurrentUser.t) :
  filter (fun r => PolicyRow.policy_id r =? PolicyCreate.policy_id policy)
         (policies (db w)) = [] ->
  let row :=
    {| PolicyRow.id := uuids w (issued w);
       PolicyRow.policy_id := PolicyCreate.policy_id policy;
       PolicyRow.name := PolicyCreate.policy_name policy;
       PolicyRow.section := PolicyCreate.section policy;
       PolicyRow.content := PolicyCreate.policy_content policy;
       PolicyRow.status := "draft";
       PolicyRow.created_at := clock w (ticks w);
       PolicyRow.updated_at := clock w (S (ticks w));
       PolicyRow.created_by := CurrentUser.id current_user;
       PolicyRow.updated_by := CurrentUser.id current_user |} in
  fst (create_policy policy current_user w) = Ok (convert_policy_from_db row)
  /\ policies (db (snd (create_policy policy current_user w)))
     = (policies (db w) ++ [row])%list.
Proof.
  intros Hnone row. subst row. unfold create_policy. unfold_store. store_simpl.
  rewrite Hnone. cbn [nonempty]. store_simpl. split; reflexivity.
Qed.

Lemma no_row_of_the_code (policy_id : string) (rows : list PolicyRow.t) :
  filter (fun r => PolicyRow.policy_id r =? policy_id) rows = [] ->
  filter (fun r => (PolicyRow.policy_id r =? policy_id)
                   && (PolicyRow.status r =? "approved")) rows = [].
Proof.
  induction rows as [|x rows IH]; [reflexivity|].
  cbn [filter]. destruct (PolicyRow.policy_id x =? policy_id); [discriminate|].
  exact IH.
Qed.

Lemma get_approved_policy_by_id_cases (w : World) (policy_id : string) :
  get_approved_policy_by_id policy_id w
  = (match filter (fun r => (PolicyRow.policy_id r =? policy_id)
                            && (PolicyRow.status r =? "approved"))
                  (policies (db w)) with
     | [] => Raise (http 404 "Policy not found")
     | row :: _ => Ok (convert_policy_from_db row)
     end, w).
Proof.
  unfold get_approved_policy_by_id. unfold_store. store_simpl.
  destruct (filter _ (policies (db w))); reflexivity.
Qed.

(** X22.  A policy travels from creation to the public.  When no row has
    the code yet, the created policy is not served by
    [get_approved_policy_by_id] (HTTP 404) until it is approved; after
    [approve_policy] the same call serves it with the name, section and
    content it was created with, status [approved], and the approver as
    [updated_by]. *)
Theorem created_policy_is_served_once_approved (w : World)
  (policy : PolicyCreate.t) (current_user admin : CurrentUser.t) :
  filter (fun r => PolicyRow.policy_id r =? PolicyCreate.policy_id policy)
         (policies (db w)) = [] ->
  let code := PolicyCreate.policy_id policy in
  let w1 := snd (create_policy policy current_user w) in
  let w2 := snd (approve_policy code admin w1) in
  get_approved_policy_by_id code w1 = (Raise (http 404 "Policy not found"), w1)
  /\ exists d,
      get_approved_policy_by_id code w2 = (Ok d, w2)
      /\ fst (approve_policy code admin w1) = Ok d
      /\ dict_get d "policy_id" PyNone = PyStr code
      /\ dict_get d "policy_name" PyNone = PyStr (PolicyCreate.policy_name policy)
      /\ dict_get d "section" PyNone = PyStr (PolicyCreate.section policy)
      /\ dict_get d "policy_content" PyNone
         = PyStr (PolicyCreate.policy_content policy)
      /\ dict_get d "status" PyNone = PyStr "approved"
      /\ dict_get d "created_by" PyNone = PyStr (CurrentUser.id current_user)
      /\ dict_get d "updated_by" PyNone = PyStr (CurrentUser.id admin).
Proof.
  intros Hnone code w1 w2.
  destruct (create_policy_fresh w policy current_user Hnone) as [_ Hrows1].
  fold w1 in Hrows1. fold code in Hnone, Hrows1. clearbody w1.
  match type of Hrows1 with
  | _ = (_ ++ [?r])%list => set (row := r) in Hrows1
  end.
  assert (Hcode : filter (fun r => PolicyRow.policy_id r =? code)
                         (policies (db w1)) = [row]).
  { rewrite Hrows1, filter_app, Hnone. cbn [filter app]. subst row.
    cbn [PolicyRow.policy_id]. now rewrite String.eqb_refl. }
  split.
  - rewrite get_approved_policy_by_id_cases, Hrows1, filter_app,
      (no_row_of_the_code code _ Hnone).
    cbn [filter app]. subst row. cbn [PolicyRow.policy_id PolicyRow.status].
    rewrite String.eqb_refl. reflexivity.
  - pose proof (approve_policy_cases w1 code admin) as Happrove.
    rewrite Hcode in Happrove.
    change (PolicyRow.status row) with "draft" in Happrove.
    cbn [String.eqb Ascii.eqb Bool.eqb] in Happrove.
    destruct Happrove as [Hres Hrows2]. fold w2 in Hrows2. clearbody w2.
    exists (convert_policy_from_db
              (approved_policy (clock w1 (ticks w1)) (CurrentUser.id admin) row)).
    split; [|split; [exact Hres|repeat split; reflexivity]].
    rewrite get_approved_policy_by_id_cases, Hrows2, Hrows1, map_app, filter_app.
    rewrite (rewrite_none (fun r => PolicyRow.policy_id r =? code)) by exact Hnone.
    rewrite (no_row_of_the_code code _ Hnone).
    cbn [map filter app]. subst row.
    cbn [PolicyRow.policy_id PolicyRow.status approved_policy].
    rewrite String.eqb_refl.
    cbn [PolicyRow.policy_id PolicyRow.status approved_policy].
    rewrite String.eqb_refl. reflexivity.
Qed.

Lemma created_policy_is_served_once_approved_witness :
  let w1 := snd (create_policy Sample.travel Sample.admin Sample.start) in
  filter (fun r => PolicyRow.policy_id r =? "2.3.1") (policies (db Sample.start))
  = []
  /\ get_approved_policy_by_id "2.3.1" w1
     = (Raise (http 404 "Policy not found"), w1).
Proof.
  split; [reflexivity|].
  apply (created_policy_is_served_once_approved Sample.start Sample.travel
           Sample.admin Sample.admin).
  reflexivity.
Defined.

(** X23.  An update touches only what it is given.  A successful
    [update_policy] rewrites exactly the rows of the code: each keeps its
    id, code, creation stamp and creator, takes the supplied name, section
    and content (and keeps the ones left out), becomes a draft signed by
    the caller; every other row is as it was.  The status sent by the
    caller is never read.  [update_bylaw] does the same by id, and writes
    a supplied number without looking for another bylaw that has it. *)
Theorem update_touches_only_given_fields :
  (forall w policy_id policy_update current_user d,
      fst (update_policy policy_id policy_update current_user w) = Ok d ->
      exists updated_at,
        policies (db (snd (update_policy policy_id policy_update current_user w)))
        = map (fun r =>
                 if PolicyRow.policy_id r =? policy_id
                 then {| PolicyRow.id := PolicyRow.id r;
                         PolicyRow.policy_id := PolicyRow.policy_id r;
                         PolicyRow.name :=
                           match PolicyUpdate.policy_name policy_update with
                           | Some v => v
                           | None => PolicyRow.name r
                           end;
                         PolicyRow.section :=
                           match PolicyUpdate.section policy_update with
                           | Some v => v
                           | None => PolicyRow.section r
                           end;
                         PolicyRow.content :=
                           match PolicyUpdate.policy_content policy_update with
                           | Some v => v
                           | None => PolicyRow.content r
                           end;
                         PolicyRow.status := "draft";
                         PolicyRow.created_at := PolicyRow.created_at r;
                         PolicyRow.updated_at := updated_at;
                         PolicyRow.created_by := PolicyRow.created_by r;
                         PolicyRow.updated_by := CurrentUser.id current_user |}
                 else r)
              (policies (db w)))
  /\ (forall w policy_id policy_update current_user status,
      update_policy policy_id
        {| PolicyUpdate.policy_name := PolicyUpdate.policy_name policy_update;
           PolicyUpdate.section := PolicyUpdate.section policy_update;
           PolicyUpdate.policy_content := PolicyUpdate.policy_content policy_update;
           PolicyUpdate.status := status |}
        current_user w
      = update_policy policy_id policy_update current_user w)
  /\ (forall w bylaw_id bylaw_update current_user d,
      fst (update_bylaw bylaw_id bylaw_update current_user w) = Ok d ->
      bylaws (db (snd (update_bylaw bylaw_id bylaw_update current_user w)))
      = map (fun r =>
               if BylawRow.id r =? bylaw_id
               then {| BylawRow.id := BylawRow.id r;
                       BylawRow.number :=
                         match BylawUpdate.bylaw_number bylaw_update with
                         | Some n => n
                         | None => BylawRow.number r
                         end;
                       BylawRow.title :=
                         match BylawUpdate.bylaw_title bylaw_update with
                         | Some v => v
                         | None => BylawRow.title r
                         end;
                       BylawRow.content :=
                         match BylawUpdate.bylaw_content bylaw_update with
                         | Some v => v
                         | None => BylawRow.content r
                         end;
                       BylawRow.status := "draft";
                       BylawRow.created_at := BylawRow.created_at r;
                       BylawRow.updated_at := clock w (ticks w);
                       BylawRow.created_by := BylawRow.created_by r;
                       BylawRow.updated_by := CurrentUser.id current_user |}
               else r)
            (bylaws (db w)))
  /\ (forall w bylaw_id bylaw_update current_user status,
      update_bylaw bylaw_id
        {| BylawUpdate.bylaw_number := BylawUpdate.bylaw_number bylaw_update;
           BylawUpdate.bylaw_title := BylawUpdate.bylaw_title bylaw_update;
           BylawUpdate.bylaw_content := BylawUpdate.bylaw_content bylaw_update;
           BylawUpdate.status := status |}
        current_user w
      = update_bylaw bylaw_id bylaw_update current_user w).
Proof.
  split_all.
  - intros w policy_id policy_update current_user d Hok.
    pose proof (update_policy_policies w policy_id policy_update current_user)
      as Hcases.
    destruct (filter _ (policies (db w))) as [|current rest];
      [rewrite Hcases in Hok; discriminate|].
    destruct Hcases as (updated_at & _ & Hrows).
    exists updated_at. exact Hrows.
  - reflexivity.
  - intros w bylaw_id bylaw_update current_user d Hok.
    pose proof (update_bylaw_bylaws w bylaw_id bylaw_update current_user)
      as Hcases.
    destruct (filter _ (bylaws (db w))) as [|current rest];
      [rewrite Hcases in Hok; discriminate|].
    destruct Hcases as (_ & Hrows). exact Hrows.
  - reflexivity.
Qed.

Lemma update_touches_only_given_fields_witness :
  exists updated_at,
    map (fun r => (PolicyRow.name r, PolicyRow.content r, PolicyRow.status r,
                   PolicyRow.updated_at r, PolicyRow.updated_by r))
        (policies (db (snd (update_policy "2.3.1" Sample.new_content
                              More.working_group Sample.approved))))
    = [("Travel", "Members book their own travel.", "draft", updated_at,
        "auth-wg")].
Proof.
  destruct update_touches_only_given_fields as (Hrows & _).
  destruct (Hrows Sample.approved "2.3.1" Sample.new_content More.working_group
              (convert_policy_from_db
                 (policy_set
                    (policy_update_data Sample.new_content (Sample.clock 7)
                       "auth-wg")
                    Sample.approved_travel)))
    as (updated_at & Hafter).
  - reflexivity.
  - exists updated_at. rewrite Hafter. reflexivity.
Defined.

(** X24.  [create_suggestion] resolves its targets before it stores
    anything.  A policy code that no policy has gives HTTP 404
    [Policy not found]; a bylaw id that no bylaw has gives HTTP 404
    [Bylaw not found] once the policy, if one is named, was found; nothing
    is stored in either case.  On success the stored row carries the
    surrogate key of the first policy with the code (not the code), the
    bylaw id as sent, the text and the status as sent, a fresh id and two
    successive clock readings. *)
Theorem create_suggestion_resolves_targets (w : World)
  (suggestion : SuggestionCreate.t) :
  let code := SuggestionCreate.policy_id suggestion in
  let key := SuggestionCreate.bylaw_id suggestion in
  let found_policies :=
    filter (fun r => PolicyRow.policy_id r =? the code) (policies (db w)) in
  let found_bylaws :=
    filter (fun r => BylawRow.id r =? the key) (bylaws (db w)) in
  (truthy code = true -> found_policies = [] ->
   create_suggestion suggestion w = (Raise (http 404 "Policy not found"), w))
  /\ (truthy key = true ->
      (truthy code = true -> found_policies <> []) ->
      found_bylaws = [] ->
      create_suggestion suggestion w = (Raise (http 404 "Bylaw not found"), w))
  /\ (forall d,
      fst (create_suggestion suggestion w) = Ok d ->
      exists row,
        d = convert_suggestion_from_db row
        /\ suggestions (db (snd (create_suggestion suggestion w)))
           = (suggestions (db w) ++ [row])%list
        /\ SuggestionRow.policy_id row
           = (if truthy code
              then option_map PolicyRow.id (hd_error found_policies)
              else None)
        /\ SuggestionRow.bylaw_id row
           = (if truthy key then Some (the key) else None)
        /\ SuggestionRow.suggestion row = SuggestionCreate.suggestion suggestion
        /\ SuggestionRow.status row
           = SuggestionStatus_value (SuggestionCreate.status suggestion)
        /\ SuggestionRow.id row = uuids w (issued w)
        /\ SuggestionRow.created_at row = clock w (ticks w)
        /\ SuggestionRow.updated_at row = clock w (S (ticks w))).
Proof.
  intros code key found_policies found_bylaws.
  subst code key found_policies found_bylaws. split_all.
  - intros Hcode Hnone. unfold create_suggestion. rewrite Hcode.
    cbn [negb andb]. unfold_store. store_simpl. now rewrite Hnone.
  - intros Hkey Hfound Hnone. unfold create_suggestion. rewrite Hkey.
    rewrite andb_false_r. unfold_store. store_simpl.
    destruct (truthy (SuggestionCreate.policy_id suggestion)).
    + store_simpl.
      destruct (filter _ (policies (db w))) as [|p rest];
        [now destruct Hfound|].
      store_simpl. now rewrite Hnone.
    + store_simpl. now rewrite Hnone.
  - intros d. unfold create_suggestion.
    destruct (truthy (SuggestionCreate.policy_id suggestion)) eqn:Hcode;
      destruct (truthy (SuggestionCreate.bylaw_id suggestion)) eqn:Hkey;
      cbn [negb andb]; unfold_store; store_simpl;
      try discriminate.
    + destruct (filter _ (policies (db w))) as [|p rest]; store_simpl;
        [discriminate|].
      destruct (filter _ (bylaws (db w))) as [|b rest'] eqn:Hb; store_simpl;
        [discriminate|].
      intros Hd. injection Hd as <-.
      apply in_filter_head in Hb. destruct Hb as [_ Hb].
      apply String.eqb_eq in Hb.
      eexists. split; [reflexivity|]. split; [reflexivity|].
      cbn [SuggestionRow.policy_id SuggestionRow.bylaw_id
           SuggestionRow.suggestion SuggestionRow.status SuggestionRow.id
           SuggestionRow.created_at SuggestionRow.updated_at hd_error option_map].
      rewrite Hb. repeat split; reflexivity.
    + destruct (filter _ (policies (db w))) as [|p rest]; store_simpl;
        [discriminate|].
      intros Hd. injection Hd as <-.
      eexists. split; [reflexivity|]. repeat split; reflexivity.
    + destruct (filter _ (bylaws (db w))) as [|b rest'] eqn:Hb; store_simpl;
        [discriminate|].
      intros Hd. injection Hd as <-.
      apply in_filter_head in Hb. destruct Hb as [_ Hb].
      apply String.eqb_eq in Hb.
      eexists. split; [reflexivity|]. split; [reflexivity|].
      cbn [SuggestionRow.policy_id SuggestionRow.bylaw_id
           SuggestionRow.suggestion SuggestionRow.status SuggestionRow.id
           SuggestionRow.created_at SuggestionRow.updated_at].
      rewrite Hb. repeat split; reflexivity.
Qed.

Lemma create_suggestion_resolves_targets_witness :
  create_suggestion Sample.both_targets Sample.start
  = (Raise (http 404 "Policy not found"), Sample.start)
  /\ exists row,
      fst (create_suggestion Sample.both_targets Sample.approved)
      = Ok (convert_suggestion_from_db row)
      /\ SuggestionRow.policy_id row = Some (Sample.uuids 0)
      /\ SuggestionRow.bylaw_id row = Some Sample.bylaw_key
      /\ SuggestionRow.status row = "pending".
Proof.
  split.
  - pose proof (create_suggestion_resolves_targets Sample.start
                  Sample.both_targets) as H.
    cbv zeta in H. destruct H as (Hnone & _).
    apply Hnone; reflexivity.
  - pose proof (create_suggestion_resolves_targets Sample.approved
                  Sample.both_targets) as H.
    cbv zeta in H. destruct H as (_ & _ & Hok).
    assert (Hrun : exists d,
               fst (create_suggestion Sample.both_targets Sample.approved)
               = Ok d) by (eexists; reflexivity).
    destruct Hrun as (d & Hrun).
    destruct (Hok d Hrun) as (row & Hd & _ & Hp & Hb & _ & Hs & _).
    exists row. rewrite Hrun, Hd, Hp, Hb, Hs.
    repeat split; reflexivity.
Defined.
